(** * CupaX analysis agent (src/agent/agent.py): a shallow embedding

    The agent unpacks an uploaded archive, runs the Noriben monitoring tool
    on the sample under a wall-clock timeout, and turns Noriben's two output
    files (a text summary and a CSV timeline) into a report.

    Conventions of the embedding.
    - A Python [str] is a Rocq [string]; its characters are the code points
      0..255.
    - A Python list is a Rocq [list]; [row[i] if len(row) > i else ""] is
      [cell row i].
    - The event dictionaries have a fixed set of keys and are records; a key
      that the code inserts only under a condition is an [option] field.
      The summary dictionary, which the code returns either filled or as the
      empty dictionary, is a [gmap].
    - The outside world (the file system, the external tools, the clock) is
      an explicit [world] threaded through a state-and-exception monad; what
      the tools answer is an [env] of oracles. *)

From Stdlib Require Import String Ascii ZArith QArith List Lia.
From stdpp Require Import base option list gmap strings pretty.

Local Open Scope string_scope.

(** ** Python strings *)

Definition nl : string := String (ascii_of_nat 10) "".

(** [s.startswith(p)], returning the rest of [s] behind the prefix. *)
Fixpoint strip_prefix (p s : string) : option string :=
  match p with
  | "" => Some s
  | String a p' =>
      match s with
      | String b s' => if Ascii.eqb a b then strip_prefix p' s' else None
      | "" => None
      end
  end.

(** [sub in s]. *)
Fixpoint contains (sub s : string) : bool :=
  match strip_prefix sub s with
  | Some _ => true
  | None => match s with
            | String _ s' => contains sub s'
            | "" => false
            end
  end.

(** [s.split(sep, 1)] for a one-character separator that occurs in [s]:
    the text before and behind its first occurrence. *)
Fixpoint split_once (sep : ascii) (s : string) : option (string * string) :=
  match s with
  | "" => None
  | String c s' =>
      if Ascii.eqb c sep then Some ("", s')
      else match split_once sep s' with
           | Some (a, b) => Some (String c a, b)
           | None => None
           end
  end.

(** [s.split(sep)] for a one-character separator: never the empty list. *)
Fixpoint split_on (sep : ascii) (s : string) : list string :=
  match s with
  | "" => [""]
  | String c s' =>
      if Ascii.eqb c sep then "" :: split_on sep s'
      else match split_on sep s' with
           | l :: ls => String c l :: ls
           | [] => [String c ""]
           end
  end.

(** [c.isspace()] on the code points below 256. *)
Definition isspace (c : ascii) : bool :=
  let n := nat_of_ascii c in
  (((9 <=? n) && (n <=? 13)) || ((28 <=? n) && (n <=? 32))
   || (n =? 133) || (n =? 160))%nat.

Fixpoint lstrip (s : string) : string :=
  match s with
  | String c s' => if isspace c then lstrip s' else s
  | "" => ""
  end.

Fixpoint rstrip (s : string) : string :=
  match s with
  | "" => ""
  | String c s' =>
      match rstrip s' with
      | "" => if isspace c then "" else String c ""
      | t => String c t
      end
  end.

Definition strip (s : string) : string := rstrip (lstrip s).

(** Truth value of a string: [if s:]. *)
Definition truthy (s : string) : bool :=
  match s with "" => false | _ => true end.

(** ** Logging

    The log is the list of the lines written, each with its level and its
    text.  Four lines go on with a value that this development does not
    keep: the size of the sample and the working directory in
    [run_noriben], and the error stream of the last call in the two
    external backends when every attempt has failed.  They are recorded
    with their constant text. *)

Inductive level := INFO | WARNING | ERROR.

Definition logline : Type := level * string.

(** ** The timeline parser: NoribenParser.parse_csv_timeline *)

Module Timeline.

Record ProcessEvent := {
  pe_timestamp : string;
  pe_process_name : string;
  pe_pid : string;
  pe_command_line : string;
  pe_child_pid : string }.

Record FileEvent := {
  fe_timestamp : string;
  fe_operation : string;
  fe_process_name : string;
  fe_pid : string;
  fe_path : string;
  fe_hash_type : option string;
  fe_hash : option string;
  fe_yara_hits : option string;
  fe_vt_hits : option string;
  fe_to_path : option string }.

Record RegistryEvent := {
  re_timestamp : string;
  re_operation : string;
  re_process_name : string;
  re_pid : string;
  re_path : string;
  re_data : string }.

Record NetworkEvent := {
  ne_timestamp : string;
  ne_protocol : string;
  ne_direction : string;
  ne_process_name : string;
  ne_pid : string;
  ne_remote_addr : string }.

(** The dictionary [events] of four lists. *)
Record Events := {
  process_activity : list ProcessEvent;
  file_system : list FileEvent;
  registry : list RegistryEvent;
  network : list NetworkEvent }.

Definition no_events : Events :=
  {| process_activity := []; file_system := []; registry := []; network := [] |}.

(** [row[i] if len(row) > i else ""] *)
Definition cell (row : list string) (i : nat) : string := default "" (row !! i).

(** [row[i] if row[i] else ""], under the guard [len(row) > i]. *)
Definition opt_cell (row : list string) (i : nat) : option string :=
  (fun v => if truthy v then v else "") <$> row !! i.

Definition process_event (row : list string) : ProcessEvent :=
  {| pe_timestamp := cell row 0;
     pe_process_name := cell row 3;
     pe_pid := cell row 4;
     pe_command_line := cell row 5;
     pe_child_pid := cell row 6 |}.

Definition file_event (row : list string) : FileEvent :=
  let operation := cell row 2 in
  {| fe_timestamp := cell row 0;
     fe_operation := operation;
     fe_process_name := cell row 3;
     fe_pid := cell row 4;
     fe_path := cell row 5;
     fe_hash_type := opt_cell row 6;
     fe_hash := opt_cell row 7;
     fe_yara_hits := opt_cell row 8;
     fe_vt_hits := opt_cell row 9;
     fe_to_path :=
       if String.eqb operation "RenameFile" && (6 <? length row)%nat
       then row !! 6 else None |}.

Definition registry_event (row : list string) : RegistryEvent :=
  {| re_timestamp := cell row 0;
     re_operation := cell row 2;
     re_process_name := cell row 3;
     re_pid := cell row 4;
     re_path := cell row 5;
     re_data := cell row 6 |}.

Definition network_event (row : list string) : NetworkEvent :=
  let operation := cell row 2 in
  let '(protocol, direction) :=
    match split_once " " operation with
    | Some (a, b) => (a, b)
    | None => (operation, "Unknown")
    end in
  {| ne_timestamp := cell row 0;
     ne_protocol := protocol;
     ne_direction := direction;
     ne_process_name := cell row 3;
     ne_pid := cell row 4;
     ne_remote_addr := cell row 5 |}.

(** The body of the [for row in reader] loop. *)
Definition step (events : Events) (row : list string) : Events :=
  if (length row <? 3)%nat then events
  else
    let category := cell row 1 in
    if String.eqb category "Process" then
      {| process_activity := process_activity events ++ [process_event row];
         file_system := file_system events;
         registry := registry events;
         network := network events |}
    else if String.eqb category "File" then
      {| process_activity := process_activity events;
         file_system := file_system events ++ [file_event row];
         registry := registry events;
         network := network events |}
    else if String.eqb category "Registry" then
      {| process_activity := process_activity events;
         file_system := file_system events;
         registry := registry events ++ [registry_event row];
         network := network events |}
    else if String.eqb category "Network" then
      {| process_activity := process_activity events;
         file_system := file_system events;
         registry := registry events;
         network := network events ++ [network_event row] |}
    else events.

(** What [csv.reader] hands to the loop for one record of the file: the
    list of its fields, or [csv.Error] (a field beyond the field size limit,
    a NUL byte on older interpreters), which leaves the loop; [msg] is the
    text of that error. *)
Inductive record :=
| Row (fields : list string)
| Unparsable (msg : string).

(** The loop under the [try]: the events gathered, and the text of the
    error if the reader raised. *)
Fixpoint loop (events : Events) (rs : list record) : Events * option string :=
  match rs with
  | [] => (events, None)
  | Row row :: rs' => loop (step events row) rs'
  | Unparsable msg :: _ => (events, Some msg)
  end.

(** The timeline file: [open] raises an error of text [msg], or the reader
    yields its records. *)
Inductive timeline :=
| OpenFails (msg : string)
| Opened (records : list record).

(** [logger.error(f"Failed to parse CSV timeline: {e}")] *)
Definition csv_failure (msg : string) : logline :=
  (ERROR, "Failed to parse CSV timeline: " +:+ msg).

Definition parse_csv_timeline (f : timeline) : Events * list logline :=
  match f with
  | OpenFails msg => (no_events, [csv_failure msg])
  | Opened rs =>
      match loop no_events rs with
      | (events, None) => (events, [])
      | (events, Some msg) => (events, [csv_failure msg])
      end
  end.

(** The rows the loop gets to see: those before the first record the
    reader cannot parse. *)
Fixpoint rows_read (rs : list record) : list (list string) :=
  match rs with
  | Row row :: rs' => row :: rows_read rs'
  | _ => []
  end.

(** The records of a file that the reader can parse. *)
Fixpoint parsable (rs : list record) : list record :=
  match rs with
  | [] => []
  | Row row :: rs' => Row row :: parsable rs'
  | Unparsable _ :: rs' => parsable rs'
  end.

(** A row of at least 3 fields whose second field is [category]. *)
Definition in_category (category : string) (row : list string) : bool :=
  (3 <=? length row)%nat && String.eqb (cell row 1) category.

End Timeline.

(** ** Regular expressions: the fragment of Python's [re] the agent uses

    Python's matcher backtracks: it takes the leftmost start position, the
    first alternative that leads to a match, as many repetitions as possible
    for a greedy quantifier and as few as possible for a lazy one.  The
    matcher below is written in continuation-passing style, the continuation
    being the rest of the pattern, so that a failure behind a quantifier
    makes it try its next choice.  Repetition is over one character class,
    which is all the agent's patterns need. *)

Module Regex.

Inductive regex :=
| Lit (s : string)                                   (* literal text *)
| Rep (greedy : bool) (cls : ascii -> bool) (lo : nat)
                            (* [cls{lo,}]: greedy [+], [{15,}]; lazy [*?] *)
| Cat (r1 r2 : regex)
| Alt (r1 r2 : regex)                                (* [r1|r2] *)
| Grp (r : regex)                                    (* capturing group 1 *)
| EndZ.                                              (* [\Z] *)

(** [\d] on the code points below 256, and [.] *)
Definition digit (c : ascii) : bool :=
  let n := nat_of_ascii c in ((48 <=? n) && (n <=? 57))%nat.

Definition digit_or_dot (c : ascii) : bool := digit c || Ascii.eqb c ".".

(** [.] under [re.DOTALL] *)
Definition anychar (c : ascii) : bool := true.

Definition is_char (a : ascii) (c : ascii) : bool := Ascii.eqb c a.

Section Matcher.
Context {R : Type}.

(** A continuation is given the text that was matched and the text that is
    left. *)
Fixpoint rep_greedy (cls : ascii -> bool) (lo : nat) (s : string)
    (k : string -> string -> option R) : option R :=
  let stop := match lo with O => k "" s | S _ => None end in
  match s with
  | String c s' =>
      if cls c then
        match rep_greedy cls (Nat.pred lo) s'
                (fun m rest => k (String c m) rest) with
        | Some r => Some r
        | None => stop
        end
      else stop
  | "" => stop
  end.

Fixpoint rep_lazy (cls : ascii -> bool) (lo : nat) (s : string)
    (k : string -> string -> option R) : option R :=
  let more :=
    match s with
    | String c s' =>
        if cls c
        then rep_lazy cls (Nat.pred lo) s' (fun m rest => k (String c m) rest)
        else None
    | "" => None
    end in
  match lo with
  | O => match k "" s with
         | Some r => Some r
         | None => more
         end
  | S _ => more
  end.

(** [matchk r s g k]: match [r] at the head of [s]; [g] is what group 1
    holds so far; [k] continues with the text matched, the text left and
    the group. *)
Fixpoint matchk (r : regex) (s : string) (g : option string)
    (k : string -> string -> option string -> option R) : option R :=
  match r with
  | Lit l =>
      match strip_prefix l s with
      | Some s' => k l s' g
      | None => None
      end
  | Rep true cls lo => rep_greedy cls lo s (fun m s' => k m s' g)
  | Rep false cls lo => rep_lazy cls lo s (fun m s' => k m s' g)
  | Cat r1 r2 =>
      matchk r1 s g (fun m1 s' g' =>
        matchk r2 s' g' (fun m2 s'' g'' => k (m1 +:+ m2) s'' g''))
  | Alt r1 r2 =>
      match matchk r1 s g k with
      | Some x => Some x
      | None => matchk r2 s g k
      end
  | Grp r1 => matchk r1 s g (fun m s' _ => k m s' (Some m))
  | EndZ =>
      match s with
      | "" => k "" s g
      | _ => None
      end
  end.

End Matcher.

(** [re.search(r, s)]: the match object, here what [group(1)] returns
    ([None] inside when the group took no part). *)
Fixpoint search (r : regex) (s : string) : option (option string) :=
  match matchk r s None (fun _ _ g => Some g) with
  | Some g => Some g
  | None =>
      match s with
      | String _ s' => search r s'
      | "" => None
      end
  end.

Definition group1 (m : option string) : string := default "" m.

(** [label] and [t] differ at a position that both have: [label] is then
    no prefix of [t], whatever follows [t]. *)
Fixpoint mismatch (label t : string) : bool :=
  match label, t with
  | String a label', String b t' =>
      if Ascii.eqb a b then mismatch label' t' else true
  | _, _ => false
  end.

(** No occurrence of [label] starts inside [pre], whatever follows. *)
Fixpoint clear_of (label pre : string) : bool :=
  match pre with
  | "" => true
  | String _ pre' => mismatch label pre && clear_of label pre'
  end.

End Regex.

(** ** The summary parser: NoribenParser.parse_txt_report *)

Module Summary.
Import Regex.

(** A Python [float] read from a literal of digits and dots is represented
    by the rational number the literal denotes ([12.5] is [25/2], which the
    binary format holds exactly). *)
Inductive value :=
| VFloat (q : Q)
| VInt (n : nat).

(** The digits of a literal, as a number. *)
Fixpoint digits_value (acc : Z) (s : string) : Z :=
  match s with
  | "" => acc
  | String c s' =>
      if digit c
      then digits_value (10 * acc + Z.of_nat (nat_of_ascii c - 48)) s'
      else digits_value acc s'
  end.

Fixpoint count_char (p : ascii -> bool) (s : string) : nat :=
  match s with
  | "" => 0
  | String c s' => (if p c then 1 else 0) + count_char p s'
  end.

(** [float(s)] for [s] matched by [[\d.]+]: [ValueError] ([None]) unless
    [s] has at most one dot and at least one digit. *)
Definition float_of (s : string) : option Q :=
  if ((count_char (is_char ".") s <=? 1) && (1 <=? count_char digit s))%nat then
    let frac := match split_once "." s with
                | Some (_, f) => String.length f
                | None => O
                end in
    Some (Qred (Qmake (digits_value 0 s) (Z.to_pos (10 ^ Z.of_nat frac))))
  else None.

Definition nl_char : ascii := ascii_of_nat 10.

(** [r'<label>([\d.]+) seconds'], the label ending in a colon and a space *)
Definition time_pattern (label : string) : regex :=
  Cat (Lit label) (Cat (Grp (Rep true digit_or_dot 1)) (Lit " seconds")).

(** [r'<heading>\n={15,}\n(.*?)(?:\n\n|\Z)'] with [re.DOTALL] *)
Definition section_pattern (heading : string) : regex :=
  Cat (Lit (heading +:+ nl))
   (Cat (Rep true (is_char "=") 15)
     (Cat (Lit nl)
       (Cat (Grp (Rep false anychar 0))
            (Alt (Lit (nl +:+ nl)) EndZ)))).

Definition initial_summary : gmap string value :=
  <["network_connections" := VInt 0]>
  (<["registry_modified" := VInt 0]>
  (<["files_created" := VInt 0]>
  (<["processes_created" := VInt 0]>
  (<["analysis_time" := VFloat 0]>
  (<["processing_time" := VFloat 0]>
  (<["execution_time" := VFloat 0]> ∅)))))).

(** [float(s)] for [s] matched by [[\d.]+]: the number, or the text of the
    [ValueError] (the [repr] of such an [s] is [s] between single
    quotes). *)
Definition float (s : string) : string + Q :=
  match float_of s with
  | Some q => inr q
  | None => inl ("could not convert string to float: '" +:+ s +:+ "'")
  end.

(** [m = re.search(...); if m: summary[key] = float(m.group(1))]; on the
    left the text of the [ValueError] when [float] raises. *)
Definition set_time (key label content : string)
    (summary : gmap string value) : string + gmap string value :=
  match search (time_pattern label) content with
  | Some m =>
      match float (group1 m) with
      | inr f => inr (<[key := VFloat f]> summary)
      | inl err => inl err
      end
  | None => inr summary
  end.

(** [[l for l in text.split('\n') if l.strip()]] *)
Definition nonblank_lines (text : string) : list string :=
  List.filter (fun l => truthy (strip l)) (split_on nl_char text).

(** [m = re.search(...); if m: summary[key] = len([...])] *)
Definition set_count (key heading content : string)
    (summary : gmap string value) : gmap string value :=
  match search (section_pattern heading) content with
  | Some m => <[key := VInt (length (nonblank_lines (group1 m)))]> summary
  | None => summary
  end.

Definition hosts_of (content : string) : list string :=
  match search (section_pattern "Unique Hosts:") content with
  | Some m => strip <$> nonblank_lines (group1 m)
  | None => []
  end.

Record txt_report := {
  summary : gmap string value;
  unique_hosts : list string }.

(** The body of the [try], behind the read of the file; on the left the
    text of the exception that leaves it. *)
Definition parse_body (content : string) : string + txt_report :=
  match set_time "execution_time" "Execution time: " content initial_summary with
  | inl err => inl err
  | inr s1 =>
  match set_time "processing_time" "Processing time: " content s1 with
  | inl err => inl err
  | inr s2 =>
  match set_time "analysis_time" "Analysis time: " content s2 with
  | inl err => inl err
  | inr s3 =>
      let s4 := set_count "processes_created" "Processes Created:" content s3 in
      let s5 := set_count "files_created" "File Activity:" content s4 in
      let s6 := set_count "registry_modified" "Registry Activity:" content s5 in
      let s7 := set_count "network_connections" "Network Traffic:" content s6 in
      inr {| summary := s7; unique_hosts := hosts_of content |}
  end end end.

(** The summary file: [open] or [read] raises an error of text [msg], or
    gives the text. *)
Inductive txt_file :=
| ReadFails (msg : string)
| Text (content : string).

(** [logger.error(f"Failed to parse TXT report: {e}")] *)
Definition txt_failure (msg : string) : logline :=
  (ERROR, "Failed to parse TXT report: " +:+ msg).

(** [parse_txt_report]; [except Exception] answers with the empty summary. *)
Definition parse_txt_report (f : txt_file) : txt_report * list logline :=
  match f with
  | Text content =>
      match parse_body content with
      | inr r => (r, [])
      | inl err => ({| summary := ∅; unique_hosts := [] |}, [txt_failure err])
      end
  | ReadFails msg => ({| summary := ∅; unique_hosts := [] |}, [txt_failure msg])
  end.

(** A line of [n] equals signs. *)
Fixpoint rule (n : nat) : string :=
  match n with
  | O => ""
  | S n' => String "=" (rule n')
  end.

(** A summary file in Noriben's layout, its Processes Created section
    ruled off by [n] equals signs. *)
Definition report_head : string :=
  "-=] Sandbox Analysis Report" +:+ nl +:+
  "Execution time: 12.5 seconds" +:+ nl +:+ nl +:+
  "Processes Created:" +:+ nl.

Definition report_tail : string :=
  nl +:+
  "[CreateProcess] sample.exe:1204 > cmd.exe /c whoami" +:+ nl +:+
  "[CreateProcess] cmd.exe:1310 > whoami.exe" +:+ nl +:+
  "[CreateProcess] sample.exe:1204 > notepad.exe" +:+ nl +:+ nl +:+
  "Unique Hosts:" +:+ nl +:+
  "===============" +:+ nl +:+
  "10.0.0.7" +:+ nl.

Definition report_text (n : nat) : string :=
  report_head +:+ rule n +:+ report_tail.

(** The three lines of its Processes Created section. *)
Definition report_processes_lines : string :=
  "[CreateProcess] sample.exe:1204 > cmd.exe /c whoami" +:+ nl +:+
  "[CreateProcess] cmd.exe:1310 > whoami.exe" +:+ nl +:+
  "[CreateProcess] sample.exe:1204 > notepad.exe".

End Summary.

(** ** The world outside: file system, external tools, exceptions *)

Module Py.

(** The exceptions the agent tells apart; [OtherError] is any other
    subclass of [Exception] ([OSError], [ValueError], [BadZipFile], ...). *)
Inductive exn :=
| TimeoutExpired
| RuntimeError (msg : string)
| OtherError (msg : string).

Definition str_exn (x : exn) : string :=
  match x with
  | TimeoutExpired => "Command timed out"
  | RuntimeError msg => msg
  | OtherError msg => msg
  end.

(** What the agent asks of the outside: an external command
    ([subprocess.run]) or the in-process [ZipFile.extractall]. *)
Inductive invocation :=
| Subprocess (cmd : list string) (cwd : option string)
| ExtractAll (zip_path extract_dir : string) (pwd : option string).

(** One invocation as it went: the time limit it was given, the time it ran
    and whether it was killed at the limit. *)
Record call := {
  invoked : invocation;
  time_limit : option Z;
  elapsed : Z;
  was_killed : bool }.

(** The file system is the list of the paths that exist, in the order in
    which the system enumerates them. *)
Record world := {
  fs : list string;
  log : list logline;
  calls : list call }.

Inductive outcome (A : Type) :=
| Return (a : A)
| Raise (x : exn).
Arguments Return {A} a.
Arguments Raise {A} x.

Definition py (A : Type) : Type := world -> outcome A * world.

#[export] Instance py_ret : MRet py := fun A a w => (Return a, w).

#[export] Instance py_bind : MBind py := fun A B f m w =>
  match m w with
  | (Return a, w') => f a w'
  | (Raise x, w') => (Raise x, w')
  end.

Definition raise {A} (x : exn) : py A := fun w => (Raise x, w).

(** [try: m  except <catches>: h]; an exception that [catches] refuses
    goes on. *)
Definition try_except {A} (m : py A) (catches : exn -> bool) (h : exn -> py A)
    : py A := fun w =>
  match m w with
  | (Return a, w') => (Return a, w')
  | (Raise x, w') => if catches x then h x w' else (Raise x, w')
  end.

(** [try: m  finally: f]: [f] runs whatever [m] did; the outcome is that of
    [m] unless [f] itself raises. *)
Definition try_finally {A} (m : py A) (f : py unit) : py A := fun w =>
  match m w with
  | (o, w') =>
      match f w' with
      | (Return _, w'') => (o, w'')
      | (Raise x, w'') => (Raise x, w'')
      end
  end.

(** What a computation returns or raises, and the world it leaves. *)
Definition outcome_of {A} (m : py A) (w : world) : outcome A := fst (m w).
Definition world_after {A} (m : py A) (w : world) : world := snd (m w).

(** [except Exception], [except RuntimeError], [except TimeoutExpired] *)
Definition Exception (x : exn) : bool := true.

Definition is_RuntimeError (x : exn) : bool :=
  match x with RuntimeError _ => true | _ => false end.

Definition is_TimeoutExpired (x : exn) : bool :=
  match x with TimeoutExpired => true | _ => false end.

Definition logger (l : level) (msg : string) : py unit := fun w =>
  (Return tt, {| fs := fs w; log := log w ++ [(l, msg)]; calls := calls w |}).

(** *** The oracles *)

Inductive os_call := Mkdir | Remove | Rmtree | Getsize | OpenZip.

(** What an external command does when left alone.  It exits after some
    time with a return code, having written to its two pipes either text
    ([Exits]) or bytes that the codec of the locale cannot decode
    ([Garbled], with the text of the [UnicodeDecodeError]; its two strings
    are the bytes as they are); or it never exits; or it cannot be
    launched. *)
Inductive proc_behaviour :=
| Exits (after : Z) (returncode : Z) (stdout stderr : string)
| Hangs
| SpawnFails (msg : string)
| Garbled (after : Z) (returncode : Z) (stdout stderr : string) (msg : string).

Record env := {
  (** [os.path.abspath]; the file system is keyed by absolute paths *)
  abspath : string -> string;
  (** the error, if any, with which the system refuses a call on a path *)
  os_error : os_call -> string -> option exn;
  (** [lost_before_refusal dir q]: when [shutil.rmtree(dir)] is refused,
      whether the entry [q] below [dir] was removed before the entry on
      which the removal failed *)
  lost_before_refusal : string -> string -> bool;
  (** what an external command does *)
  proc : list string -> option string -> proc_behaviour;
  (** [extractall] with a password: the time it takes and how it ends *)
  unzip : string -> string -> option string -> Z * option exn;
  (** the files an invocation leaves behind *)
  disk_after : invocation -> list string -> list string;
  (** the contents of Noriben's two output files *)
  txt_of : string -> Summary.txt_file;
  csv_of : string -> Timeline.timeline }.

Record CompletedProcess := {
  returncode : Z;
  stdout : string;
  stderr : string }.

(** [subprocess.run(cmd, stdout=PIPE, stderr=PIPE, timeout=t, cwd=d)],
    with [text=True] or without it: a command still running at the limit is
    killed and [TimeoutExpired] raised; with [text=True], the output of a
    command that has exited is decoded, and [UnicodeDecodeError] raised
    when it cannot be. *)
Definition subprocess_run (e : env) (cmd : list string) (cwd : option string)
    (timeout : Z) (text : bool) : py CompletedProcess := fun w =>
  let inv := Subprocess cmd cwd in
  let after d k :=
    {| fs := disk_after e inv (fs w);
       log := log w;
       calls := calls w ++ [{| invoked := inv; time_limit := Some timeout;
                               elapsed := d; was_killed := k |}] |} in
  match proc e cmd cwd with
  | Exits d rc out err =>
      if (d <=? timeout)%Z
      then (Return {| returncode := rc; stdout := out; stderr := err |},
            after d false)
      else (Raise TimeoutExpired, after timeout true)
  | Garbled d rc out err msg =>
      if (d <=? timeout)%Z
      then if text then (Raise (OtherError msg), after d false)
           else (Return {| returncode := rc; stdout := out; stderr := err |},
                 after d false)
      else (Raise TimeoutExpired, after timeout true)
  | Hangs => (Raise TimeoutExpired, after timeout true)
  | SpawnFails msg =>
      (Raise (OtherError msg),
       {| fs := fs w; log := log w;
          calls := calls w ++ [{| invoked := inv; time_limit := Some timeout;
                                  elapsed := 0; was_killed := false |}] |})
  end.

(** A command that is still running when [t] time units have passed. *)
Definition outlasts (b : proc_behaviour) (t : Z) : Prop :=
  match b with
  | Exits d _ _ _ => (t < d)%Z
  | Garbled d _ _ _ _ => (t < d)%Z
  | Hangs => True
  | SpawnFails _ => False
  end.

(** [zip_ref.extractall(extract_dir, pwd=...)]: no time limit. *)
Definition extractall (e : env) (zip_path extract_dir : string)
    (pwd : option string) : py unit := fun w =>
  let inv := ExtractAll zip_path extract_dir pwd in
  let '(d, ended) := unzip e zip_path extract_dir pwd in
  let w' :=
    {| fs := disk_after e inv (fs w);
       log := log w;
       calls := calls w ++ [{| invoked := inv; time_limit := None;
                               elapsed := d; was_killed := false |}] |} in
  match ended with
  | None => (Return tt, w')
  | Some x => (Raise x, w')
  end.

(** *** The file system *)

Definition on_disk (p : string) (l : list string) : bool :=
  existsb (String.eqb p) l.

(** [os.path.exists(p)], [Path(p).exists()] *)
Definition path_exists (e : env) (p : string) : py bool := fun w =>
  (Return (on_disk (abspath e p) (fs w)), w).

Definition set_fs (l : list string) (w : world) : world :=
  {| fs := l; log := log w; calls := calls w |}.

(** [Path(p).mkdir(exist_ok=True, parents=True)] *)
Definition mkdir (e : env) (p : string) : py unit := fun w =>
  match os_error e Mkdir p with
  | Some x => (Raise x, w)
  | None =>
      if on_disk (abspath e p) (fs w) then (Return tt, w)
      else (Return tt, set_fs (fs w ++ [abspath e p]) w)
  end.

(** [os.remove(p)] *)
Definition os_remove (e : env) (p : string) : py unit := fun w =>
  match os_error e Remove p with
  | Some x => (Raise x, w)
  | None =>
      if on_disk (abspath e p) (fs w)
      then (Return tt,
            set_fs (List.filter (fun q => negb (String.eqb (abspath e p) q)) (fs w)) w)
      else (Raise (OtherError "No such file or directory"), w)
  end.

(** [q] is [d] or lies below it. *)
Definition within (d q : string) : bool :=
  String.eqb d q || bool_decide (is_Some (strip_prefix (d +:+ "/") q)).

(** [shutil.rmtree(p)]: it removes the entries below [p], then [p]; when
    the system refuses one removal the error is raised there, the entries
    removed before it are gone and [p] itself is still there. *)
Definition rmtree (e : env) (p : string) : py unit := fun w =>
  match os_error e Rmtree p with
  | Some x =>
      (Raise x,
       set_fs (List.filter
                 (fun q => negb (bool_decide
                                   (is_Some (strip_prefix (abspath e p +:+ "/") q))
                                 && lost_before_refusal e p q))
                 (fs w)) w)
  | None =>
      if on_disk (abspath e p) (fs w)
      then (Return tt,
            set_fs (List.filter (fun q => negb (within (abspath e p) q)) (fs w)) w)
      else (Raise (OtherError "No such file or directory"), w)
  end.

(** [os.path.getsize(p)]; only its failure matters to the agent. *)
Definition getsize (e : env) (p : string) : py unit := fun w =>
  match os_error e Getsize p with
  | Some x => (Raise x, w)
  | None => (Return tt, w)
  end.

(** [s.endswith(suffix)] *)
Definition ends_with (suffix s : string) : bool :=
  (String.length suffix <=? String.length s)%nat
  && String.eqb (substring (String.length s - String.length suffix)
                           (String.length suffix) s) suffix.

(** The last component of a relative path. *)
Fixpoint basename (s : string) : string :=
  match s with
  | "" => ""
  | String c s' => if contains "/" s then basename s' else s
  end.

(** A glob pattern [<prefix>*<suffix>], or [**/<prefix>*<suffix>] when
    [deep]. *)
Record pattern := {
  deep : bool;
  name_prefix : string;
  name_suffix : string }.

Definition name_matches (pat : pattern) (name : string) : bool :=
  match strip_prefix (name_prefix pat) name with
  | Some rest => ends_with (name_suffix pat) rest
  | None => false
  end.

(** [Path(dir).glob(pat)] on the entries [l] of the disk: those below [dir]
    whose name matches, in enumeration order, as paths that start with
    [dir].  Names are compared as on a case-sensitive file system. *)
Definition glob_in (e : env) (dir : string) (pat : pattern) (l : list string)
    : list string :=
  omap (fun q =>
     match strip_prefix (abspath e dir +:+ "/") q with
     | Some rel =>
         if (deep pat || negb (contains "/" rel))
            && name_matches pat (basename rel)
         then Some (dir +:+ "/" +:+ rel) else None
     | None => None
     end) l.

Definition glob (e : env) (dir : string) (pat : pattern) : py (list string) :=
  fun w => (Return (glob_in e dir pat (fs w)), w).

End Py.

(** ** The agent: MalwareAnalyzer and the cleanup endpoint *)

Module Agent.
Import Py.

(** The module-level configuration, read once from the environment. *)
Record config := {
  NORIBEN_PATH : string;
  PYTHON_PATH : string;
  ANALYSIS_TIMEOUT : Z;
  WORK_DIR : string;
  UNZIP_TOOL : string;
  UNZIP_PATH : string }.

(** [Path(a) / b] *)
Definition joinpath (a b : string) : string := a +:+ "/" +:+ b.

(** [sep.join(l)] *)
Fixpoint join (sep : string) (l : list string) : string :=
  match l with
  | [] => ""
  | x :: rest =>
      match rest with
      | [] => x
      | _ => x +:+ sep +:+ join sep rest
      end
  end.

(** [if password:] on an [Optional[str]]: the password when it is given and
    not empty. *)
Definition supplied (password : option string) : option string :=
  match password with
  | Some p => if truthy p then Some p else None
  | None => None
  end.

(** [for pwd in common_passwords: ... return True], falling out of the loop
    with [false]. *)
Fixpoint for_passwords (pwds : list string) (attempt : string -> py bool)
    : py bool :=
  match pwds with
  | [] => mret false
  | pwd :: rest =>
      ok ← attempt pwd;
      if ok : bool then mret true else for_passwords rest attempt
  end.

Definition common_passwords_7z : list string :=
  ["infected"; "malware"; "virus"; "password"].

Definition _extract_with_7z (cfg : config) (e : env)
    (zip_path extract_dir : string) (password : option string) : py bool :=
  try_except
    (let cmd :=
       ([UNZIP_PATH cfg; "x"; zip_path; "-o" +:+ extract_dir; "-y"]
        ++ [match supplied password with
            | Some p => "-p" +:+ p
            | None => "-p"
            end])%list in
     logger INFO ("Extracting with 7z: " +:+ join " " (take 4 cmd) +:+ "...");;
     result ← subprocess_run e cmd None 30 true;
     if (returncode (result : CompletedProcess) =? 0)%Z then
       logger INFO "7z extraction successful";; mret true
     else
       found ←
         match supplied password with
         | None =>
             for_passwords common_passwords_7z (fun pwd =>
               let cmd_with_pwd :=
                 [UNZIP_PATH cfg; "x"; zip_path; "-o" +:+ extract_dir; "-y";
                  "-p" +:+ pwd] in
               result ← subprocess_run e cmd_with_pwd None 30 false;
               if (returncode (result : CompletedProcess) =? 0)%Z then
                 logger INFO ("7z extraction successful with password: " +:+ pwd);;
                 mret true
               else mret false)
         | Some _ => mret false
         end;
       if found : bool then mret true
       else logger ERROR "7z extraction failed";; mret false)
    Exception
    (fun x => logger ERROR ("7z extraction error: " +:+ str_exn x);; mret false).

Definition common_passwords_unzip : list string :=
  ["infected"; "malware"; "virus"; "password"].

Definition _extract_with_unzip (cfg : config) (e : env)
    (zip_path extract_dir : string) (password : option string) : py bool :=
  try_except
    (let cmd :=
       ([UNZIP_PATH cfg; "-o"; zip_path; "-d"; extract_dir]
        ++ match supplied password with
           | Some p => ["-P"; p]
           | None => []
           end)%list in
     logger INFO ("Extracting with unzip: " +:+ join " " (take 4 cmd) +:+ "...");;
     result ← subprocess_run e cmd None 30 true;
     if (returncode (result : CompletedProcess) =? 0)%Z then
       logger INFO "unzip extraction successful";; mret true
     else
       found ←
         match supplied password with
         | None =>
             for_passwords common_passwords_unzip (fun pwd =>
               let cmd_with_pwd :=
                 [UNZIP_PATH cfg; "-o"; zip_path; "-d"; extract_dir; "-P"; pwd] in
               result ← subprocess_run e cmd_with_pwd None 30 false;
               if (returncode (result : CompletedProcess) =? 0)%Z then
                 logger INFO ("unzip extraction successful with password: " +:+ pwd);;
                 mret true
               else mret false)
         | Some _ => mret false
         end;
       if found : bool then mret true
       else logger ERROR "unzip extraction failed";; mret false)
    Exception
    (fun x => logger ERROR ("unzip extraction error: " +:+ str_exn x);; mret false).

Definition common_passwords_python : list string :=
  ["infected"; "malware"; "virus"; "password"].

(** [zipfile.ZipFile(zip_path, 'r')] *)
Definition open_zip (e : env) (zip_path : string) : py unit := fun w =>
  match os_error e OpenZip zip_path with
  | Some x => (Raise x, w)
  | None => (Return tt, w)
  end.

Definition _extract_with_python (cfg : config) (e : env)
    (zip_path extract_dir : string) (password : option string) : py bool :=
  try_except
    (open_zip e zip_path;;
     match supplied password with
     | Some p =>
         extractall e zip_path extract_dir (Some p);;
         logger INFO "Python zipfile extraction successful with password";;
         mret true
     | None =>
         try_except
           (extractall e zip_path extract_dir None;;
            logger INFO "Python zipfile extraction successful";;
            mret true)
           is_RuntimeError
           (fun _ =>
              found ←
                for_passwords common_passwords_python (fun pwd =>
                  try_except
                    (extractall e zip_path extract_dir (Some pwd);;
                     logger INFO
                       ("Python zipfile extraction successful with password: "
                        +:+ pwd);;
                     mret true)
                    is_RuntimeError
                    (fun _ => mret false));
              if found : bool then mret true
              else
                logger ERROR
                  "Python zipfile: password required or unsupported compression";;
                mret false)
     end)
    Exception
    (fun x =>
       logger ERROR ("Python zipfile extraction error: " +:+ str_exn x);;
       mret false).

(** The extensions of [extract_zip], in the order of its list of patterns
    [*.exe], [*.dll], ... *)
Definition executable_extensions : list string :=
  [".exe"; ".dll"; ".scr"; ".bat"; ".cmd"; ".ps1"].

(** [for ext in [...]: executables.extend(glob(ext));
    executables.extend(glob('**/' + ext))] *)
Fixpoint find_executables (e : env) (dir : string) (exts : list string)
    : py (list string) :=
  match exts with
  | [] => mret []
  | ext :: rest =>
      here ← glob e dir {| deep := false; name_prefix := ""; name_suffix := ext |};
      below ← glob e dir {| deep := true; name_prefix := ""; name_suffix := ext |};
      more ← find_executables e dir rest;
      mret (here ++ below ++ more)%list
  end.

(** The end of [extract_zip], behind a successful extraction: gather the
    executables and return the first. *)
Definition select_executable (e : env) (extract_dir : string)
    : py (option string) :=
  executables ← find_executables e extract_dir executable_extensions;
  match executables : list string with
  | [] => logger ERROR "No executable found in zip";; mret None
  | exe_path :: _ =>
      logger INFO ("Extracted executable: " +:+ exe_path);;
      mret (Some exe_path)
  end.

(** The backend that [UNZIP_TOOL] selects. *)
Definition configured_backend (cfg : config) (e : env)
    (zip_path extract_dir : string) (password : option string) : py bool :=
  if String.eqb (UNZIP_TOOL cfg) "7z"
  then _extract_with_7z cfg e zip_path extract_dir password
  else if String.eqb (UNZIP_TOOL cfg) "unzip"
  then _extract_with_unzip cfg e zip_path extract_dir password
  else _extract_with_python cfg e zip_path extract_dir password.

Definition extract_zip (cfg : config) (e : env)
    (zip_path analysis_id : string) (password : option string)
    : py (option string) :=
  try_except
    (let extract_dir := joinpath (WORK_DIR cfg) (analysis_id +:+ "_extracted") in
     mkdir e extract_dir;;
     logger INFO ("Extracting to: " +:+ extract_dir);;
     success ← configured_backend cfg e zip_path extract_dir password;
     if negb (success : bool) then
       logger ERROR "Failed to extract zip file";; mret None
     else select_executable e extract_dir)
    Exception
    (fun x => logger ERROR ("Failed to extract zip: " +:+ str_exn x);; mret None).

(** The dictionary [report] of [parse_results]. *)
Record Report := {
  r_summary : gmap string Summary.value;
  r_process_activity : list Timeline.ProcessEvent;
  r_file_system : list Timeline.FileEvent;
  r_registry : list Timeline.RegistryEvent;
  r_network : list Timeline.NetworkEvent;
  r_unique_hosts : list string }.

Definition log_all (ls : list logline) : py unit := fun w =>
  (Return tt, {| fs := fs w; log := (log w ++ ls)%list; calls := calls w |}).

Definition parse_results (e : env) (output_dir : string) : py (option Report) :=
  try_except
    (txt_files ←
       glob e output_dir
         {| deep := false; name_prefix := "Noriben_"; name_suffix := ".txt" |};
     csv_files ←
       glob e output_dir
         {| deep := false; name_prefix := "Noriben_";
            name_suffix := "_timeline.csv" |};
     match txt_files : list string, csv_files : list string with
     | txt_file :: _, csv_file :: _ =>
         logger INFO ("Parsing results from: " +:+ txt_file +:+ ", " +:+ csv_file);;
         let '(txt_data, txt_log) := Summary.parse_txt_report (txt_of e txt_file) in
         log_all txt_log;;
         let '(csv_data, csv_log) := Timeline.parse_csv_timeline (csv_of e csv_file) in
         log_all csv_log;;
         let report :=
           {| r_summary := Summary.summary txt_data;
              r_process_activity := Timeline.process_activity csv_data;
              r_file_system := Timeline.file_system csv_data;
              r_registry := Timeline.registry csv_data;
              r_network := Timeline.network csv_data;
              r_unique_hosts := Summary.unique_hosts txt_data |} in
         logger INFO
           ("Parsed " +:+ pretty (length (r_process_activity report))
            +:+ " process events, "
            +:+ pretty (length (r_file_system report)) +:+ " file events, "
            +:+ pretty (length (r_registry report)) +:+ " registry events, "
            +:+ pretty (length (r_network report)) +:+ " network events");;
         mret (Some report)
     | _, _ =>
         logger ERROR "Noriben output files not found";; mret None
     end)
    Exception
    (fun x => logger ERROR ("Failed to parse results: " +:+ str_exn x);; mret None).

(** [os.path.dirname] *)
Fixpoint head_of (s : string) : string :=
  match s with
  | "" => ""
  | String c s' => if contains "/" s then String c (head_of s') else ""
  end.

Fixpoint rstrip_slash (s : string) : string :=
  match s with
  | "" => ""
  | String c s' =>
      match rstrip_slash s' with
      | "" => if Ascii.eqb c "/" then "" else String c ""
      | t => String c t
      end
  end.

Definition dirname (s : string) : string :=
  match rstrip_slash (head_of s) with
  | "" => head_of s
  | t => t
  end.

(** The dictionary [run_noriben] returns: [{"success": True, "report": r}]
    or [{"success": False, "error": msg}]. *)
Inductive result :=
| Success (report : Report)
| Failure (error : string).

(** The two [try] statements of the [finally] block of [run_noriben]. *)
Definition remove_sample (e : env) (sample_path : string) : py unit :=
  try_except
    (there ← path_exists e sample_path;
     if there : bool then
       os_remove e sample_path;;
       logger INFO ("Cleaned up sample: " +:+ sample_path)
     else mret tt)
    Exception
    (fun x => logger WARNING ("Failed to cleanup sample: " +:+ str_exn x)).

Definition remove_extraction_dir (cfg : config) (e : env)
    (analysis_id : string) : py unit :=
  try_except
    (let extract_dir := joinpath (WORK_DIR cfg) (analysis_id +:+ "_extracted") in
     there ← path_exists e extract_dir;
     if there : bool then
       rmtree e extract_dir;;
       logger INFO ("Cleaned up extraction directory: " +:+ extract_dir)
     else mret tt)
    Exception
    (fun x =>
       logger WARNING ("Failed to cleanup extraction directory: " +:+ str_exn x)).

(** The [finally] block of [run_noriben]. *)
Definition cleanup_sample (cfg : config) (e : env)
    (sample_path analysis_id : string) : py unit :=
  remove_sample e sample_path;;
  remove_extraction_dir cfg e analysis_id.

(** The command line of the monitoring tool and the directory it is run
    from. *)
Definition noriben_cmd (cfg : config) (e : env)
    (sample_path analysis_id : string) : list string :=
  [PYTHON_PATH cfg; abspath e (NORIBEN_PATH cfg);
   "--cmd"; abspath e sample_path;
   "--timeout"; pretty (ANALYSIS_TIMEOUT cfg);
   "--headless";
   "--output"; abspath e (joinpath (WORK_DIR cfg) analysis_id)].

Definition noriben_cwd (cfg : config) (e : env) : option string :=
  Some (dirname (abspath e (NORIBEN_PATH cfg))).

(** The [try] block of [run_noriben] with its two [except] clauses. *)
Definition run_noriben_body (cfg : config) (e : env)
    (sample_path analysis_id : string) : py result :=
  try_except
    (logger INFO ("Starting Noriben analysis: " +:+ analysis_id);;
     let output_dir := joinpath (WORK_DIR cfg) analysis_id in
     mkdir e output_dir;;
     let abs_sample_path := abspath e sample_path in
     there ← path_exists e abs_sample_path;
     if negb (there : bool) then
       logger ERROR ("Sample file not found: " +:+ abs_sample_path);;
       mret (Failure ("Sample file not found: " +:+ abs_sample_path))
     else
       let cmd := noriben_cmd cfg e sample_path analysis_id in
       logger INFO ("Executing: " +:+ join " " cmd);;
       getsize e abs_sample_path;;
       logger INFO "Sample file size";;
       logger INFO "Working directory";;
       process ←
         subprocess_run e cmd (noriben_cwd cfg e) (ANALYSIS_TIMEOUT cfg + 60)
           true;
       logger INFO ("Noriben returned with code: "
                    +:+ pretty (returncode (process : CompletedProcess)));;
       (if truthy (stdout process)
        then logger INFO ("STDOUT: " +:+ String.substring 0 500 (stdout process))
        else mret tt);;
       if negb (returncode process =? 0)%Z then
         logger ERROR ("Noriben failed with code "
                       +:+ pretty (returncode process));;
         logger ERROR ("STDERR: " +:+ stderr process);;
         logger ERROR ("STDOUT: " +:+ stdout process);;
         mret (Failure ("Noriben execution failed (code "
                        +:+ pretty (returncode process) +:+ "): "
                        +:+ stderr process))
       else
         report ← parse_results e output_dir;
         match report : option Report with
         | None => mret (Failure "Failed to parse Noriben output")
         | Some r =>
             logger INFO "Analysis completed successfully";;
             mret (Success r)
         end)
    Exception
    (fun x =>
       if is_TimeoutExpired x then
         logger ERROR "Noriben execution timed out";;
         mret (Failure "Analysis timeout")
       else
         logger ERROR ("Analysis failed: " +:+ str_exn x);;
         mret (Failure (str_exn x))).

Definition run_noriben (cfg : config) (e : env)
    (sample_path analysis_id : string) : py result :=
  try_finally
    (run_noriben_body cfg e sample_path analysis_id)
    (cleanup_sample cfg e sample_path analysis_id).

(** The answer of an endpoint: the JSON body and the status code. *)
Record response := {
  success : bool;
  error : option string;
  status : Z }.

(** [DELETE /cleanup/<analysis_id>] *)
Definition cleanup (cfg : config) (e : env) (analysis_id : string)
    : py response :=
  try_except
    (let output_dir := joinpath (WORK_DIR cfg) analysis_id in
     there ← path_exists e output_dir;
     (if there : bool then rmtree e output_dir else mret tt);;
     mret {| success := true; error := None; status := 200 |})
    Exception
    (fun x =>
       logger ERROR ("Cleanup failed: " +:+ str_exn x);;
       mret {| success := false; error := Some (str_exn x); status := 500 |}).

End Agent.

(** ** The password policy and the choice of the sample, in the words of
    the specification

    These definitions do not come from the code: they say what the
    specification asks of the extraction backends and of [extract_zip], and
    the code is compared with them below. *)

Module Policy.
Import Py Agent.

Inductive backend := SevenZip | Unzip | Python.

Definition extract_with (b : backend)
    : config -> env -> string -> string -> option string -> py bool :=
  match b with
  | SevenZip => _extract_with_7z
  | Unzip => _extract_with_unzip
  | Python => _extract_with_python
  end.

(** The fixed fallback list of the specification. *)
Definition fallback_passwords : list string :=
  ["infected"; "malware"; "virus"; "password"].

(** How one attempt ends: the archive is unpacked, the tool reports a
    failure, or the attempt breaks off (time limit, tool missing, broken
    archive). *)
Inductive verdict := Accepted | Rejected | Aborted.

(** Try the attempts one after the other, up to the first that is not
    rejected: the attempts made, and how the sequence ended ([Rejected]
    when every attempt was). *)
Fixpoint try_in_order (judge : option string -> verdict)
    (attempts : list (option string)) : list (option string) * verdict :=
  match attempts with
  | [] => ([], Rejected)
  | a :: rest =>
      match judge a with
      | Rejected =>
          let '(tried, v) := try_in_order judge rest in (a :: tried, v)
      | v => ([a], v)
      end
  end.

(** A password is supplied when one is given and it is not empty. *)
Definition given (password : option string) : option string :=
  match password with
  | Some (String c p) => Some (String c p)
  | _ => None
  end.

(** A supplied password is the only one tried; without one, an attempt
    with no password comes first, then the fallback list in its order. *)
Definition password_policy (judge : option string -> verdict)
    (password : option string) : list (option string) * verdict :=
  match given password with
  | Some p => ([Some p], judge (Some p))
  | None => try_in_order judge (None :: map Some fallback_passwords)
  end.

Definition accepted (v : verdict) : bool :=
  match v with Accepted => true | _ => false end.

(** The policy as the specification words it: the attempts are tried one
    after the other, stopping at the first success and at nothing else;
    the attempts made, and whether one succeeded. *)
Fixpoint until_success (judge : option string -> verdict)
    (attempts : list (option string)) : list (option string) * bool :=
  match attempts with
  | [] => ([], false)
  | a :: rest =>
      if accepted (judge a) then ([a], true)
      else let '(tried, ok) := until_success judge rest in (a :: tried, ok)
  end.

Definition stated_policy (judge : option string -> verdict)
    (password : option string) : list (option string) * bool :=
  match given password with
  | Some p => ([Some p], accepted (judge (Some p)))
  | None => until_success judge (None :: map Some fallback_passwords)
  end.

(** Whether an attempt is the first call of a backend: the 7z and the
    unzip backend read the output of their first call as text, and that of
    the calls of their loop over the fallback list as bytes. *)
Definition first_call (password a : option string) : bool :=
  match given password with
  | Some _ => true
  | None => match a with None => true | Some _ => false end
  end.

(** The invocation by which a backend makes an attempt; [None] is the
    attempt with no password. *)
Definition attempt_call (b : backend) (cfg : config)
    (zip_path extract_dir : string) (a : option string) : invocation :=
  match b with
  | SevenZip =>
      Subprocess [UNZIP_PATH cfg; "x"; zip_path; "-o" +:+ extract_dir; "-y";
                  "-p" +:+ default "" a] None
  | Unzip =>
      Subprocess ([UNZIP_PATH cfg; "-o"; zip_path; "-d"; extract_dir]
                  ++ match a with Some p => ["-P"; p] | None => [] end)%list
                 None
  | Python => ExtractAll zip_path extract_dir a
  end.

(** How the environment answers an invocation that is allowed 30 time
    units when it is an external command and any time when it is the
    in-process library; [text] says whether the output of the command is
    to be decoded. *)
Definition verdict_of (e : env) (text : bool) (inv : invocation) : verdict :=
  match inv with
  | Subprocess cmd cwd =>
      match proc e cmd cwd with
      | Exits d rc _ _ =>
          if (d <=? 30)%Z
          then (if (rc =? 0)%Z then Accepted else Rejected)
          else Aborted
      | Garbled d rc _ _ _ =>
          if (d <=? 30)%Z
          then (if text then Aborted
                else if (rc =? 0)%Z then Accepted else Rejected)
          else Aborted
      | Hangs => Aborted
      | SpawnFails _ => Aborted
      end
  | ExtractAll zip_path extract_dir pwd =>
      match snd (unzip e zip_path extract_dir pwd) with
      | None => Accepted
      | Some x => if is_RuntimeError x then Rejected else Aborted
      end
  end.

(** The trace such an invocation leaves. *)
Definition went (e : env) (inv : invocation) : call :=
  match inv with
  | Subprocess cmd cwd =>
      let killed := {| invoked := inv; time_limit := Some 30%Z;
                       elapsed := 30; was_killed := true |} in
      match proc e cmd cwd with
      | Exits d _ _ _ | Garbled d _ _ _ _ =>
          if (d <=? 30)%Z
          then {| invoked := inv; time_limit := Some 30%Z;
                  elapsed := d; was_killed := false |}
          else killed
      | Hangs => killed
      | SpawnFails _ =>
          {| invoked := inv; time_limit := Some 30%Z;
             elapsed := 0; was_killed := false |}
      end
  | ExtractAll zip_path extract_dir pwd =>
      {| invoked := inv; time_limit := None;
         elapsed := fst (unzip e zip_path extract_dir pwd);
         was_killed := false |}
  end.

(** The configuration with another analysis timeout. *)
Definition with_timeout (cfg : config) (t : Z) : config :=
  {| NORIBEN_PATH := NORIBEN_PATH cfg;
     PYTHON_PATH := PYTHON_PATH cfg;
     ANALYSIS_TIMEOUT := t;
     WORK_DIR := WORK_DIR cfg;
     UNZIP_TOOL := UNZIP_TOOL cfg;
     UNZIP_PATH := UNZIP_PATH cfg |}.

(** The environment in which the system answers removals ([os.remove],
    [shutil.rmtree]) as [refuse] says, and everything else as in [e]. *)
Definition with_refusals (e : env)
    (refuse : os_call -> string -> option exn) : env :=
  {| abspath := abspath e;
     os_error := fun op p =>
       match op with
       | Remove | Rmtree => refuse op p
       | _ => os_error e op p
       end;
     lost_before_refusal := lost_before_refusal e;
     proc := proc e;
     unzip := unzip e;
     disk_after := disk_after e;
     txt_of := txt_of e;
     csv_of := csv_of e |}.




(** The entries below [dir], as paths relative to it, in enumeration
    order. *)
Definition below (e : env) (dir : string) (l : list string) : list string :=
  omap (strip_prefix (abspath e dir +:+ "/")) l.



Definition here_pattern (ext : string) : pattern :=
  {| deep := false; name_prefix := ""; name_suffix := ext |}.

Definition deep_pattern (ext : string) : pattern :=
  {| deep := true; name_prefix := ""; name_suffix := ext |}.

(** The list [executables] of [extract_zip] as a function of the disk. *)
Definition found (e : env) (dir : string) (exts : list string)
    (l : list string) : list string :=
  flat_map (fun ext => (glob_in e dir (here_pattern ext) l
                        ++ glob_in e dir (deep_pattern ext) l)%list) exts.

End Policy.

(** ** The HTTP endpoint: analyze *)

Module Http.
Import Py Agent.

(** [c.lower()] on the code points below 256: the letters A to Z, and the
    capital letters of Latin-1 (all of 192..222 but the multiplication
    sign). *)
Definition lower_char (c : ascii) : ascii :=
  let n := nat_of_ascii c in
  if (((65 <=? n) && (n <=? 90))
      || ((192 <=? n) && (n <=? 222) && negb (n =? 215)))%nat
  then ascii_of_nat (n + 32) else c.

Fixpoint lower (s : string) : string :=
  match s with
  | "" => ""
  | String c s' => String (lower_char c) (lower s')
  end.

(** [os.path.splitext(p)[1]] for a file name: the text from the last dot
    on, provided a character other than a dot stands before that dot. *)
Fixpoint ext_from (seen : bool) (s : string) : string :=
  match s with
  | "" => ""
  | String c s' =>
      match ext_from (seen || negb (Ascii.eqb c ".")) s' with
      | "" => if Ascii.eqb c "." && seen then s else ""
      | r => r
      end
  end.

Definition splitext_ext (p : string) : string := ext_from false (basename p).

(** How [file.save] fails: the destination cannot be opened, or the copy
    into it breaks off, the destination then being there with part of the
    content. *)
Inductive save_failure :=
| CannotOpen (x : exn)
| CopyFails (x : exn).

Definition save_exn (f : save_failure) : exn :=
  match f with CannotOpen x | CopyFails x => x end.

(** The uploaded file: its name, and the way, if any, in which [file.save]
    fails. *)
Record upload := {
  filename : option string;
  save_error : option save_failure }.

(** The multipart request: [request.files] and [request.form]. *)
Record request := {
  files_file : option upload;
  form_analysis_id : option string;
  form_password : option string;
  form_is_zip : option string }.

(** [file.save(path)]: the destination is opened for writing, which
    creates it, and the content copied into it. *)
Definition save (file : upload) (e : env) (path : string) : py unit := fun w =>
  let created :=
    if on_disk (abspath e path) (fs w) then w
    else set_fs (fs w ++ [abspath e path]) w in
  match save_error file with
  | Some (CannotOpen x) => (Raise x, w)
  | Some (CopyFails x) => (Raise x, created)
  | None => (Return tt, created)
  end.

(** The answer of the endpoint: the JSON body, which has the shape of the
    dictionary of [run_noriben], and the status code. *)
Record reply := {
  body : result;
  code : Z }.

(** [request.form.get('is_zip', 'false').lower() == 'true'] *)
Definition is_zip_of (req : request) : bool :=
  String.eqb (lower (default "false" (form_is_zip req))) "true".

(** The path under which the upload is saved. *)
Definition temp_file_of (cfg : config) (analysis_id original_filename : string)
    : string :=
  joinpath (WORK_DIR cfg)
    (analysis_id +:+ "_upload" +:+ splitext_ext original_filename).

(** [result = analyzer.run_noriben(...)] and the two [return]s behind it. *)
Definition run_and_answer (cfg : config) (e : env)
    (sample_path analysis_id : string) : py reply :=
  res ← run_noriben cfg e sample_path analysis_id;
  match res : result with
  | Success _ => mret {| body := res; code := 200 |}
  | Failure _ => mret {| body := res; code := 500 |}
  end.

(** The end of [analyze], behind the saving of the upload: unpack if the
    upload is an archive, run the analysis, answer. *)
Definition analyze_saved (cfg : config) (e : env) (req : request)
    (analysis_id temp_file : string) : py reply :=
  if is_zip_of req then
    logger INFO ("Extracting infected zip: " +:+ analysis_id);;
    sample_path ← extract_zip cfg e temp_file analysis_id (form_password req);
    try_except (os_remove e temp_file) Exception (fun _ => mret tt);;
    match supplied sample_path with
    | None =>
        mret {| body := Failure "Failed to extract zip file"; code := 400 |}
    | Some sample_path => run_and_answer cfg e sample_path analysis_id
    end
  else run_and_answer cfg e temp_file analysis_id.

(** [POST /analyze] *)
Definition analyze (cfg : config) (e : env) (req : request) : py reply :=
  try_except
    (match files_file req with
     | None => mret {| body := Failure "No file uploaded"; code := 400 |}
     | Some file =>
         match supplied (form_analysis_id req) with
         | None =>
             mret {| body := Failure "analysis_id required"; code := 400 |}
         | Some analysis_id =>
             logger INFO ("Received analysis request: " +:+ analysis_id);;
             match filename file with
             | None =>
                 raise (OtherError
                   "expected str, bytes or os.PathLike object, not NoneType")
             | Some original_filename =>
                 let temp_file :=
                   temp_file_of cfg analysis_id original_filename in
                 save file e temp_file;;
                 logger INFO ("Saved uploaded file: " +:+ temp_file
                              +:+ " (original: " +:+ original_filename
                              +:+ ")");;
                 analyze_saved cfg e req analysis_id temp_file
             end
         end
     end)
    Exception
    (fun x =>
       logger ERROR ("Analysis request failed: " +:+ str_exn x);;
       mret {| body := Failure (str_exn x); code := 500 |}).

End Http.

(** ** The layout of the timeline, in the words of the data model

    These definitions do not come from the code: they say which column of
    a timeline row the data model of the specification puts in which field
    of an event, and the parser is compared with them below. *)

Module DataModel.
Import Timeline.

(** Column [i] of a row, counted from 0; the empty string when the row
    stops before it. *)
Definition column (row : list string) (i : nat) : string := nth i row "".

(** Column [i] of a row when the row has it. *)
Definition optional (row : list string) (i : nat) : option string :=
  if (i <? length row)%nat then Some (nth i row "") else None.

(** A row that is kept in the list of [category]. *)
Definition kept (category : string) (row : list string) : bool :=
  (3 <=? length row)%nat && String.eqb (column row 1) category.

Definition process_row (row : list string) : ProcessEvent :=
  {| pe_timestamp := column row 0;
     pe_process_name := column row 3;
     pe_pid := column row 4;
     pe_command_line := column row 5;
     pe_child_pid := column row 6 |}.

Definition file_row (row : list string) : FileEvent :=
  {| fe_timestamp := column row 0;
     fe_operation := column row 2;
     fe_process_name := column row 3;
     fe_pid := column row 4;
     fe_path := column row 5;
     fe_hash_type := optional row 6;
     fe_hash := optional row 7;
     fe_yara_hits := optional row 8;
     fe_vt_hits := optional row 9;
     fe_to_path :=
       if String.eqb (column row 2) "RenameFile" then optional row 6
       else None |}.

Definition registry_row (row : list string) : RegistryEvent :=
  {| re_timestamp := column row 0;
     re_operation := column row 2;
     re_process_name := column row 3;
     re_pid := column row 4;
     re_path := column row 5;
     re_data := column row 6 |}.

(** Protocol and direction: the combined column split on its first space,
    the direction "Unknown" when there is none. *)
Definition network_row (row : list string) : NetworkEvent :=
  {| ne_timestamp := column row 0;
     ne_protocol := match split_once " " (column row 2) with
                    | Some (a, _) => a
                    | None => column row 2
                    end;
     ne_direction := match split_once " " (column row 2) with
                     | Some (_, b) => b
                     | None => "Unknown"
                     end;
     ne_process_name := column row 3;
     ne_pid := column row 4;
     ne_remote_addr := column row 5 |}.

(** The text of the error that ends the parse of a timeline, if any: that
    of [open], or that of the first record the reader cannot read. *)
Fixpoint first_unreadable (rs : list record) : option string :=
  match rs with
  | [] => None
  | Row _ :: rs' => first_unreadable rs'
  | Unparsable msg :: _ => Some msg
  end.

Definition first_error (f : timeline) : option string :=
  match f with
  | OpenFails msg => Some msg
  | Opened rs => first_unreadable rs
  end.

End DataModel.

(** ** The layout of the summary file, in the words of the specification

    These definitions do not come from the code: they say what the
    specification means by a number, by the lines of a section and by the
    end of a section, and the parser is run on texts of this layout
    below. *)

Module SummaryLayout.

(** Every character of [s] is in the class [p]. *)
Fixpoint all_chars (p : ascii -> bool) (s : string) : bool :=
  match s with
  | "" => true
  | String c s' => p c && all_chars p s'
  end.

(** A text of digits and dots, not empty. *)
Definition digits_and_dots (s : string) : bool :=
  truthy s && all_chars Regex.digit_or_dot s.

Definition not_newline (c : ascii) : bool := negb (Ascii.eqb c Summary.nl_char).

(** A line of a section: it is not blank and holds no line break. *)
Definition section_line (l : string) : bool :=
  truthy (strip l) && all_chars not_newline l.

(** The lines, each on a line of its own. *)
Fixpoint join_lines (ls : list string) : string :=
  match ls with
  | [] => ""
  | l :: ls' =>
      match ls' with
      | [] => l
      | _ => l +:+ nl +:+ join_lines ls'
      end
  end.

(** What stands behind a section: a blank line, or the end of the text. *)
Definition ends_section (tail : string) : bool :=
  match tail with
  | "" => true
  | _ => match strip_prefix (nl +:+ nl) tail with
         | Some _ => true
         | None => false
         end
  end.

(** No blank line and no end of text inside [body], [tail] standing
    behind it. *)
Fixpoint unbroken (body tail : string) : bool :=
  match body with
  | "" => true
  | String c b => negb (ends_section (body +:+ tail)) && unbroken b tail
  end.

End SummaryLayout.

(** ** Invariants of the data the agent builds, and the notions in which
    the further properties are stated *)

Module Invariants.
Import Summary.

(** A summary whose three timing fields hold floats that are not negative
    and whose four counts hold integers. *)
Definition well_typed (s : gmap string value) : Prop :=
  (forall key, key ∈ ["execution_time"; "processing_time"; "analysis_time"] ->
     exists q, s !! key = Some (VFloat q) /\ (0 <= q)%Q)
  /\ (forall key, key ∈ ["processes_created"; "files_created";
                         "registry_modified"; "network_connections"] ->
      exists n, s !! key = Some (VInt n)).

(** The report that [parse_results] builds from an output directory, as a
    function of the disk. *)
Definition report_of (e : Py.env) (output_dir : string) (l : list string)
    : option Agent.Report :=
  match Py.glob_in e output_dir
          {| Py.deep := false; Py.name_prefix := "Noriben_";
             Py.name_suffix := ".txt" |} l,
        Py.glob_in e output_dir
          {| Py.deep := false; Py.name_prefix := "Noriben_";
             Py.name_suffix := "_timeline.csv" |} l with
  | t :: _, c :: _ =>
      let txt_data := fst (Summary.parse_txt_report (Py.txt_of e t)) in
      let csv_data := fst (Timeline.parse_csv_timeline (Py.csv_of e c)) in
      Some {| Agent.r_summary := Summary.summary txt_data;
              Agent.r_process_activity := Timeline.process_activity csv_data;
              Agent.r_file_system := Timeline.file_system csv_data;
              Agent.r_registry := Timeline.registry csv_data;
              Agent.r_network := Timeline.network csv_data;
              Agent.r_unique_hosts := Summary.unique_hosts txt_data |}
  | _, _ => None
  end.

(** What the handlers of [run_noriben] make of an exception. *)
Definition failure_of (x : Py.exn) : Agent.result :=
  if Py.is_TimeoutExpired x then Agent.Failure "Analysis timeout"
  else Agent.Failure (Py.str_exn x).

(** The disk behind [mkdir(exist_ok=True)] of a path. *)
Definition with_dir (p : string) (l : list string) : list string :=
  if Py.on_disk p l then l else l ++ [p].

(** The backend that the setting [UNZIP_TOOL] stands for. *)
Definition backend_of (cfg : Agent.config) : Policy.backend :=
  if String.eqb (Agent.UNZIP_TOOL cfg) "7z" then Policy.SevenZip
  else if String.eqb (Agent.UNZIP_TOOL cfg) "unzip" then Policy.Unzip
  else Policy.Python.

(** The world in which a message has been logged. *)
Definition logged (l : level) (msg : string) (w : Py.world) : Py.world :=
  {| Py.fs := Py.fs w; Py.log := Py.log w ++ [(l, msg)];
     Py.calls := Py.calls w |}.

(** The answers of [analyze]: 200 with a report, 400 with one of three
    messages, 500 with an error. *)
Definition well_formed (r : Http.reply) : Prop :=
  match Http.body r with
  | Agent.Success _ => Http.code r = 200%Z
  | Agent.Failure msg =>
      Http.code r = 500%Z
      \/ (Http.code r = 400%Z
          /\ msg ∈ ["No file uploaded"; "analysis_id required";
                    "Failed to extract zip file"])
  end.

(** A request that passes the checks of [analyze] and whose upload can be
    saved: the uploaded file, the analysis identifier, the file's name. *)
Definition accepted_upload (req : Http.request) (file : Http.upload)
    (analysis_id original_filename : string) : Prop :=
  Http.files_file req = Some file
  /\ Agent.supplied (Http.form_analysis_id req) = Some analysis_id
  /\ Http.filename file = Some original_filename
  /\ Http.save_error file = None.

(** The world in which [analyze] has saved the upload. *)
Definition after_save (cfg : Agent.config) (e : Py.env)
    (analysis_id original_filename : string) (w : Py.world) : Py.world :=
  let temp_file := Http.temp_file_of cfg analysis_id original_filename in
  logged INFO ("Saved uploaded file: " +:+ temp_file
               +:+ " (original: " +:+ original_filename +:+ ")")
    (Py.set_fs (with_dir (Py.abspath e temp_file) (Py.fs w))
       (logged INFO ("Received analysis request: " +:+ analysis_id) w)).

End Invariants.

(** * Properties *)

Local Open Scope list_scope.

(** ** Strings *)

Lemma strip_prefix_append (a s : string) : strip_prefix a (a +:+ s) = Some s.
Proof.
  induction a as [| c a IH]; simpl; [done |]. by rewrite Ascii.eqb_refl.
Qed.

Lemma append_assoc (a b c : string) : (a +:+ b) +:+ c = a +:+ b +:+ c.
Proof.
  induction a as [| x a IH]; [done |].
  change (String x ((a +:+ b) +:+ c) = String x (a +:+ b +:+ c)). by f_equal.
Qed.

Lemma append_nil_r (s : string) : s +:+ "" = s.
Proof.
  induction s as [| c s IH]; [done |].
  change (String c s +:+ "") with (String c (s +:+ "")). by rewrite IH.
Qed.

(** ** The timeline parser *)

Section TimelineFacts.
Import Timeline.

Lemma cell_missing (row : list string) (i : nat) :
  (length row <= i)%nat -> cell row i = "".
Proof.
  intros Hlen. unfold cell. by rewrite lookup_ge_None_2.
Qed.

Lemma cell_present (row : list string) (i : nat) (v : string) :
  row !! i = Some v -> cell row i = v.
Proof. intros H. unfold cell. by rewrite H. Qed.

Lemma step_short (events : Events) (row : list string) :
  (length row < 3)%nat -> step events row = events.
Proof.
  intros Hlen. unfold step.
  destruct (Nat.ltb_spec (length row) 3); [done | lia].
Qed.

(** One row adds one event to the list of its category and leaves the
    other three lists alone. *)
Lemma step_lists (events : Events) (row : list string) :
  process_activity (step events row)
    = process_activity events
        ++ (if in_category "Process" row then [process_event row] else [])
  /\ file_system (step events row)
    = file_system events
        ++ (if in_category "File" row then [file_event row] else [])
  /\ registry (step events row)
    = registry events
        ++ (if in_category "Registry" row then [registry_event row] else [])
  /\ network (step events row)
    = network events
        ++ (if in_category "Network" row then [network_event row] else []).
Proof.
  unfold step, in_category. cbv zeta.
  remember (cell row 1) as category eqn:Hcat. clear Hcat.
  destruct (Nat.ltb_spec (length row) 3) as [Hlt | Hge].
  - destruct (Nat.leb_spec 3 (length row)); [lia |]. simpl.
    by rewrite !app_nil_r.
  - destruct (Nat.leb_spec 3 (length row)); [| lia]. simpl.
    destruct (String.eqb_spec category "Process") as [-> | _];
      [simpl; by rewrite !app_nil_r |].
    destruct (String.eqb_spec category "File") as [-> | _];
      [simpl; by rewrite !app_nil_r |].
    destruct (String.eqb_spec category "Registry") as [-> | _];
      [simpl; by rewrite !app_nil_r |].
    destruct (String.eqb_spec category "Network") as [-> | _];
      simpl; by rewrite !app_nil_r.
Qed.

Lemma loop_rows_read (rs : list record) (events : Events) :
  fst (loop events rs) = fold_left step (rows_read rs) events.
Proof.
  revert events. induction rs as [| [row |] rs IH]; intros events; simpl; auto.
Qed.

Lemma fold_step_lists (rows : list (list string)) (events : Events) :
  process_activity (fold_left step rows events)
    = process_activity events
        ++ (process_event <$> List.filter (in_category "Process") rows)
  /\ file_system (fold_left step rows events)
    = file_system events
        ++ (file_event <$> List.filter (in_category "File") rows)
  /\ registry (fold_left step rows events)
    = registry events
        ++ (registry_event <$> List.filter (in_category "Registry") rows)
  /\ network (fold_left step rows events)
    = network events
        ++ (network_event <$> List.filter (in_category "Network") rows).
Proof.
  revert events. induction rows as [| row rows IH]; intros events; simpl.
  - by rewrite !app_nil_r.
  - destruct (IH (step events row)) as (Hp & Hf & Hr & Hn).
    destruct (step_lists events row) as (Sp & Sf & Sr & Sn).
    rewrite Hp, Hf, Hr, Hn, Sp, Sf, Sr, Sn.
    repeat split.
    + destruct (in_category "Process" row); simpl;
        by rewrite <- ?app_assoc, ?app_nil_r.
    + destruct (in_category "File" row); simpl;
        by rewrite <- ?app_assoc, ?app_nil_r.
    + destruct (in_category "Registry" row); simpl;
        by rewrite <- ?app_assoc, ?app_nil_r.
    + destruct (in_category "Network" row); simpl;
        by rewrite <- ?app_assoc, ?app_nil_r.
Qed.

Lemma parse_events (rs : list record) :
  fst (parse_csv_timeline (Opened rs)) = fold_left step (rows_read rs) no_events.
Proof.
  unfold parse_csv_timeline. rewrite <- loop_rows_read.
  by destruct (loop no_events rs) as [events []].
Qed.

Lemma rows_read_skip (pre post : list record) (row : list string)
    (events : Events) :
  (length row < 3)%nat ->
  fold_left step (rows_read (pre ++ Row row :: post)) events
  = fold_left step (rows_read (pre ++ post)) events.
Proof.
  intros Hlen. revert events.
  induction pre as [| [r |] pre IH]; intros events; simpl; auto.
  by rewrite step_short.
Qed.

Lemma rows_read_stop (rows : list (list string)) (msg : string)
    (post : list record) :
  rows_read (map Row rows ++ Unparsable msg :: post) = rows
  /\ rows_read (map Row rows) = rows.
Proof.
  induction rows as [| row rows [IH1 IH2]]; simpl; [done |].
  by rewrite IH1, IH2.
Qed.

End TimelineFacts.

Section TimelineClaims.
Import Timeline DataModel.

Lemma loop_stops (rows : list (list string)) (msg : string)
    (post : list record) (events : Events) :
  snd (loop events (map Row rows ++ Unparsable msg :: post)) = Some msg.
Proof.
  revert events. induction rows as [| row rows IH]; intros events; simpl; auto.
Qed.

Lemma loop_first_unreadable (events : Events) (rs : list record) :
  snd (loop events rs) = first_unreadable rs.
Proof.
  revert events. induction rs as [| [row | msg] rs IH]; intros events; simpl;
    auto.
Qed.

Lemma parse_log (rs : list record) :
  snd (parse_csv_timeline (Opened rs))
  = match first_unreadable rs with
    | None => []
    | Some msg => [(ERROR, "Failed to parse CSV timeline: " +:+ msg)]
    end.
Proof.
  unfold parse_csv_timeline. rewrite <- (loop_first_unreadable no_events).
  by destruct (loop no_events rs) as [events [msg |]].
Qed.

Lemma first_unreadable_skip (pre post : list record) (row : list string) :
  first_unreadable (pre ++ Row row :: post) = first_unreadable (pre ++ post).
Proof. induction pre as [| [r | msg] pre IH]; simpl; auto. Qed.

Lemma first_unreadable_rows (rows : list (list string)) :
  first_unreadable (map Row rows) = None.
Proof. induction rows as [| row rows IH]; simpl; auto. Qed.

Lemma kept_in (A : Type) (f : list string -> A) (category : string)
    (rows : list (list string)) (row : list string) :
  row ∈ rows -> in_category category row = true ->
  f row ∈ f <$> List.filter (in_category category) rows.
Proof.
  intros Hin Hcat. apply list_elem_of_fmap. exists row. split; [done |].
  apply list_elem_of_In, filter_In. split; [by apply list_elem_of_In | done].
Qed.

Lemma parse_lists (rs : list record) :
  let events := fst (parse_csv_timeline (Opened rs)) in
  let rows := rows_read rs in
  process_activity events
    = process_event <$> List.filter (in_category "Process") rows
  /\ file_system events
    = file_event <$> List.filter (in_category "File") rows
  /\ registry events
    = registry_event <$> List.filter (in_category "Registry") rows
  /\ network events
    = network_event <$> List.filter (in_category "Network") rows.
Proof.
  intros events rows. subst events rows. rewrite parse_events.
  exact (fold_step_lists (rows_read rs) no_events).
Qed.

Lemma in_category_intro (row : list string) (category : string) :
  (3 <= length row)%nat -> cell row 1 = category ->
  in_category category row = true.
Proof.
  intros Hlen <-. unfold in_category.
  destruct (Nat.leb_spec 3 (length row)); [| lia].
  by rewrite String.eqb_refl.
Qed.

(** The parser reads the columns the data model names. *)
Lemma cell_column (row : list string) (i : nat) : cell row i = column row i.
Proof. unfold cell, column. by rewrite nth_lookup. Qed.

Lemma opt_cell_optional (row : list string) (i : nat) :
  opt_cell row i = optional row i.
Proof.
  unfold opt_cell, optional.
  destruct (Nat.ltb_spec i (length row)) as [Hlt | Hge].
  - destruct (lookup_lt_is_Some_2 row i Hlt) as [v Hv].
    rewrite Hv, (nth_lookup_Some _ _ _ _ Hv). simpl. by destruct v.
  - by rewrite lookup_ge_None_2.
Qed.

Lemma in_category_kept (category : string) (row : list string) :
  in_category category row = kept category row.
Proof. unfold in_category, kept. by rewrite cell_column. Qed.

Lemma process_event_row (row : list string) :
  process_event row = process_row row.
Proof. unfold process_event, process_row. by rewrite !cell_column. Qed.

Lemma file_event_row (row : list string) : file_event row = file_row row.
Proof.
  unfold file_event, file_row. cbv zeta.
  rewrite !cell_column, !opt_cell_optional. f_equal.
  destruct (String.eqb (column row 2) "RenameFile"); [| done]. simpl.
  unfold optional. destruct (Nat.ltb_spec 6 (length row)) as [Hlt | Hge].
  - destruct (lookup_lt_is_Some_2 row 6 Hlt) as [v Hv].
    by rewrite Hv, (nth_lookup_Some _ _ _ _ Hv).
  - done.
Qed.

Lemma registry_event_row (row : list string) :
  registry_event row = registry_row row.
Proof. unfold registry_event, registry_row. by rewrite !cell_column. Qed.

Lemma network_event_row (row : list string) :
  network_event row = network_row row.
Proof.
  unfold network_event, network_row. cbv zeta. rewrite !cell_column.
  by destruct (split_once " " (column row 2)) as [[a b] |].
Qed.

Lemma events_of_rows {A} (f g : list string -> A) (category : string)
    (rows : list (list string)) :
  (forall row, f row = g row) ->
  f <$> List.filter (in_category category) rows
  = g <$> List.filter (kept category) rows.
Proof.
  intros Hfg. induction rows as [| row rows IH]; [done |].
  cbn [List.filter]. rewrite in_category_kept.
  destruct (kept category row); [| exact IH].
  by rewrite !fmap_cons, Hfg, IH.
Qed.

(** C6, as the specification states it, fails in two places.  A File row
    of six columns is kept, but its optional fields are absent, not the
    empty string; and a row of a recognised category with more than 3
    fields that stands behind a record the reader cannot read is not
    kept. *)
Lemma C6_counterexample :
  let row := ["t1"; "File"; "CreateFile"; "a.exe"; "10"; "C:\\temp\\a.txt"] in
  let behind := ["t2"; "Process"; "CreateProcess"; "a.exe"; "10"; "b.exe"; "11"] in
  (exists ev, file_system (fst (parse_csv_timeline (Opened [Row row]))) = [ev]
              /\ fe_path ev = "C:\\temp\\a.txt"
              /\ fe_hash_type ev = None /\ fe_hash_type ev <> Some ""
              /\ fe_hash ev = None /\ fe_hash ev <> Some "")
  /\ process_activity
       (fst (parse_csv_timeline
               (Opened [Unparsable "line contains NUL"; Row behind]))) = []
  /\ process_activity (fst (parse_csv_timeline (Opened [Row behind]))) <> [].
Proof.
  vm_compute. split; [| split; [reflexivity | discriminate]].
  eexists. split; [reflexivity |]. repeat split; discriminate.
Qed.

(** C6, amended.  Whatever the timeline holds, each of the four event
    lists holds, in the order of the rows, one event for each row of at
    least 3 fields in the category of the list among the rows the reader
    yields before its first error, each field taken from the column the
    data model names: a required field whose column is missing is the
    empty string, an optional field of a File event whose column is
    missing is absent.  A row of fewer than 3 fields changes neither the
    events nor the log; and when the reader can read every record, every
    row is read and nothing is logged. *)
Theorem C6_timeline_rows_kept_in_order (rs : list record) :
  let events := fst (parse_csv_timeline (Opened rs)) in
  let rows := rows_read rs in
  (process_activity events = process_row <$> List.filter (kept "Process") rows
   /\ file_system events = file_row <$> List.filter (kept "File") rows
   /\ registry events = registry_row <$> List.filter (kept "Registry") rows
   /\ network events = network_row <$> List.filter (kept "Network") rows)
  /\ (forall pre row post,
        rs = pre ++ Row row :: post -> (length row < 3)%nat ->
        parse_csv_timeline (Opened rs)
        = parse_csv_timeline (Opened (pre ++ post)))
  /\ (forall rows', rs = map Row rows' ->
        rows = rows' /\ snd (parse_csv_timeline (Opened rs)) = []).
Proof.
  intros events rows. subst events rows.
  destruct (parse_lists rs) as (Hp & Hf & Hr & Hn).
  split; [| split].
  - rewrite Hp, Hf, Hr, Hn.
    split; [apply events_of_rows, process_event_row |].
    split; [apply events_of_rows, file_event_row |].
    split; [apply events_of_rows, registry_event_row |].
    apply events_of_rows, network_event_row.
  - intros pre row post -> Hlen.
    apply injective_projections.
    + rewrite !parse_events. by apply rows_read_skip.
    + by rewrite !parse_log, first_unreadable_skip.
  - intros rows' ->. split.
    + by destruct (rows_read_stop rows' "" []) as [_ ->].
    + by rewrite parse_log, first_unreadable_rows.
Qed.

Lemma C6_timeline_rows_kept_in_order_witness :
  let rs := [Row ["t1"; "Process"; "CreateProcess"; "a.exe"; "10"];
             Row ["t2"; "File"];
             Row ["2024-01-01T00:00:00"; "File"; "CreateFile"; "notepad.exe";
                  "1234"; "C:\\temp\\a.txt"];
             Row ["t3"; "Process"; "CreateProcess"]] in
  let events := fst (parse_csv_timeline (Opened rs)) in
  process_activity events
  = [{| pe_timestamp := "t1"; pe_process_name := "a.exe"; pe_pid := "10";
        pe_command_line := ""; pe_child_pid := "" |};
     {| pe_timestamp := "t3"; pe_process_name := ""; pe_pid := "";
        pe_command_line := ""; pe_child_pid := "" |}]
  /\ file_system events
     = [{| fe_timestamp := "2024-01-01T00:00:00"; fe_operation := "CreateFile";
           fe_process_name := "notepad.exe"; fe_pid := "1234";
           fe_path := "C:\\temp\\a.txt";
           fe_hash_type := None; fe_hash := None; fe_yara_hits := None;
           fe_vt_hits := None; fe_to_path := None |}].
Proof.
  intros rs events. subst events.
  destruct (C6_timeline_rows_kept_in_order rs) as ((Hp & Hf & _) & _).
  rewrite Hp, Hf. split; reflexivity.
Defined.

(** C5, as the specification states it, fails.  A record that the reader
    cannot parse (here it stands where a Registry row would) ends the whole
    parse: the File and Network rows behind it are lost, although the same
    timeline without that record yields them. *)
Lemma C5_counterexample :
  let rs :=
    [Row ["t1"; "Process"; "CreateProcess"; "a.exe"; "10"; "b.exe"; "11"];
     Unparsable "field larger than field limit (131072)";
     Row ["t3"; "File"; "CreateFile"; "b.exe"; "11"; "C:\\temp\\x"];
     Row ["t4"; "Network"; "TCP Send"; "b.exe"; "11"; "10.0.0.1:80"]] in
  file_system (fst (parse_csv_timeline (Opened rs))) = []
  /\ network (fst (parse_csv_timeline (Opened rs))) = []
  /\ file_system (fst (parse_csv_timeline (Opened (parsable rs)))) <> []
  /\ network (fst (parse_csv_timeline (Opened (parsable rs)))) <> [].
Proof. vm_compute. repeat split; discriminate. Qed.

(** C5, amended.  A reader error is not confined to a category: the parse
    stops at the record that cannot be parsed, logs the error with its
    text, and returns, for every category alike, the events of the rows
    read before it.  What is skipped in isolation is a row of fewer than 3
    fields: the outcome is the one of the timeline without that row. *)
Theorem C5_reader_error_ends_the_parse
    (rows : list (list string)) (msg : string) (post : list record) :
  fst (parse_csv_timeline (Opened (map Row rows ++ Unparsable msg :: post)))
  = fst (parse_csv_timeline (Opened (map Row rows)))
  /\ snd (parse_csv_timeline (Opened (map Row rows ++ Unparsable msg :: post)))
     = [(ERROR, "Failed to parse CSV timeline: " +:+ msg)]
  /\ forall pre row post',
       (length row < 3)%nat ->
       fst (parse_csv_timeline (Opened (pre ++ Row row :: post')))
       = fst (parse_csv_timeline (Opened (pre ++ post'))).
Proof.
  split; [| split].
  - rewrite !parse_events.
    destruct (rows_read_stop rows msg post) as [-> ->]. done.
  - rewrite parse_log, <- (loop_first_unreadable no_events).
    by rewrite loop_stops.
  - intros pre row post' Hlen. rewrite !parse_events.
    by apply rows_read_skip.
Qed.

Lemma C5_reader_error_ends_the_parse_witness :
  fst (parse_csv_timeline
         (Opened [Row ["t1"; "Registry"; "RegSetValue"; "a.exe"; "10"; "HKLM\\x"];
                  Row ["t2"];
                  Row ["t3"; "File"; "CreateFile"; "a.exe"; "10"; "C:\\y"]]))
  = fst (parse_csv_timeline
         (Opened [Row ["t1"; "Registry"; "RegSetValue"; "a.exe"; "10"; "HKLM\\x"];
                  Row ["t3"; "File"; "CreateFile"; "a.exe"; "10"; "C:\\y"]])).
Proof.
  apply (proj2 (proj2 (C5_reader_error_ends_the_parse [] "" []))
           [Row ["t1"; "Registry"; "RegSetValue"; "a.exe"; "10"; "HKLM\\x"]]
           ["t2"]
           [Row ["t3"; "File"; "CreateFile"; "a.exe"; "10"; "C:\\y"]]).
  simpl; lia.
Defined.

(** C10.  For a row of category File whose operation is RenameFile and which
    has more than 6 columns, the event carries column 7 of the row both as
    [hash_type] and as [to_path], and it is the event the parser files for
    that row. *)
Theorem C10_rename_destination_is_hash_type
    (rs : list record) (row : list string) (dest : string) :
  row ∈ rows_read rs ->
  cell row 1 = "File" ->
  cell row 2 = "RenameFile" ->
  row !! 6 = Some dest ->
  fe_hash_type (file_event row) = Some dest
  /\ fe_to_path (file_event row) = Some dest
  /\ file_event row ∈ file_system (fst (parse_csv_timeline (Opened rs))).
Proof.
  intros Hin Hcat Hop H6.
  assert (Hlen : (6 < length row)%nat) by (by eapply lookup_lt_Some).
  split; [| split].
  - unfold file_event, opt_cell. cbv zeta. simpl. rewrite H6. simpl.
    by destruct dest.
  - unfold file_event. cbv zeta. simpl. rewrite Hop.
    destruct (Nat.ltb_spec 6 (length row)); [done | lia].
  - destruct (parse_lists rs) as (_ & -> & _).
    apply kept_in; [done |]. apply in_category_intro; [lia | done].
Qed.

Lemma C10_rename_destination_is_hash_type_witness :
  let row := ["t1"; "File"; "RenameFile"; "a.exe"; "10"; "C:\\old"; "C:\\new"] in
  fe_hash_type (file_event row) = Some "C:\\new"
  /\ fe_to_path (file_event row) = Some "C:\\new"
  /\ file_event row
     ∈ file_system (fst (parse_csv_timeline (Opened [Row ["t0"]; Row row]))).
Proof.
  apply (C10_rename_destination_is_hash_type
           [Row ["t0"]; Row ["t1"; "File"; "RenameFile"; "a.exe"; "10";
                             "C:\\old"; "C:\\new"]]);
    [simpl; apply list_elem_of_In; simpl; auto
    | reflexivity | reflexivity | reflexivity].
Defined.

End TimelineClaims.

(** ** The summary parser *)

Section SummaryClaims.
Import Regex Summary SummaryLayout.

Lemma search_needs_prefix (label : string) (r : regex) (s : string) :
  contains label s = false -> search (Cat (Lit label) r) s = None.
Proof.
  induction s as [| c s IH]; simpl.
  - by destruct (strip_prefix label "").
  - destruct (strip_prefix label (String c s)); [done | auto].
Qed.

Lemma search_unfold (r : regex) (s : string) :
  search r s
  = match matchk r s None (fun _ _ g => Some g) with
    | Some g => Some g
    | None => match s with
              | String _ s' => search r s'
              | "" => None
              end
    end.
Proof. by destruct s. Qed.

Lemma mismatch_strip (label t s : string) :
  mismatch label t = true -> strip_prefix label (t +:+ s) = None.
Proof.
  revert t. induction label as [| a label IH]; intros [| b t]; simpl; try done.
  destruct (Ascii.eqb a b); [apply IH | done].
Qed.

(** A search for a pattern that begins with [label] skips a text in which
    no occurrence of [label] can start. *)
Lemma search_skip (label : string) (r : regex) (pre s : string) :
  clear_of label pre = true ->
  search (Cat (Lit label) r) (pre +:+ s) = search (Cat (Lit label) r) s.
Proof.
  induction pre as [| c pre IH]; [done |].
  intros [Hm Hc]%andb_true_iff.
  change (String c pre +:+ s) with (String c (pre +:+ s)).
  cbn [search matchk].
  change (String c (pre +:+ s)) with (String c pre +:+ s).
  rewrite (mismatch_strip label (String c pre) s Hm). auto.
Qed.

(** A greedy run over a text [s] of the class takes the whole of [s] when
    the character behind it is not of the class and what follows lets the
    match go on. *)
Lemma rep_greedy_all (R : Type) (cls : ascii -> bool) (s : string) (lo : nat)
    (c : ascii) (rest : string) (k : string -> string -> option R) (x : R) :
  all_chars cls s = true -> (lo <= String.length s)%nat -> cls c = false ->
  k s (String c rest) = Some x ->
  rep_greedy cls lo (s +:+ String c rest) k = Some x.
Proof.
  intros Hall. revert lo k.
  induction s as [| a s IH]; intros lo k Hlo Hc Hk.
  - simpl in Hlo. assert (lo = O) as -> by lia.
    change ("" +:+ String c rest) with (String c rest).
    simpl. by rewrite Hc.
  - simpl in Hall. apply andb_true_iff in Hall as [Ha Hall].
    change (String a s +:+ String c rest)
      with (String a (s +:+ String c rest)).
    cbn [rep_greedy]. rewrite Ha.
    rewrite (IH Hall (Nat.pred lo) (fun m rest0 => k (String a m) rest0));
      [done | simpl in Hlo; lia | done | exact Hk].
Qed.

Lemma all_chars_rule (n : nat) : all_chars (is_char "=") (rule n) = true.
Proof. induction n as [| n IH]; [done |]. simpl. exact IH. Qed.

Lemma length_rule (n : nat) : String.length (rule n) = n.
Proof. induction n as [| n IH]; [done |]. simpl. by rewrite IH. Qed.

(** A lazy run of any characters stops at the first place where what
    follows lets the match go on: behind [body], when no such place lies
    inside it. *)
Lemma rep_lazy_until (R : Type) (body tail : string)
    (k : string -> string -> option R) (g : string -> R) :
  (forall m rest, k m rest = if ends_section rest then Some (g m) else None) ->
  unbroken body tail = true -> ends_section tail = true ->
  rep_lazy anychar 0 (body +:+ tail) k = Some (g body).
Proof.
  revert k g. induction body as [| c b IH]; intros k g Hk Hun Hend.
  - change ("" +:+ tail) with tail.
    destruct tail as [| d t]; simpl; by rewrite Hk, ?Hend.
  - cbn [unbroken] in Hun. apply andb_true_iff in Hun as [Hns Hun].
    apply negb_true_iff in Hns.
    change (String c b +:+ tail) with (String c (b +:+ tail)) in *.
    cbn [rep_lazy]. rewrite Hk, Hns. unfold anychar at 1. cbn [Nat.pred].
    apply (IH (fun m rest => k (String c m) rest) (fun m => g (String c m)));
      [| done | done].
    intros m rest. apply Hk.
Qed.

(** Python's [split] and the lines of a section. *)
Lemma split_on_last (l : string) :
  all_chars not_newline l = true -> split_on nl_char l = [l].
Proof.
  induction l as [| c l IH]; [done |].
  simpl. intros [Hc Hl]%andb_true_iff.
  unfold not_newline in Hc. apply negb_true_iff in Hc. rewrite Hc.
  by rewrite (IH Hl).
Qed.

Lemma split_on_line (l rest : string) :
  all_chars not_newline l = true ->
  split_on nl_char (l +:+ String nl_char rest) = l :: split_on nl_char rest.
Proof.
  induction l as [| c l IH].
  - intros _. change ("" +:+ String nl_char rest) with (String nl_char rest).
    cbn [split_on]. by rewrite Ascii.eqb_refl.
  - simpl. intros [Hc Hl]%andb_true_iff.
    change (String c l +:+ String nl_char rest)
      with (String c (l +:+ String nl_char rest)).
    simpl. unfold not_newline in Hc. apply negb_true_iff in Hc. rewrite Hc.
    by rewrite (IH Hl).
Qed.

Lemma split_on_join (l : string) (ls : list string) :
  forallb section_line (l :: ls) = true ->
  split_on nl_char (join_lines (l :: ls)) = l :: ls.
Proof.
  revert l. induction ls as [| l2 ls IH]; intros l Hall.
  - simpl in *. rewrite andb_true_r in Hall.
    apply andb_true_iff in Hall as [_ Hl]. by apply split_on_last.
  - cbn [forallb] in Hall. apply andb_true_iff in Hall as [Hl Hrest].
    apply andb_true_iff in Hl as [_ Hl].
    change (join_lines (l :: l2 :: ls))
      with (l +:+ String nl_char (join_lines (l2 :: ls))).
    rewrite split_on_line by done. by rewrite (IH l2 Hrest).
Qed.

Lemma nonblank_join (ls : list string) :
  forallb section_line ls = true -> nonblank_lines (join_lines ls) = ls.
Proof.
  intros Hall. unfold nonblank_lines. destruct ls as [| l ls]; [done |].
  rewrite split_on_join by done.
  induction (l :: ls) as [| a rest IH]; [done |].
  cbn [forallb] in Hall. apply andb_true_iff in Hall as [Ha Hrest].
  apply andb_true_iff in Ha as [Ha _].
  cbn [List.filter]. rewrite Ha. by rewrite (IH Hrest).
Qed.

Lemma strip_prefix_cons (a b : ascii) (p s : string) :
  strip_prefix (String a p) (String b s)
  = if Ascii.eqb a b then strip_prefix p s else None.
Proof. reflexivity. Qed.

Lemma ends_section_char (c : ascii) (rest : string) :
  not_newline c = true -> ends_section (String c rest) = false.
Proof.
  intros Hc. unfold not_newline in Hc. apply negb_true_iff in Hc.
  unfold ends_section. change (nl +:+ nl) with (String nl_char nl).
  by rewrite strip_prefix_cons, (Ascii.eqb_sym nl_char c), Hc.
Qed.

Lemma ends_section_break (c : ascii) (rest : string) :
  not_newline c = true ->
  ends_section (String nl_char (String c rest)) = false.
Proof.
  intros Hc. unfold not_newline in Hc. apply negb_true_iff in Hc.
  unfold ends_section.
  change (nl +:+ nl) with (String nl_char (String nl_char "")).
  by rewrite !strip_prefix_cons, Ascii.eqb_refl, (Ascii.eqb_sym nl_char c), Hc.
Qed.

Lemma unbroken_line (l rest tail : string) :
  all_chars not_newline l = true ->
  unbroken (l +:+ rest) tail = unbroken rest tail.
Proof.
  induction l as [| c l IH]; [done |].
  cbn [all_chars]. intros [Hc Hl]%andb_true_iff.
  change (String c l +:+ rest) with (String c (l +:+ rest)).
  cbn [unbroken].
  change (String c (l +:+ rest) +:+ tail)
    with (String c ((l +:+ rest) +:+ tail)).
  rewrite ends_section_char by done. by apply IH.
Qed.

Lemma unbroken_break (c : ascii) (rest tail : string) :
  not_newline c = true ->
  unbroken (String nl_char (String c rest)) tail
  = unbroken (String c rest) tail.
Proof.
  intros Hc. cbn [unbroken].
  change (String nl_char (String c rest) +:+ tail)
    with (String nl_char (String c (rest +:+ tail))).
  by rewrite ends_section_break.
Qed.

Lemma join_lines_head (l : string) (ls : list string) :
  section_line l = true ->
  exists c rest, join_lines (l :: ls) = String c rest /\ not_newline c = true.
Proof.
  intros [Hne Hl]%andb_true_iff.
  destruct l as [| c l]; [done |].
  simpl in Hl. apply andb_true_iff in Hl as [Hc _].
  destruct ls as [| l2 ls].
  - by exists c, l.
  - exists c, (l +:+ nl +:+ join_lines (l2 :: ls)). done.
Qed.

Lemma unbroken_lines (ls : list string) (tail : string) :
  forallb section_line ls = true -> unbroken (join_lines ls) tail = true.
Proof.
  induction ls as [| l ls IH]; [done |].
  cbn [forallb]. intros [Hl Hrest]%andb_true_iff.
  pose proof Hl as [_ Hchars]%andb_true_iff.
  destruct ls as [| l2 ls].
  - cbn [join_lines]. rewrite <- (append_nil_r l).
    by rewrite unbroken_line.
  - change (join_lines (l :: l2 :: ls))
      with (l +:+ String nl_char (join_lines (l2 :: ls))).
    rewrite unbroken_line by done.
    cbn [forallb] in Hrest. pose proof Hrest as [Hl2 _]%andb_true_iff.
    destruct (join_lines_head l2 ls Hl2) as (c & rest & Hj & Hc).
    rewrite Hj in *. rewrite unbroken_break by done. by apply IH.
Qed.

(** The first occurrence of a timing label, followed by a text of digits
    and dots and by " seconds", is what the search finds. *)
Lemma time_found (label pre num post : string) :
  clear_of label pre = true -> digits_and_dots num = true ->
  search (time_pattern label) (pre +:+ label +:+ num +:+ " seconds" +:+ post)
  = Some (Some num).
Proof.
  intros Hclear [Hne Hall]%andb_true_iff. unfold time_pattern.
  rewrite search_skip by done.
  rewrite search_unfold. cbn [matchk]. rewrite strip_prefix_append.
  change (" seconds" +:+ post) with (String " " ("seconds" +:+ post)).
  rewrite rep_greedy_all with (x := Some num);
    [done | done | destruct num; [done | simpl; lia] | reflexivity |].
  change (String " " ("seconds" +:+ post)) with (" seconds" +:+ post).
  by rewrite strip_prefix_append.
Qed.

(** The first occurrence of a heading line, followed by a rule of at
    least 15 equals signs and by lines that run up to a blank line or the
    end of the text, is what the search finds; the group holds the
    lines. *)
Lemma section_found (heading pre : string) (n : nat) (ls : list string)
    (tail : string) :
  clear_of (heading +:+ nl) pre = true -> (15 <= n)%nat ->
  forallb section_line ls = true -> ends_section tail = true ->
  search (section_pattern heading)
    (pre +:+ heading +:+ nl +:+ rule n +:+ nl +:+ join_lines ls +:+ tail)
  = Some (Some (join_lines ls)).
Proof.
  intros Hclear Hn Hls Hend. unfold section_pattern.
  rewrite <- (append_assoc heading nl).
  rewrite search_skip by done.
  rewrite search_unfold. cbn [matchk]. rewrite strip_prefix_append.
  change (nl +:+ join_lines ls +:+ tail)
    with (String nl_char (join_lines ls +:+ tail)).
  rewrite rep_greedy_all with (x := Some (join_lines ls));
    [done | apply all_chars_rule | by rewrite length_rule | reflexivity |].
  change (strip_prefix nl (String nl_char (join_lines ls +:+ tail)))
    with (Some (join_lines ls +:+ tail)). cbv beta iota.
  rewrite (rep_lazy_until _ (join_lines ls) tail _ (fun m => Some m));
    [done | | by apply unbroken_lines | done].
  intros m rest. cbn [matchk]. unfold ends_section.
  destruct (strip_prefix (nl +:+ nl) rest) as [r |] eqn:E.
  - by destruct rest.
  - by destruct rest.
Qed.

Lemma set_time_absent (key label content : string)
    (summary : gmap string value) :
  contains label content = false ->
  set_time key label content summary = inr summary.
Proof.
  intros Habs. unfold set_time, time_pattern.
  by rewrite search_needs_prefix.
Qed.

Lemma set_time_other (key label content k : string)
    (s s' : gmap string value) :
  key <> k -> set_time key label content s = inr s' -> s' !! k = s !! k.
Proof.
  intros Hne. unfold set_time.
  destruct (search _ content) as [m |]; [| by intros [= <-]].
  destruct (float (group1 m)) as [err | f]; [done |].
  intros [= <-]. by rewrite lookup_insert_ne.
Qed.

Lemma set_count_other (key heading content k : string)
    (s : gmap string value) :
  key <> k -> set_count key heading content s !! k = s !! k.
Proof.
  intros Hne. unfold set_count.
  destruct (search _ content); [by rewrite lookup_insert_ne | done].
Qed.

(** A parse that goes through: the three timing assignments, then the four
    counts. *)
Lemma parse_body_steps (content : string) (r : txt_report) :
  parse_body content = inr r ->
  exists s1 s2 s3,
    set_time "execution_time" "Execution time: " content initial_summary = inr s1
    /\ set_time "processing_time" "Processing time: " content s1 = inr s2
    /\ set_time "analysis_time" "Analysis time: " content s2 = inr s3
    /\ summary r
       = set_count "network_connections" "Network Traffic:" content
           (set_count "registry_modified" "Registry Activity:" content
              (set_count "files_created" "File Activity:" content
                 (set_count "processes_created" "Processes Created:" content
                    s3)))
    /\ unique_hosts r = hosts_of content.
Proof.
  unfold parse_body. intros H.
  destruct (set_time "execution_time" _ content initial_summary)
    as [e1 | s1] eqn:E1; [done |].
  destruct (set_time "processing_time" _ content s1)
    as [e2 | s2] eqn:E2; [done |].
  destruct (set_time "analysis_time" _ content s2)
    as [e3 | s3] eqn:E3; [done |].
  injection H as <-. by exists s1, s2, s3.
Qed.

(** Behind a successful parse, a timing field whose label is absent holds
    what the three assignments before and behind it left there. *)
Lemma parse_body_times (content : string) (r : txt_report) :
  parse_body content = inr r ->
  exists s1 s2 s3,
    set_time "execution_time" "Execution time: " content initial_summary = inr s1
    /\ set_time "processing_time" "Processing time: " content s1 = inr s2
    /\ set_time "analysis_time" "Analysis time: " content s2 = inr s3
    /\ forall k, k = "execution_time" \/ k = "processing_time"
                 \/ k = "analysis_time" -> summary r !! k = s3 !! k.
Proof.
  intros H.
  destruct (parse_body_steps content r H) as (s1 & s2 & s3 & E1 & E2 & E3 & -> & _).
  exists s1, s2, s3.
  split; [done |]. split; [done |]. split; [done |].
  intros k Hk.
  rewrite !set_count_other; [done | | | |];
    intros <-; destruct Hk as [Hk | [Hk | Hk]]; discriminate Hk.
Qed.

Lemma parsed_body (content : string) (r : txt_report) :
  parse_txt_report (Text content) = (r, []) -> parse_body content = inr r.
Proof.
  unfold parse_txt_report.
  destruct (parse_body content) as [err | r']; [done | congruence].
Qed.

(** C7, as the specification states it, fails in its last part.  The text
    below has no Processing time label, yet the summary does not hold 0.0
    for [processing_time]: the value [12.5.] behind Execution time is
    matched by [[\d.]+] but is no number, [float] raises, and the handler
    returns the empty summary. *)
Lemma C7_counterexample :
  let content := "Execution time: 12.5. seconds" in
  contains "Processing time" content = false
  /\ summary (fst (parse_txt_report (Text content))) !! "processing_time" = None
  /\ summary (fst (parse_txt_report (Text content))) !! "processing_time"
     <> Some (VFloat 0).
Proof. vm_compute. repeat split; discriminate. Qed.

(** C7, amended.  In a summary file that parses without error (every
    timing value present is a number):  when the first place where the
    label "Execution time: " occurs is followed by a number and by
    " seconds", [execution_time] is that number (12.5 for [Execution time:
    12.5 seconds]); when the first Processes Created heading line is
    followed by a rule of at least 15 equals signs and by non-blank lines
    that run up to a blank line or the end of the file,
    [processes_created] is the number of those lines (3 for 3 lines); and
    each of the three timing fields is 0.0 when its label is absent from
    the file. *)
Theorem C7_summary_times_and_counts (content : string) (r : txt_report) :
  parse_txt_report (Text content) = (r, []) ->
  (forall pre num post q,
     content = pre +:+ "Execution time: " +:+ num +:+ " seconds" +:+ post ->
     clear_of "Execution time: " pre = true ->
     digits_and_dots num = true ->
     float_of num = Some q ->
     summary r !! "execution_time" = Some (VFloat q))
  /\ (forall pre n ls tail,
        content = pre +:+ "Processes Created:" +:+ nl +:+ rule n +:+ nl
                  +:+ join_lines ls +:+ tail ->
        clear_of ("Processes Created:" +:+ nl) pre = true ->
        (15 <= n)%nat ->
        forallb section_line ls = true ->
        ends_section tail = true ->
        summary r !! "processes_created" = Some (VInt (length ls)))
  /\ (contains "Execution time: " content = false ->
        summary r !! "execution_time" = Some (VFloat 0))
  /\ (contains "Processing time: " content = false ->
        summary r !! "processing_time" = Some (VFloat 0))
  /\ (contains "Analysis time: " content = false ->
        summary r !! "analysis_time" = Some (VFloat 0)).
Proof.
  intros Hparse. apply parsed_body in Hparse as Hbody.
  destruct (parse_body_steps content r Hbody)
    as (s1 & s2 & s3 & E1 & E2 & E3 & Hsum & _).
  assert (Hk : forall k, k = "execution_time" \/ k = "processing_time"
                         \/ k = "analysis_time" -> summary r !! k = s3 !! k).
  { intros k Hk. rewrite Hsum.
    rewrite !set_count_other; [done | | | |];
      intros <-; destruct Hk as [Hk | [Hk | Hk]]; discriminate Hk. }
  pose proof (fun k H => set_time_other _ _ _ k _ _ H E1) as O1.
  pose proof (fun k H => set_time_other _ _ _ k _ _ H E2) as O2.
  pose proof (fun k H => set_time_other _ _ _ k _ _ H E3) as O3.
  split; [| split; [| split; [| split]]].
  - intros pre num post q -> Hclear Hnum Hq.
    rewrite Hk by auto. rewrite O3, O2 by done.
    unfold set_time in E1. rewrite time_found in E1 by done.
    unfold float, group1 in E1. cbn [default from_option id] in E1.
    rewrite Hq in E1.
    injection E1 as <-. by rewrite lookup_insert_eq.
  - intros pre n ls tail -> Hclear Hn Hls Hend.
    rewrite Hsum, !set_count_other by done.
    unfold set_count at 1. rewrite section_found by done.
    unfold group1. cbn [default from_option id]. rewrite lookup_insert_eq.
    by rewrite nonblank_join.
  - intros Habs. rewrite Hk by auto. rewrite O3, O2 by done.
    rewrite set_time_absent in E1 by done. by injection E1 as <-.
  - intros Habs. rewrite Hk by auto. rewrite O3 by done.
    rewrite set_time_absent in E2 by done. injection E2 as <-.
    rewrite O1 by done. done.
  - intros Habs. rewrite Hk by auto.
    rewrite set_time_absent in E3 by done. injection E3 as <-.
    rewrite O2, O1 by done. done.
Qed.

Lemma C7_summary_times_and_counts_witness :
  let r := fst (parse_txt_report (Text (report_text 16))) in
  summary r !! "execution_time" = Some (VFloat (25 # 2))
  /\ summary r !! "processes_created" = Some (VInt 3)
  /\ summary r !! "analysis_time" = Some (VFloat 0).
Proof.
  intros r.
  destruct (C7_summary_times_and_counts (report_text 16) r)
    as (Htime & Hcount & _ & _ & Habsent); [vm_compute; reflexivity |].
  split; [| split].
  - apply (Htime ("-=] Sandbox Analysis Report" +:+ nl) "12.5"
             (nl +:+ nl +:+ "Processes Created:" +:+ nl +:+ rule 16
              +:+ report_tail));
      vm_compute; reflexivity.
  - apply (Hcount ("-=] Sandbox Analysis Report" +:+ nl
                   +:+ "Execution time: 12.5 seconds" +:+ nl +:+ nl)
             16%nat
             ["[CreateProcess] sample.exe:1204 > cmd.exe /c whoami";
              "[CreateProcess] cmd.exe:1310 > whoami.exe";
              "[CreateProcess] sample.exe:1204 > notepad.exe"]
             (nl +:+ nl +:+ "Unique Hosts:" +:+ nl +:+ "===============" +:+ nl
              +:+ "10.0.0.7" +:+ nl));
      [vm_compute; reflexivity | vm_compute; reflexivity | lia
      | vm_compute; reflexivity | vm_compute; reflexivity].
  - apply Habsent. vm_compute. reflexivity.
Defined.

End SummaryClaims.

(** ** The file system *)

Section FileSystemFacts.
Import Py.

Lemma on_disk_removed (p : string) (l : list string) :
  on_disk p (List.filter (fun q => negb (String.eqb p q)) l) = false.
Proof.
  unfold on_disk. induction l as [| q l IH]; simpl; [done |].
  destruct (String.eqb p q) eqn:E; simpl; [done |]. by rewrite E.
Qed.

Lemma on_disk_rmtree (p : string) (l : list string) :
  on_disk p (List.filter (fun q => negb (within p q)) l) = false.
Proof.
  unfold on_disk. induction l as [| q l IH]; simpl; [done |].
  destruct (within p q) eqn:E; simpl; [done |].
  unfold within in E. apply orb_false_iff in E as [-> _]. done.
Qed.

Lemma on_disk_filter (p : string) (f : string -> bool) (l : list string) :
  on_disk p l = false -> on_disk p (List.filter f l) = false.
Proof.
  unfold on_disk. induction l as [| q l IH]; simpl; [done |].
  intros [Hq Hl]%orb_false_iff.
  destruct (f q); simpl; [rewrite Hq |]; auto.
Qed.

Lemma on_disk_app (p : string) (l l' : list string) :
  on_disk p l = true -> on_disk p (l ++ l') = true.
Proof.
  unfold on_disk. rewrite existsb_app. by intros ->.
Qed.

End FileSystemFacts.

(** ** The cleanup endpoint *)

Section CleanupClaims.
Import Py Agent.

(** C9.  The cleanup keyed by [analysis_id] answers success without touching
    the disk when the output directory is absent; it removes the directory
    and answers success when the directory is present and the system does
    not refuse the removal; and once it has answered success, a second call
    for the same identifier answers success again and changes nothing. *)
Theorem C9_cleanup_idempotent
    (cfg : config) (e : env) (analysis_id : string) (w : world) :
  let dir := abspath e (joinpath (WORK_DIR cfg) analysis_id) in
  let done_ := Return {| success := true; error := None; status := 200 |} in
  let w1 := world_after (cleanup cfg e analysis_id) w in
  (on_disk dir (fs w) = false ->
     outcome_of (cleanup cfg e analysis_id) w = done_ /\ w1 = w)
  /\ (on_disk dir (fs w) = true ->
      os_error e Rmtree (joinpath (WORK_DIR cfg) analysis_id) = None ->
      outcome_of (cleanup cfg e analysis_id) w = done_
      /\ on_disk dir (fs w1) = false)
  /\ (outcome_of (cleanup cfg e analysis_id) w = done_ ->
      outcome_of (cleanup cfg e analysis_id) w1 = done_
      /\ world_after (cleanup cfg e analysis_id) w1 = w1).
Proof.
  intros dir done_ w1. subst dir done_ w1.
  unfold outcome_of, world_after, cleanup, try_except, path_exists, rmtree.
  unfold mbind, mret, py_bind, py_ret. simpl.
  destruct (on_disk _ (fs w)) eqn:Hd; simpl; rewrite ?Hd; simpl.
  - destruct (os_error e Rmtree _) as [x |] eqn:Hos; simpl; rewrite ?Hd; simpl.
    + repeat split; done.
    + split; [done |]. split.
      * intros _ _. split; [done |]. apply on_disk_rmtree.
      * intros _. rewrite on_disk_rmtree. done.
  - repeat split; done.
Qed.

Lemma C9_cleanup_idempotent_witness :
  let cfg := {| NORIBEN_PATH := "Noriben.py"; PYTHON_PATH := "python";
                ANALYSIS_TIMEOUT := 300; WORK_DIR := "/work";
                UNZIP_TOOL := "7z"; UNZIP_PATH := "7z" |} in
  let e := {| abspath := fun p => p;
              os_error := fun _ _ => None;
              lost_before_refusal := fun _ _ => false;
              proc := fun _ _ => Hangs;
              unzip := fun _ _ _ => (0%Z, None);
              disk_after := fun _ l => l;
              txt_of := fun _ => Summary.ReadFails "No such file or directory";
              csv_of := fun _ => Timeline.OpenFails "No such file or directory" |} in
  let w := {| fs := ["/work"; "/work/a1"; "/work/a1/Noriben_1.txt"; "/work/a2"];
              log := []; calls := [] |} in
  on_disk "/work/a1" (fs (world_after (cleanup cfg e "a1") w)) = false
  /\ outcome_of (cleanup cfg e "a1") (world_after (cleanup cfg e "a1") w)
     = Return {| success := true; error := None; status := 200 |}.
Proof.
  intros cfg e w. split.
  - apply (proj1 (proj2 (C9_cleanup_idempotent cfg e "a1" w))); reflexivity.
  - apply (proj2 (proj2 (C9_cleanup_idempotent cfg e "a1" w))); reflexivity.
Defined.

End CleanupClaims.

(** ** The supervised run *)

Section SupervisorClaims.
Import Py Agent Policy.

Ltac py_unfold :=
  unfold mbind, mret, py_bind, py_ret, try_except, try_finally, path_exists,
    os_remove, rmtree, mkdir, getsize, logger, Exception in *.

(** The [try] with its [except Exception] returns a dictionary in every
    case: no exception leaves it. *)
Lemma run_noriben_body_returns
    (cfg : config) (e : env) (sample_path analysis_id : string) (w : world) :
  exists res w1,
    run_noriben_body cfg e sample_path analysis_id w = (Return res, w1).
Proof.
  unfold run_noriben_body, try_except.
  match goal with
  | |- context [match ?m w with _ => _ end] => destruct (m w) as [[res | x] w1]
  end.
  - by exists res, w1.
  - unfold Exception. destruct (is_TimeoutExpired x); py_unfold; simpl; eauto.
Qed.

(** Each of the two [try] statements of the [finally] block: it never
    raises, makes no call, only adds to the log, takes nothing back onto
    the disk, and either its path is gone afterwards or the system refused
    the removal and a warning says so. *)
Lemma remove_sample_spec (e : env) (sample_path : string) (w : world) :
  exists w',
    remove_sample e sample_path w = (Return tt, w')
    /\ calls w' = calls w
    /\ (exists new, log w' = log w ++ new)
    /\ (forall q, on_disk q (fs w) = false -> on_disk q (fs w') = false)
    /\ (on_disk (abspath e sample_path) (fs w') = false
        \/ exists x, os_error e Remove sample_path = Some x
             /\ (WARNING, "Failed to cleanup sample: " +:+ str_exn x) ∈ log w').
Proof.
  unfold remove_sample. py_unfold. simpl.
  destruct (on_disk (abspath e sample_path) (fs w)) eqn:Hs; simpl;
    rewrite ?Hs; simpl.
  - destruct (os_error e Remove sample_path) as [x |] eqn:Hrm; simpl;
      rewrite ?Hs; simpl; eexists; (split; [reflexivity |]); simpl;
      (split; [done |]); (split; [by eexists |]); split; auto.
    + right. exists x. split; [done |]. apply elem_of_app. right. by left.
    + intros q. apply on_disk_filter.
    + left. apply on_disk_removed.
  - eexists; (split; [reflexivity |]); simpl; (split; [done |]).
    split; [by exists []; rewrite app_nil_r |]. auto.
Qed.

Lemma remove_extraction_dir_spec
    (cfg : config) (e : env) (analysis_id : string) (w : world) :
  let dir := joinpath (WORK_DIR cfg) (analysis_id +:+ "_extracted") in
  exists w',
    remove_extraction_dir cfg e analysis_id w = (Return tt, w')
    /\ calls w' = calls w
    /\ (exists new, log w' = log w ++ new)
    /\ (forall q, on_disk q (fs w) = false -> on_disk q (fs w') = false)
    /\ (on_disk (abspath e dir) (fs w') = false
        \/ exists x, os_error e Rmtree dir = Some x
             /\ (WARNING, "Failed to cleanup extraction directory: "
                          +:+ str_exn x) ∈ log w').
Proof.
  intros dir. unfold remove_extraction_dir. fold dir. py_unfold. simpl.
  destruct (on_disk (abspath e dir) (fs w)) eqn:Hs; simpl;
    rewrite ?Hs; simpl.
  - destruct (os_error e Rmtree dir) as [x |] eqn:Hrm; simpl;
      rewrite ?Hs; simpl; eexists; (split; [reflexivity |]); simpl;
      (split; [done |]); (split; [by eexists |]); split.
    + intros q. apply on_disk_filter.
    + right. exists x. split; [done |]. apply elem_of_app. right. by left.
    + intros q. apply on_disk_filter.
    + left. apply on_disk_rmtree.
  - eexists; (split; [reflexivity |]); simpl; (split; [done |]).
    split; [by exists []; rewrite app_nil_r |]. auto.
Qed.

Lemma cleanup_sample_spec
    (cfg : config) (e : env) (sample_path analysis_id : string) (w : world) :
  let dir := joinpath (WORK_DIR cfg) (analysis_id +:+ "_extracted") in
  exists w',
    cleanup_sample cfg e sample_path analysis_id w = (Return tt, w')
    /\ calls w' = calls w
    /\ (on_disk (abspath e sample_path) (fs w') = false
        \/ exists x, os_error e Remove sample_path = Some x
             /\ (WARNING, "Failed to cleanup sample: " +:+ str_exn x) ∈ log w')
    /\ (on_disk (abspath e dir) (fs w') = false
        \/ exists x, os_error e Rmtree dir = Some x
             /\ (WARNING, "Failed to cleanup extraction directory: "
                          +:+ str_exn x) ∈ log w').
Proof.
  intros dir.
  destruct (remove_sample_spec e sample_path w)
    as (w1 & E1 & C1 & [l1 L1] & K1 & P1).
  destruct (remove_extraction_dir_spec cfg e analysis_id w1)
    as (w2 & E2 & C2 & [l2 L2] & K2 & P2).
  exists w2. unfold cleanup_sample, mbind, py_bind. rewrite E1, E2.
  split; [done |]. split; [congruence |]. split; [| done].
  destruct P1 as [Hgone | (x & Hx & Hlog)]; [left; auto |].
  right. exists x. split; [done |]. rewrite L2. apply elem_of_app. by left.
Qed.

(** The [try] block asks the system for no removal. *)
Lemma run_noriben_body_no_removal
    (cfg : config) (e : env) (refuse : os_call -> string -> option exn)
    (sample_path analysis_id : string) :
  run_noriben_body cfg (with_refusals e refuse) sample_path analysis_id
  = run_noriben_body cfg e sample_path analysis_id.
Proof. reflexivity. Qed.

(** C1.  Whatever branch the run takes, [run_noriben] returns a dictionary
    and raises nothing; what it returns is what the [try] block with its
    handlers returned, also when the system refuses the removals of the
    cleanup; the world it leaves is the one the cleanup leaves behind that
    block.  Afterwards the sample is gone, or the system refused its
    removal and a warning was logged; and likewise for the
    [{analysis_id}_extracted] directory. *)
Theorem C1_cleanup_runs_on_every_path
    (cfg : config) (e : env) (sample_path analysis_id : string) (w : world) :
  let dir := joinpath (WORK_DIR cfg) (analysis_id +:+ "_extracted") in
  let run := run_noriben cfg e sample_path analysis_id in
  let body := run_noriben_body cfg e sample_path analysis_id in
  let w' := world_after run w in
  (exists res, outcome_of run w = Return res)
  /\ outcome_of run w = outcome_of body w
  /\ (forall refuse,
        outcome_of (run_noriben cfg (with_refusals e refuse)
                      sample_path analysis_id) w
        = outcome_of body w)
  /\ w' = world_after (cleanup_sample cfg e sample_path analysis_id)
                      (world_after body w)
  /\ (on_disk (abspath e sample_path) (fs w') = false
      \/ exists x, os_error e Remove sample_path = Some x
           /\ (WARNING, "Failed to cleanup sample: " +:+ str_exn x) ∈ log w')
  /\ (on_disk (abspath e dir) (fs w') = false
      \/ exists x, os_error e Rmtree dir = Some x
           /\ (WARNING, "Failed to cleanup extraction directory: "
                        +:+ str_exn x) ∈ log w').
Proof.
  intros dir run body w'. subst run body w'.
  assert (Hout : forall e0,
            outcome_of (run_noriben cfg e0 sample_path analysis_id) w
            = outcome_of (run_noriben_body cfg e0 sample_path analysis_id) w).
  { intros e0. unfold outcome_of, run_noriben, try_finally.
    destruct (run_noriben_body_returns cfg e0 sample_path analysis_id w)
      as (res & w1 & ->).
    destruct (cleanup_sample_spec cfg e0 sample_path analysis_id w1)
      as (w2 & E & _).
    by rewrite E. }
  split; [| split; [apply Hout | split]].
  - rewrite Hout. unfold outcome_of.
    destruct (run_noriben_body_returns cfg e sample_path analysis_id w)
      as (res & w1 & ->). by exists res.
  - intros refuse. by rewrite Hout, run_noriben_body_no_removal.
  - unfold outcome_of, world_after, run_noriben, try_finally.
    destruct (run_noriben_body_returns cfg e sample_path analysis_id w)
      as (res & w1 & ->).
    destruct (cleanup_sample_spec cfg e sample_path analysis_id w1)
      as (w2 & E & _ & Hs & Hd).
    simpl. rewrite !E. simpl. done.
Qed.

(** With a command that outlasts the limit, the [try] block ends in the
    handler of [TimeoutExpired], the command killed at the limit. *)
Lemma run_noriben_body_timeout
    (cfg : config) (e : env) (sample_path analysis_id : string) (w : world) :
  os_error e Mkdir (joinpath (WORK_DIR cfg) analysis_id) = None ->
  on_disk (abspath e (abspath e sample_path)) (fs w) = true ->
  os_error e Getsize (abspath e sample_path) = None ->
  outlasts (proc e (noriben_cmd cfg e sample_path analysis_id)
                   (noriben_cwd cfg e))
           (ANALYSIS_TIMEOUT cfg + 60) ->
  exists w1,
    run_noriben_body cfg e sample_path analysis_id w
    = (Return (Failure "Analysis timeout"), w1)
    /\ calls w1
       = calls w
         ++ [{| invoked := Subprocess (noriben_cmd cfg e sample_path analysis_id)
                                      (noriben_cwd cfg e);
                time_limit := Some (ANALYSIS_TIMEOUT cfg + 60)%Z;
                elapsed := (ANALYSIS_TIMEOUT cfg + 60)%Z;
                was_killed := true |}].
Proof.
  intros Hmk Hthere Hsize Hlong.
  unfold run_noriben_body. py_unfold. unfold subprocess_run. simpl.
  rewrite Hmk.
  assert (Hafter :
    on_disk (abspath e (abspath e sample_path))
      (fs (if on_disk (abspath e (joinpath (WORK_DIR cfg) analysis_id)) (fs w)
           then w
           else set_fs (fs w ++ [abspath e (joinpath (WORK_DIR cfg) analysis_id)]) w))
    = true).
  { destruct (on_disk (abspath e (joinpath (WORK_DIR cfg) analysis_id)) (fs w));
      [exact Hthere |]. simpl. by apply on_disk_app. }
  destruct (on_disk (abspath e (joinpath (WORK_DIR cfg) analysis_id)) (fs w));
    simpl in *; rewrite Hafter; simpl; rewrite Hsize; simpl;
    destruct (proc e _ _) as [d rc out err | | | d rc out err msg];
    simpl in *; try done;
    try (destruct (Z.leb_spec d (ANALYSIS_TIMEOUT cfg + 60)); [lia |]);
    simpl; eauto.
Qed.

(** C2.  When the monitoring tool is launched (the output directory can be
    made, the sample is there) and does not exit within
    [ANALYSIS_TIMEOUT + 60], the run kills it at that limit and returns the
    failure "Analysis timeout"; the sample is gone afterwards, the system
    not refusing its removal. *)
Theorem C2_timeout_kills_and_cleans
    (cfg : config) (e : env) (sample_path analysis_id : string) (w : world) :
  os_error e Mkdir (joinpath (WORK_DIR cfg) analysis_id) = None ->
  on_disk (abspath e (abspath e sample_path)) (fs w) = true ->
  os_error e Getsize (abspath e sample_path) = None ->
  outlasts (proc e (noriben_cmd cfg e sample_path analysis_id)
                   (noriben_cwd cfg e))
           (ANALYSIS_TIMEOUT cfg + 60) ->
  os_error e Remove sample_path = None ->
  let w' := world_after (run_noriben cfg e sample_path analysis_id) w in
  outcome_of (run_noriben cfg e sample_path analysis_id) w
  = Return (Failure "Analysis timeout")
  /\ last (calls w')
     = Some {| invoked := Subprocess (noriben_cmd cfg e sample_path analysis_id)
                                     (noriben_cwd cfg e);
               time_limit := Some (ANALYSIS_TIMEOUT cfg + 60)%Z;
               elapsed := (ANALYSIS_TIMEOUT cfg + 60)%Z;
               was_killed := true |}
  /\ on_disk (abspath e sample_path) (fs w') = false.
Proof.
  intros Hmk Hthere Hsize Hlong Hrm w'. subst w'.
  unfold outcome_of, world_after, run_noriben, try_finally.
  destruct (run_noriben_body_timeout cfg e sample_path analysis_id w
              Hmk Hthere Hsize Hlong) as (w1 & -> & Hcalls).
  destruct (cleanup_sample_spec cfg e sample_path analysis_id w1)
    as (w2 & E & Hsame & Hs & _).
  simpl. rewrite !E. simpl. split; [done |]. split.
  - rewrite Hsame, Hcalls. apply last_snoc.
  - destruct Hs as [Hgone | (x & Hx & _)]; [done | congruence].
Qed.

(** Two runs of the model: a successful analysis, and a failed one in
    which the system refuses to remove the sample. *)
Example run_noriben_success :
  let cfg := {| NORIBEN_PATH := "/opt/noriben/Noriben.py";
                PYTHON_PATH := "python";
                ANALYSIS_TIMEOUT := 300; WORK_DIR := "/work";
                UNZIP_TOOL := "7z"; UNZIP_PATH := "7z" |} in
  let e := {| abspath := fun p => p;
              os_error := fun _ _ => None;
              lost_before_refusal := fun _ _ => false;
              proc := fun _ _ => Exits 95 0 "done" "";
              unzip := fun _ _ _ => (0%Z, None);
              disk_after := fun _ l =>
                l ++ ["/work/a1/Noriben_27_Jul.txt";
                      "/work/a1/Noriben_27_Jul_timeline.csv"];
              txt_of := fun _ => Summary.Text (Summary.report_text 16);
              csv_of := fun _ =>
                Timeline.Opened
                  [Timeline.Row ["12:00:01"; "Process"; "CreateProcess";
                                 "sample.exe"; "1204"; "cmd.exe"; "1310"];
                   Timeline.Row ["12:00:02"; "Network"; "TCP Send";
                                 "sample.exe"; "1204"; "10.0.0.7:443"]] |} in
  let w := {| fs := ["/work"; "/work/a1_upload.exe"]; log := []; calls := [] |} in
  let run := run_noriben cfg e "/work/a1_upload.exe" "a1" in
  (exists r, outcome_of run w = Return (Success r)
             /\ length (r_process_activity r) = 1%nat
             /\ length (r_network r) = 1%nat
             /\ r_unique_hosts r = ["10.0.0.7"])
  /\ on_disk "/work/a1_upload.exe" (fs (world_after run w)) = false.
Proof. vm_compute. split; [eexists; repeat split |]; reflexivity. Qed.

Example run_noriben_failure_removal_refused :
  let cfg := {| NORIBEN_PATH := "/opt/noriben/Noriben.py";
                PYTHON_PATH := "python";
                ANALYSIS_TIMEOUT := 300; WORK_DIR := "/work";
                UNZIP_TOOL := "7z"; UNZIP_PATH := "7z" |} in
  let e := {| abspath := fun p => p;
              os_error := fun op _ =>
                match op with
                | Remove => Some (OtherError "Access is denied")
                | _ => None
                end;
              lost_before_refusal := fun _ _ => false;
              proc := fun _ _ => Exits 3 1 "" "Procmon not found";
              unzip := fun _ _ _ => (0%Z, None);
              disk_after := fun _ l => l;
              txt_of := fun _ => Summary.ReadFails "No such file or directory";
              csv_of := fun _ => Timeline.OpenFails "No such file or directory" |} in
  let w := {| fs := ["/work"; "/work/a1_upload.exe"]; log := []; calls := [] |} in
  let run := run_noriben cfg e "/work/a1_upload.exe" "a1" in
  outcome_of run w
  = Return (Failure "Noriben execution failed (code 1): Procmon not found")
  /\ last (log (world_after run w))
     = Some (WARNING, "Failed to cleanup sample: Access is denied")
  /\ on_disk "/work/a1_upload.exe" (fs (world_after run w)) = true.
Proof. vm_compute. repeat split; reflexivity. Qed.

Lemma C2_timeout_kills_and_cleans_witness :
  let cfg := {| NORIBEN_PATH := "/opt/noriben/Noriben.py";
                PYTHON_PATH := "python";
                ANALYSIS_TIMEOUT := 300; WORK_DIR := "/work";
                UNZIP_TOOL := "7z"; UNZIP_PATH := "7z" |} in
  let e := {| abspath := fun p => p;
              os_error := fun _ _ => None;
              lost_before_refusal := fun _ _ => false;
              proc := fun _ _ => Exits 361 0 "" "";
              unzip := fun _ _ _ => (0%Z, None);
              disk_after := fun _ l => l;
              txt_of := fun _ => Summary.ReadFails "No such file or directory";
              csv_of := fun _ => Timeline.OpenFails "No such file or directory" |} in
  let w := {| fs := ["/work"; "/work/a1_upload.exe"]; log := []; calls := [] |} in
  outcome_of (run_noriben cfg e "/work/a1_upload.exe" "a1") w
  = Return (Failure "Analysis timeout")
  /\ on_disk "/work/a1_upload.exe"
       (fs (world_after (run_noriben cfg e "/work/a1_upload.exe" "a1") w))
     = false.
Proof.
  intros cfg e w.
  destruct (C2_timeout_kills_and_cleans cfg e "/work/a1_upload.exe" "a1" w)
    as (Hres & _ & Hgone);
    [reflexivity | reflexivity | reflexivity | simpl; lia | reflexivity |].
  split; [exact Hres | exact Hgone].
Defined.

End SupervisorClaims.

(** ** The extraction backends *)

Section ExtractionFacts.
Import Py Agent Policy.

Lemma supplied_given (password : option string) :
  supplied password = given password.
Proof. by destruct password as [[| c p] |]. Qed.

Lemma subprocess_attempt (e : env) (cmd : list string) (text : bool)
    (w : world) :
  exists w',
    calls w' = calls w ++ [went e (Subprocess cmd None)]
    /\ match verdict_of e text (Subprocess cmd None) with
       | Accepted =>
           exists r, subprocess_run e cmd None 30 text w = (Return r, w')
                     /\ (returncode r =? 0)%Z = true
       | Rejected =>
           exists r, subprocess_run e cmd None 30 text w = (Return r, w')
                     /\ (returncode r =? 0)%Z = false
       | Aborted =>
           exists x, subprocess_run e cmd None 30 text w = (Raise x, w')
       end.
Proof.
  unfold subprocess_run, verdict_of, went.
  destruct (proc e cmd None) as [d rc out err | | msg | d rc out err msg];
    simpl.
  - destruct (d <=? 30)%Z; simpl.
    + destruct (rc =? 0)%Z eqn:Hrc; eexists;
        (split; [| eexists; split; [reflexivity | done]]); reflexivity.
    + eexists; (split; [| eexists; reflexivity]); reflexivity.
  - eexists; (split; [| eexists; reflexivity]); reflexivity.
  - eexists; (split; [| eexists; reflexivity]); reflexivity.
  - destruct (d <=? 30)%Z; simpl.
    + destruct text; simpl.
      * eexists; (split; [| eexists; reflexivity]); reflexivity.
      * destruct (rc =? 0)%Z eqn:Hrc; eexists;
          (split; [| eexists; split; [reflexivity | done]]); reflexivity.
    + eexists; (split; [| eexists; reflexivity]); reflexivity.
Qed.

Lemma extractall_attempt (e : env) (zip_path extract_dir : string)
    (pwd : option string) (text : bool) (w : world) :
  exists w',
    calls w' = calls w ++ [went e (ExtractAll zip_path extract_dir pwd)]
    /\ log w' = log w
    /\ match verdict_of e text (ExtractAll zip_path extract_dir pwd) with
       | Accepted => extractall e zip_path extract_dir pwd w = (Return tt, w')
       | Rejected =>
           exists x, extractall e zip_path extract_dir pwd w = (Raise x, w')
                     /\ is_RuntimeError x = true
       | Aborted =>
           exists x, extractall e zip_path extract_dir pwd w = (Raise x, w')
                     /\ is_RuntimeError x = false
       end.
Proof.
  unfold extractall, verdict_of, went.
  destruct (unzip e zip_path extract_dir pwd) as [d [x |]]; simpl.
  - destruct (is_RuntimeError x) eqn:Hx; eexists;
      (split; [| split; [| exists x; split; [reflexivity | done]]]);
      reflexivity.
  - eexists. (split; [| split; [| reflexivity]]); reflexivity.
Qed.

Section Loop.
Variable e : env.
Variable inv : option string -> invocation.
Variable judge : option string -> verdict.
Variable attempt : string -> py bool.

Hypothesis attempt_spec : forall pwd w,
  exists w',
    calls w' = calls w ++ [went e (inv (Some pwd))]
    /\ match judge (Some pwd) with
       | Accepted => attempt pwd w = (Return true, w')
       | Rejected => attempt pwd w = (Return false, w')
       | Aborted => exists x, attempt pwd w = (Raise x, w')
       end.

(** The loop over the common passwords makes the attempts of
    [try_in_order] and ends as it does. *)
Lemma for_passwords_policy (pwds : list string) (w : world) :
  exists w',
    calls w'
    = calls w ++ map (fun a => went e (inv a))
                     (fst (try_in_order judge (map Some pwds)))
    /\ match snd (try_in_order judge (map Some pwds)) with
       | Accepted => for_passwords pwds attempt w = (Return true, w')
       | Rejected => for_passwords pwds attempt w = (Return false, w')
       | Aborted => exists x, for_passwords pwds attempt w = (Raise x, w')
       end.
Proof.
  revert w. induction pwds as [| pwd pwds IH]; intros w; simpl.
  - exists w. split; [by rewrite app_nil_r | done].
  - destruct (attempt_spec pwd w) as (w1 & Hc1 & Hv).
    unfold mbind, py_bind.
    destruct (judge (Some pwd)).
    + exists w1. simpl. rewrite Hv. done.
    + destruct (IH w1) as (w2 & Hc2 & Hv2).
      destruct (try_in_order judge (map Some pwds)) as [tried v]. simpl in *.
      exists w2. split.
      * rewrite Hc2, Hc1, <- app_assoc. done.
      * rewrite Hv. done.
    + exists w1. simpl. destruct Hv as [x ->]. eauto.
Qed.

End Loop.

Ltac attempt_subprocess w1 Hc Hv :=
  match goal with
  | |- context [subprocess_run ?e ?c None 30 ?t ?w0] =>
      destruct (subprocess_attempt e c t w0) as (w1 & Hc & Hv)
  end.

Ltac attempt_extractall t w1 Hc Hv :=
  match goal with
  | |- context [extractall ?e ?z ?d ?a ?w0] =>
      destruct (extractall_attempt e z d a t w0) as (w1 & Hc & _ & Hv)
  end.

Local Arguments went : simpl never.
Local Arguments verdict_of : simpl never.

Ltac settle H := eexists; split; [reflexivity |]; simpl; rewrite ?H; done.

(** The backends against a policy whose judge answers an attempt as the
    environment answers the call the backend makes for it: the first call
    with its output read as text, the calls of the loop with their output
    left as bytes. *)
Lemma extract_7z_refines (cfg : config) (e : env)
    (zip_path extract_dir : string) (password : option string) (w : world)
    (judge : option string -> verdict) :
  let inv := attempt_call SevenZip cfg zip_path extract_dir in
  (forall a, judge a = verdict_of e (first_call password a) (inv a)) ->
  exists w',
    _extract_with_7z cfg e zip_path extract_dir password w
    = (Return (accepted (snd (password_policy judge password))), w')
    /\ calls w'
       = calls w ++ map (fun a => went e (inv a))
                        (fst (password_policy judge password)).
Proof.
  intros inv Hjudge. unfold _extract_with_7z, password_policy.
  rewrite (supplied_given password).
  change common_passwords_7z with fallback_passwords.
  generalize fallback_passwords. intros pwds.
  destruct (given password) as [p |] eqn:Hs.
  - assert (Hj : judge (Some p) = verdict_of e true (inv (Some p)))
      by (rewrite Hjudge; unfold first_call; by rewrite Hs).
    unfold try_except, mbind, py_bind, mret, py_ret, logger. simpl.
    attempt_subprocess w1 Hc Hv.
    change (verdict_of e true _) with (verdict_of e true (inv (Some p))) in Hv.
    rewrite <- Hj in Hv.
    change (went e _) with (went e (inv (Some p))) in Hc.
    destruct (judge (Some p)).
    + destruct Hv as (r & -> & ->). settle Hc.
    + destruct Hv as (r & -> & ->). settle Hc.
    + destruct Hv as (x & ->). settle Hc.
  - assert (Hj : judge None = verdict_of e true (inv None))
      by (rewrite Hjudge; unfold first_call; by rewrite Hs).
    assert (Hjp : forall pwd,
              judge (Some pwd) = verdict_of e false (inv (Some pwd)))
      by (intros pwd; rewrite Hjudge; unfold first_call; by rewrite Hs).
    remember (for_passwords pwds _) as loop eqn:Hloop.
    unfold try_except, mbind, py_bind, mret, py_ret, logger. simpl.
    attempt_subprocess w1 Hc Hv.
    change (verdict_of e true _) with (verdict_of e true (inv None)) in Hv.
    rewrite <- Hj in Hv.
    change (went e _) with (went e (inv None)) in Hc.
    destruct (judge None).
    + destruct Hv as (r & -> & ->). settle Hc.
    + destruct Hv as (r & -> & ->).
      destruct (for_passwords_policy e inv judge
                  (fun pwd =>
                     result ← subprocess_run e
                       [UNZIP_PATH cfg; "x"; zip_path; "-o" +:+ extract_dir;
                        "-y"; "-p" +:+ pwd] None 30 false;
                     if (returncode (result : CompletedProcess) =? 0)%Z then
                       logger INFO
                         ("7z extraction successful with password: " +:+ pwd);;
                       mret true
                     else mret false))
        with (pwds := pwds) (w := w1) as (w2 & Hc2 & Hv2).
      { intros pwd w0. unfold mbind, py_bind, mret, py_ret, logger.
        attempt_subprocess w3 Hc3 Hv3.
        change (Subprocess _ None) with (inv (Some pwd)) in *.
        rewrite <- Hjp in Hv3.
        destruct (judge (Some pwd)).
        - destruct Hv3 as (r' & -> & ->).
          eexists; split; [| reflexivity]; exact Hc3.
        - destruct Hv3 as (r' & -> & ->).
          eexists; split; [| reflexivity]; exact Hc3.
        - destruct Hv3 as (x & ->).
          eexists; split; [| eexists; reflexivity]; exact Hc3. }
      rewrite <- Hloop in Hv2.
      destruct (try_in_order judge (map Some pwds)) as [tried v].
      simpl in Hc2, Hv2 |- *. rewrite Hc in Hc2. simpl in Hc2.
      rewrite <- app_assoc in Hc2.
      destruct v; [| | destruct Hv2 as (x & Hv2)]; rewrite Hv2; settle Hc2.
    + destruct Hv as (x & ->). settle Hc.
Qed.

Lemma extract_unzip_refines (cfg : config) (e : env)
    (zip_path extract_dir : string) (password : option string) (w : world)
    (judge : option string -> verdict) :
  let inv := attempt_call Unzip cfg zip_path extract_dir in
  (forall a, judge a = verdict_of e (first_call password a) (inv a)) ->
  exists w',
    _extract_with_unzip cfg e zip_path extract_dir password w
    = (Return (accepted (snd (password_policy judge password))), w')
    /\ calls w'
       = calls w ++ map (fun a => went e (inv a))
                        (fst (password_policy judge password)).
Proof.
  intros inv Hjudge. unfold _extract_with_unzip, password_policy.
  rewrite !(supplied_given password).
  change common_passwords_unzip with fallback_passwords.
  generalize fallback_passwords. intros pwds.
  destruct (given password) as [p |] eqn:Hs.
  - assert (Hj : judge (Some p) = verdict_of e true (inv (Some p)))
      by (rewrite Hjudge; unfold first_call; by rewrite Hs).
    unfold try_except, mbind, py_bind, mret, py_ret, logger. simpl.
    attempt_subprocess w1 Hc Hv.
    change (verdict_of e true _) with (verdict_of e true (inv (Some p))) in Hv.
    rewrite <- Hj in Hv.
    change (went e _) with (went e (inv (Some p))) in Hc.
    destruct (judge (Some p)).
    + destruct Hv as (r & -> & ->). settle Hc.
    + destruct Hv as (r & -> & ->). settle Hc.
    + destruct Hv as (x & ->). settle Hc.
  - assert (Hj : judge None = verdict_of e true (inv None))
      by (rewrite Hjudge; unfold first_call; by rewrite Hs).
    assert (Hjp : forall pwd,
              judge (Some pwd) = verdict_of e false (inv (Some pwd)))
      by (intros pwd; rewrite Hjudge; unfold first_call; by rewrite Hs).
    remember (for_passwords pwds _) as loop eqn:Hloop.
    unfold try_except, mbind, py_bind, mret, py_ret, logger. simpl.
    attempt_subprocess w1 Hc Hv.
    change (verdict_of e true _) with (verdict_of e true (inv None)) in Hv.
    rewrite <- Hj in Hv.
    change (went e _) with (went e (inv None)) in Hc.
    destruct (judge None).
    + destruct Hv as (r & -> & ->). settle Hc.
    + destruct Hv as (r & -> & ->).
      destruct (for_passwords_policy e inv judge
                  (fun pwd =>
                     result ← subprocess_run e
                       [UNZIP_PATH cfg; "-o"; zip_path; "-d"; extract_dir;
                        "-P"; pwd] None 30 false;
                     if (returncode (result : CompletedProcess) =? 0)%Z then
                       logger INFO
                         ("unzip extraction successful with password: "
                          +:+ pwd);;
                       mret true
                     else mret false))
        with (pwds := pwds) (w := w1) as (w2 & Hc2 & Hv2).
      { intros pwd w0. unfold mbind, py_bind, mret, py_ret, logger.
        attempt_subprocess w3 Hc3 Hv3.
        change (Subprocess _ None) with (inv (Some pwd)) in *.
        rewrite <- Hjp in Hv3.
        destruct (judge (Some pwd)).
        - destruct Hv3 as (r' & -> & ->).
          eexists; split; [| reflexivity]; exact Hc3.
        - destruct Hv3 as (r' & -> & ->).
          eexists; split; [| reflexivity]; exact Hc3.
        - destruct Hv3 as (x & ->).
          eexists; split; [| eexists; reflexivity]; exact Hc3. }
      rewrite <- Hloop in Hv2.
      destruct (try_in_order judge (map Some pwds)) as [tried v].
      simpl in Hc2, Hv2 |- *. rewrite Hc in Hc2. simpl in Hc2.
      rewrite <- app_assoc in Hc2.
      destruct v; [| | destruct Hv2 as (x & Hv2)]; rewrite Hv2; settle Hc2.
    + destruct Hv as (x & ->). settle Hc.
Qed.

Lemma extract_python_refines (cfg : config) (e : env)
    (zip_path extract_dir : string) (password : option string) (w : world)
    (judge : option string -> verdict) :
  os_error e OpenZip zip_path = None ->
  let inv := attempt_call Python cfg zip_path extract_dir in
  (forall a, judge a = verdict_of e (first_call password a) (inv a)) ->
  exists w',
    _extract_with_python cfg e zip_path extract_dir password w
    = (Return (accepted (snd (password_policy judge password))), w')
    /\ calls w'
       = calls w ++ map (fun a => went e (inv a))
                        (fst (password_policy judge password)).
Proof.
  intros Hopen inv Hjudge. unfold _extract_with_python, password_policy.
  rewrite (supplied_given password).
  change common_passwords_python with fallback_passwords.
  generalize fallback_passwords. intros pwds.
  destruct (given password) as [p |] eqn:Hs.
  - unfold try_except, mbind, py_bind, mret, py_ret, logger, open_zip.
    rewrite Hopen. cbv beta iota.
    attempt_extractall (first_call password (Some p)) w1 Hc Hv.
    change (ExtractAll _ _ _) with (inv (Some p)) in *.
    rewrite <- Hjudge in Hv.
    destruct (judge (Some p)).
    + rewrite Hv. settle Hc.
    + destruct Hv as (x & -> & Hx). settle Hc.
    + destruct Hv as (x & -> & Hx). settle Hc.
  - remember (for_passwords pwds _) as loop eqn:Hloop.
    unfold try_except, mbind, py_bind, mret, py_ret, logger, open_zip.
    rewrite Hopen. cbv beta iota.
    attempt_extractall (first_call password None) w1 Hc Hv.
    change (ExtractAll _ _ _) with (inv None) in *.
    rewrite <- Hjudge in Hv.
    simpl try_in_order.
    destruct (judge None).
    + rewrite Hv. settle Hc.
    + destruct Hv as (x & -> & Hx). cbv beta iota. rewrite Hx.
      destruct (for_passwords_policy e inv judge
                  (fun pwd =>
                     try_except
                       (extractall e zip_path extract_dir (Some pwd);;
                        logger INFO
                          ("Python zipfile extraction successful with password: "
                           +:+ pwd);;
                        mret true)
                       is_RuntimeError
                       (fun _ => mret false)))
        with (pwds := pwds) (w := w1) as (w2 & Hc2 & Hv2).
      { intros pwd w0.
        unfold try_except, mbind, py_bind, mret, py_ret, logger.
        attempt_extractall (first_call password (Some pwd)) w3 Hc3 Hv3.
        change (ExtractAll _ _ _) with (inv (Some pwd)) in *.
        rewrite <- Hjudge in Hv3.
        destruct (judge (Some pwd)).
        - rewrite Hv3. eexists; split; [| reflexivity]; exact Hc3.
        - destruct Hv3 as (y & -> & Hy). cbv beta iota. rewrite Hy.
          eexists; split; [| reflexivity]; exact Hc3.
        - destruct Hv3 as (y & -> & Hy). cbv beta iota. rewrite Hy.
          eexists; split; [| eexists; reflexivity]; exact Hc3. }
      rewrite <- Hloop in Hv2.
      destruct (try_in_order judge (map Some pwds)) as [tried v].
      simpl in Hc2, Hv2 |- *. rewrite Hc in Hc2. simpl in Hc2.
      rewrite <- app_assoc in Hc2.
      destruct v; [| | destruct Hv2 as (y & Hv2)]; rewrite Hv2; settle Hc2.
    + destruct Hv as (x & -> & Hx). cbv beta iota. rewrite Hx. settle Hc.
Qed.

(** The three backends make the attempts of the policy, in its order, and
    end as it does. *)
Lemma backend_refines_policy (b : backend) (cfg : config) (e : env)
    (zip_path extract_dir : string) (password : option string) (w : world) :
  (b = Python -> os_error e OpenZip zip_path = None) ->
  let inv := attempt_call b cfg zip_path extract_dir in
  let judge a := verdict_of e (first_call password a) (inv a) in
  extract_with b cfg e zip_path extract_dir password w
  = (Return (accepted (snd (password_policy judge password))),
     world_after (extract_with b cfg e zip_path extract_dir password) w)
  /\ calls (world_after (extract_with b cfg e zip_path extract_dir password) w)
     = calls w ++ map (fun a => went e (inv a))
                      (fst (password_policy judge password)).
Proof.
  intros Hopen inv judge. unfold world_after.
  destruct b; simpl extract_with.
  - destruct (extract_7z_refines cfg e zip_path extract_dir password w judge)
      as (w' & -> & Hc); done.
  - destruct (extract_unzip_refines cfg e zip_path extract_dir password w judge)
      as (w' & -> & Hc); done.
  - destruct (extract_python_refines cfg e zip_path extract_dir password w
                judge) as (w' & -> & Hc); [by apply Hopen | done | done].
Qed.

Lemma try_in_order_spec (judge : option string -> verdict)
    (l : list (option string)) :
  let tried := fst (try_in_order judge l) in
  let v := snd (try_in_order judge l) in
  tried `prefix_of` l
  /\ (forall i a, tried !! i = Some a -> (S i < length tried)%nat ->
        judge a = Rejected)
  /\ match v with
     | Rejected => tried = l /\ forall a, a ∈ l -> judge a = Rejected
     | _ => exists a, last tried = Some a /\ judge a = v
     end.
Proof.
  induction l as [| a l IH]; simpl.
  - split; [done |]. split; [| split; [done |]].
    + intros i a H. by rewrite lookup_nil in H.
    + intros a H. by apply elem_of_nil in H.
  - destruct (judge a) eqn:Ha; simpl.
    + split; [by apply prefix_cons, prefix_nil |]. split; [| by exists a].
      intros [| i] a' H Hlen; simpl in *; lia.
    + destruct (try_in_order judge l) as [tried v]. simpl in IH |- *.
      destruct IH as (Hpre & Hrej & Hend).
      split; [by apply prefix_cons |]. split.
      * intros [| i] a' H Hlen; simpl in *; [by injection H as <- |].
        apply (Hrej i); [done | lia].
      * destruct v.
        -- destruct Hend as (a' & Hlast & Hj). exists a'. split; [| done].
           destruct tried; [done |]. done.
        -- destruct Hend as [-> Hall]. split; [done |].
           intros a' [-> | Hin]%elem_of_cons; auto.
        -- destruct Hend as (a' & Hlast & Hj). exists a'. split; [| done].
           destruct tried; [done |]. done.
    + split; [by apply prefix_cons, prefix_nil |]. split; [| by exists a].
      intros [| i] a' H Hlen; simpl in *; lia.
Qed.

(** What the policy guarantees about the attempts it makes: all but the
    last are rejected, and the last decides how the sequence ends. *)
Lemma password_policy_spec (judge : option string -> verdict)
    (password : option string) :
  let attempts := fst (password_policy judge password) in
  let ending := snd (password_policy judge password) in
  (forall i a, attempts !! i = Some a -> (S i < length attempts)%nat ->
     judge a = Rejected)
  /\ (exists a, last attempts = Some a /\ judge a = ending)
  /\ (forall p, given password = Some p -> attempts = [Some p])
  /\ (given password = None ->
      attempts `prefix_of` (None :: map Some fallback_passwords)
      /\ head attempts = Some None
      /\ (ending = Rejected -> attempts = None :: map Some fallback_passwords)).
Proof.
  unfold password_policy. generalize fallback_passwords. intros pwds.
  destruct (given password) as [p |].
  - simpl.
    split; [| split; [by exists (Some p) | split; [by intros ? [= <-] | done]]].
    intros [| i] a H Hlen; simpl in *; lia.
  - pose proof (try_in_order_spec judge (None :: map Some pwds))
      as (Hpre & Hrej & Hend).
    split; [exact Hrej |]. split; [| split; [done |]].
    + destruct (snd (try_in_order _ _)) eqn:Hv; [done | | done].
      destruct Hend as [Hall Hr]. rewrite Hall.
      destruct (last (None :: map Some pwds)) as [a |] eqn:Hlast.
      * exists a. split; [done |]. by eapply Hr, last_Some_elem_of.
      * by apply last_None in Hlast.
    + intros _. split; [exact Hpre |]. split.
      * cbn [try_in_order]. destruct (judge None); [done | | done].
        by destruct (try_in_order judge (map Some pwds)).
      * intros Hv. rewrite Hv in Hend. by destruct Hend.
Qed.

(** When no attempt breaks off, the policy is the one the specification
    words: stop at the first success. *)
Lemma try_in_order_until_success (judge : option string -> verdict)
    (l : list (option string)) :
  (forall a, a ∈ l -> judge a <> Aborted) ->
  (fst (try_in_order judge l), accepted (snd (try_in_order judge l)))
  = until_success judge l.
Proof.
  induction l as [| a l IH]; intros Hno; [done |].
  cbn [try_in_order until_success].
  assert (Ha : judge a <> Aborted) by (apply Hno; by left).
  assert (Hl : forall a', a' ∈ l -> judge a' <> Aborted)
    by (intros a' Ha'; apply Hno; by right).
  specialize (IH Hl).
  destruct (judge a); [done | | done]. simpl.
  destruct (try_in_order judge l) as [tried v].
  destruct (until_success judge l) as [tried' ok].
  simpl in IH |- *. injection IH as -> ->. done.
Qed.

Lemma password_policy_stated (judge : option string -> verdict)
    (password : option string) :
  (forall a, judge a <> Aborted) ->
  (fst (password_policy judge password),
   accepted (snd (password_policy judge password)))
  = stated_policy judge password.
Proof.
  intros Hno. unfold password_policy, stated_policy.
  destruct (given password) as [p |]; [done |].
  apply try_in_order_until_success. auto.
Qed.

Lemma given_some (p : string) : p <> "" -> given (Some p) = Some p.
Proof. by destruct p. Qed.

Lemma given_none (password : option string) :
  password = None \/ password = Some "" -> given password = None.
Proof. by intros [-> | ->]. Qed.

Lemma went_external (e : env) (cmd : list string) (cwd : option string) :
  time_limit (went e (Subprocess cmd cwd)) = Some 30%Z
  /\ (elapsed (went e (Subprocess cmd cwd)) <= 30)%Z
  /\ (was_killed (went e (Subprocess cmd cwd)) = true ->
      forall text, verdict_of e text (Subprocess cmd cwd) = Aborted).
Proof.
  unfold went, verdict_of.
  destruct (proc e cmd cwd) as [d rc out err | | msg | d rc out err msg];
    simpl;
    [| repeat split; done || lia | repeat split; done || lia |];
    destruct (Z.leb_spec d 30); simpl; repeat split; done || lia.
Qed.

Lemma python_cannot_open (cfg : config) (e : env)
    (zip_path extract_dir : string) (password : option string) (w : world)
    (x : exn) :
  os_error e OpenZip zip_path = Some x ->
  calls (world_after (_extract_with_python cfg e zip_path extract_dir password) w)
  = calls w.
Proof.
  intros Hx. unfold world_after, _extract_with_python, try_except, open_zip.
  unfold mbind, py_bind. rewrite Hx. done.
Qed.

End ExtractionFacts.

Section ExtractionClaims.
Import Py Agent Policy.

(** C3, as the specification states it, fails: the fallback passwords are
    not tried up to the first success.  The archive below is protected by
    the fallback password "malware".  The in-process library asks for a
    password on the attempt without one, and on the wrong password
    "infected" it raises an error that is no [RuntimeError] (the wrong
    password passes the check byte and the CRC fails).  The loop is left
    with that error, "malware" is never tried and the extraction fails,
    where stopping at the first success would try it and succeed. *)
Lemma C3_counterexample :
  let cfg := {| NORIBEN_PATH := "Noriben.py"; PYTHON_PATH := "python";
                ANALYSIS_TIMEOUT := 300; WORK_DIR := "/work";
                UNZIP_TOOL := "python"; UNZIP_PATH := "7z" |} in
  let e := {| abspath := fun p => p;
              os_error := fun _ _ => None;
              lost_before_refusal := fun _ _ => false;
              proc := fun _ _ => Hangs;
              unzip := fun _ _ pwd =>
                match pwd with
                | None =>
                    (1%Z, Some (RuntimeError
                                  "File 'x.exe' is encrypted, password required for extraction"))
                | Some "infected" =>
                    (1%Z, Some (OtherError "Bad CRC-32 for file 'x.exe'"))
                | Some "malware" => (2%Z, None)
                | Some _ =>
                    (1%Z, Some (RuntimeError "Bad password for file 'x.exe'"))
                end;
              disk_after := fun _ l => l;
              txt_of := fun _ => Summary.ReadFails "No such file or directory";
              csv_of := fun _ => Timeline.OpenFails "No such file or directory" |} in
  let w := {| fs := ["/work"; "/work/a1_upload.zip"]; log := []; calls := [] |} in
  let inv := attempt_call Python cfg "/work/a1_upload.zip" "/work/a1_extracted" in
  let judge a := verdict_of e (first_call None a) (inv a) in
  let run :=
    _extract_with_python cfg e "/work/a1_upload.zip" "/work/a1_extracted" None in
  judge (Some "malware") = Accepted
  /\ stated_policy judge None = ([None; Some "infected"; Some "malware"], true)
  /\ outcome_of run w = Return false
  /\ map invoked (calls (world_after run w)) = map inv [None; Some "infected"].
Proof. vm_compute. repeat split; reflexivity. Qed.

(** C3, amended.  Each of the three backends (the archive being one the
    in-process library can open) makes exactly the attempts of the
    password policy and succeeds exactly when the policy ends in an
    accepted attempt.  Hence: a password that is given and not empty is
    the only one attempted; without one, the attempts are an initial part
    of "no password, infected, malware, virus, password" that starts with
    the attempt without password; every attempt but the last was rejected,
    and the backend succeeds exactly when the last one is accepted: the
    sequence stops at the first success and also at the first attempt that
    breaks off (a time limit, a tool that cannot be launched, output of
    the first call that cannot be decoded, an error of the library other
    than a refused password), the backend then failing.  When none of the
    five is accepted the extraction fails, and when all are rejected all
    five are made.  When no attempt breaks off, the attempts and the
    result are those of the policy as the specification words it.  The
    fallback list is the same list in the three backends. *)
Theorem C3_password_policy (b : backend) (cfg : config) (e : env)
    (zip_path extract_dir : string) (password : option string) (w : world) :
  (b = Python -> os_error e OpenZip zip_path = None) ->
  let inv := attempt_call b cfg zip_path extract_dir in
  let judge a := verdict_of e (first_call password a) (inv a) in
  let attempts := fst (password_policy judge password) in
  let ending := snd (password_policy judge password) in
  let fallback := None :: map Some ["infected"; "malware"; "virus"; "password"] in
  let unsupplied := password = None \/ password = Some "" in
  let run := extract_with b cfg e zip_path extract_dir password in
  outcome_of run w = Return (accepted ending)
  /\ calls (world_after run w)
     = calls w ++ map (fun a => went e (inv a)) attempts
  /\ (forall p, password = Some p -> p <> "" -> attempts = [Some p])
  /\ (unsupplied -> attempts `prefix_of` fallback /\ head attempts = Some None)
  /\ (forall i a, attempts !! i = Some a -> (S i < length attempts)%nat ->
        judge a = Rejected)
  /\ (accepted ending = true <->
      exists a, last attempts = Some a /\ judge a = Accepted)
  /\ (unsupplied ->
      (forall a, a ∈ fallback -> judge a <> Accepted) ->
      accepted ending = false)
  /\ (unsupplied ->
      (forall a, a ∈ fallback -> judge a = Rejected) ->
      attempts = fallback)
  /\ ((forall a, judge a <> Aborted) ->
      (attempts, accepted ending) = stated_policy judge password)
  /\ (common_passwords_7z = ["infected"; "malware"; "virus"; "password"]
      /\ common_passwords_unzip = common_passwords_7z
      /\ common_passwords_python = common_passwords_7z).
Proof.
  intros Hopen inv judge attempts ending fallback unsupplied run.
  destruct (backend_refines_policy b cfg e zip_path extract_dir password w Hopen)
    as [Hrun Hcalls].
  destruct (password_policy_spec judge password)
    as (Hrej & (al & Hlast & Hal) & Hsup & Hnone).
  fold attempts ending in Hrej, Hlast, Hal, Hsup, Hnone.
  split; [unfold outcome_of, run; by rewrite Hrun |].
  split; [exact Hcalls |].
  split; [intros p -> Hp; apply Hsup; by apply given_some |].
  split; [intros Hs%given_none; by destruct (Hnone Hs) as (? & ? & _) |].
  split; [exact Hrej |].
  assert (Hacc : accepted ending = true <->
                 exists a, last attempts = Some a /\ judge a = Accepted).
  { split.
    - intros Ha. exists al. split; [done |]. rewrite Hal.
      by destruct ending.
    - intros (a & Ha & Hj). rewrite Hlast in Ha. injection Ha as <-.
      rewrite <- Hal, Hj. done. }
  split; [exact Hacc |]. split; [| split; [| split; [| done]]].
  - intros Hs%given_none Hno. destruct (Hnone Hs) as (Hpre & _ & _).
    destruct (accepted ending) eqn:Hok; [| done].
    destruct (proj1 Hacc eq_refl) as (a & Ha & Hj).
    exfalso. apply (Hno a); [| done].
    apply last_Some_elem_of in Ha.
    destruct Hpre as [k Hk]. fold fallback_passwords in Hk.
    change fallback with (None :: map Some fallback_passwords).
    rewrite Hk. apply elem_of_app. by left.
  - intros Hs%given_none Hall. destruct (Hnone Hs) as (_ & _ & Hrejd).
    apply Hrejd. rewrite <- Hal. apply Hall.
    destruct (Hnone Hs) as ([k Hk] & _ & _).
    change fallback with (None :: map Some fallback_passwords).
    rewrite Hk. apply elem_of_app. left. by apply last_Some_elem_of.
  - intros Hno. by apply password_policy_stated.
Qed.

Lemma C3_password_policy_witness :
  let cfg := {| NORIBEN_PATH := "Noriben.py"; PYTHON_PATH := "python";
                ANALYSIS_TIMEOUT := 300; WORK_DIR := "/work";
                UNZIP_TOOL := "7z"; UNZIP_PATH := "7z" |} in
  let e := {| abspath := fun p => p;
              os_error := fun _ _ => None;
              lost_before_refusal := fun _ _ => false;
              proc := fun cmd _ =>
                if bool_decide (last cmd = Some "-pmalware")
                then Garbled 2 0 "Everything is Ok" "" "invalid start byte"
                else Exits 1 2 "" "Wrong password";
              unzip := fun _ _ _ => (0%Z, None);
              disk_after := fun _ l => l;
              txt_of := fun _ => Summary.ReadFails "No such file or directory";
              csv_of := fun _ => Timeline.OpenFails "No such file or directory" |} in
  let w := {| fs := ["/work"; "/work/a1_upload.zip"]; log := []; calls := [] |} in
  let run := _extract_with_7z cfg e "/work/a1_upload.zip" "/work/a1_extracted" None in
  let supplied_run :=
    _extract_with_7z cfg e "/work/a1_upload.zip" "/work/a1_extracted"
      (Some "malware") in
  outcome_of run w = Return true
  /\ map invoked (calls (world_after run w))
     = map (attempt_call SevenZip cfg "/work/a1_upload.zip" "/work/a1_extracted")
           [None; Some "infected"; Some "malware"]
  /\ outcome_of supplied_run w = Return false
  /\ map invoked (calls (world_after supplied_run w))
     = map (attempt_call SevenZip cfg "/work/a1_upload.zip" "/work/a1_extracted")
           [Some "malware"].
Proof.
  intros cfg e w run supplied_run.
  destruct (C3_password_policy SevenZip cfg e
              "/work/a1_upload.zip" "/work/a1_extracted" None w)
    as (Hres & Hcalls & _); [discriminate |].
  destruct (C3_password_policy SevenZip cfg e
              "/work/a1_upload.zip" "/work/a1_extracted" (Some "malware") w)
    as (Hres' & Hcalls' & _); [discriminate |].
  unfold run, supplied_run. simpl extract_with in Hcalls, Hcalls'.
  split; [exact Hres |]. split; [rewrite Hcalls; reflexivity |].
  split; [exact Hres' |]. rewrite Hcalls'. reflexivity.
Defined.

(** C8, as the specification states it, fails for the in-process backend:
    [extractall] is given no time limit.  Here it takes 1000 time units,
    is not cut off, and the backend reports success. *)
Lemma C8_counterexample :
  let cfg := {| NORIBEN_PATH := "Noriben.py"; PYTHON_PATH := "python";
                ANALYSIS_TIMEOUT := 300; WORK_DIR := "/work";
                UNZIP_TOOL := "python"; UNZIP_PATH := "7z" |} in
  let e := {| abspath := fun p => p;
              os_error := fun _ _ => None;
              lost_before_refusal := fun _ _ => false;
              proc := fun _ _ => Hangs;
              unzip := fun _ _ _ => (1000%Z, None);
              disk_after := fun _ l => l;
              txt_of := fun _ => Summary.ReadFails "No such file or directory";
              csv_of := fun _ => Timeline.OpenFails "No such file or directory" |} in
  let w := {| fs := ["/work"; "/work/a1_upload.zip"]; log := []; calls := [] |} in
  let run :=
    _extract_with_python cfg e "/work/a1_upload.zip" "/work/a1_extracted" None in
  outcome_of run w = Return true
  /\ calls (world_after run w)
     = [{| invoked := ExtractAll "/work/a1_upload.zip" "/work/a1_extracted" None;
           time_limit := None;
           elapsed := 1000;
           was_killed := false |}]
  /\ ~ Forall (fun c => time_limit c = Some 30%Z /\ (elapsed c <= 30)%Z)
              (calls (world_after run w)).
Proof.
  vm_compute. split; [reflexivity |]. split; [reflexivity |].
  intros H. apply Forall_cons in H as [[H _] _]. discriminate H.
Qed.

(** C8, amended.  Every invocation of the external tool made by the 7z and
    the unzip backend is given the time limit 30, whatever the analysis
    timeout, and runs no longer; an invocation killed at the limit is the
    last one the backend makes, and the backend then reports failure.  The
    in-process backend gives its invocations no time limit. *)
Theorem C8_external_tools_time_limit (b : backend) (cfg : config) (e : env)
    (zip_path extract_dir : string) (password : option string) (w : world) :
  let run := extract_with b cfg e zip_path extract_dir password in
  let made := drop (length (calls w)) (calls (world_after run w)) in
  (b <> Python ->
     Forall (fun c => time_limit c = Some 30%Z /\ (elapsed c <= 30)%Z) made
     /\ (forall i c, made !! i = Some c -> was_killed c = true ->
           S i = length made /\ outcome_of run w = Return false))
  /\ (b = Python -> Forall (fun c => time_limit c = None) made)
  /\ (forall t,
        extract_with b (with_timeout cfg t) e zip_path extract_dir password w
        = run w).
Proof.
  intros run made. split; [| split].
  - intros Hb.
    destruct (backend_refines_policy b cfg e zip_path extract_dir password w)
      as [Hrun Hcalls]; [done |].
    set (inv := attempt_call b cfg zip_path extract_dir) in *.
    set (judge := fun a => verdict_of e (first_call password a) (inv a)) in *.
    destruct (password_policy_spec judge password)
      as (Hrej & (al & Hlast & Hal) & _ & _).
    assert (Hmade : made = map (fun a => went e (inv a))
                               (fst (password_policy judge password))).
    { unfold made, run. rewrite Hcalls. apply drop_app_length. }
    assert (Hext : forall a, exists cmd, inv a = Subprocess cmd None).
    { intros a. unfold inv. destruct b; [by eexists | by eexists | done]. }
    split.
    + rewrite Hmade. apply Forall_map, Forall_forall. intros a _. simpl.
      destruct (Hext a) as [cmd ->].
      by destruct (went_external e cmd None) as (-> & ? & _).
    + intros i c Hi Hk. rewrite Hmade in Hi |- *.
      rewrite list_lookup_fmap in Hi.
      destruct (fst (password_policy judge password) !! i) as [a |] eqn:Ha;
        [| done].
      injection Hi as <-.
      assert (Hab : judge a = Aborted).
      { unfold judge. destruct (Hext a) as [cmd Hcmd]. rewrite Hcmd in Hk |- *.
        by apply went_external. }
      rewrite length_map.
      assert (Hlt : (i < length (fst (password_policy judge password)))%nat)
        by (by eapply lookup_lt_Some).
      assert (Hend : S i = length (fst (password_policy judge password))).
      { destruct (decide (S i < length (fst (password_policy judge password)))%nat)
          as [Hin |]; [| lia].
        rewrite (Hrej i a Ha Hin) in Hab. done. }
      split; [done |].
      unfold outcome_of, run. rewrite Hrun. simpl. f_equal.
      rewrite last_lookup, <- Hend in Hlast. simpl in Hlast.
      rewrite Ha in Hlast. injection Hlast as <-. by rewrite <- Hal, Hab.
  - intros ->. unfold made, run. simpl extract_with.
    destruct (os_error e OpenZip zip_path) as [x |] eqn:Hopen.
    + rewrite (python_cannot_open _ _ _ _ _ _ x Hopen).
      rewrite drop_all. constructor.
    + destruct (backend_refines_policy Python cfg e zip_path extract_dir
                  password w) as [_ Hcalls]; [done |].
      simpl extract_with in Hcalls. rewrite Hcalls, drop_app_length.
      apply Forall_map, Forall_forall. by intros a _.
  - intros t. unfold run. by destruct b.
Qed.

Lemma C8_external_tools_time_limit_witness :
  let cfg := {| NORIBEN_PATH := "Noriben.py"; PYTHON_PATH := "python";
                ANALYSIS_TIMEOUT := 300; WORK_DIR := "/work";
                UNZIP_TOOL := "unzip"; UNZIP_PATH := "unzip" |} in
  let e := {| abspath := fun p => p;
              os_error := fun _ _ => None;
              lost_before_refusal := fun _ _ => false;
              proc := fun cmd _ =>
                if bool_decide (last cmd = Some "infected")
                then Hangs else Exits 1 82 "" "incorrect password";
              unzip := fun _ _ _ => (0%Z, None);
              disk_after := fun _ l => l;
              txt_of := fun _ => Summary.ReadFails "No such file or directory";
              csv_of := fun _ => Timeline.OpenFails "No such file or directory" |} in
  let w := {| fs := ["/work"; "/work/a1_upload.zip"]; log := []; calls := [] |} in
  let run :=
    extract_with Unzip cfg e "/work/a1_upload.zip" "/work/a1_extracted" None in
  length (calls (world_after run w)) = 2%nat
  /\ outcome_of run w = Return false.
Proof.
  intros cfg e w run.
  destruct (C8_external_tools_time_limit Unzip cfg e
              "/work/a1_upload.zip" "/work/a1_extracted" None w)
    as (Hext & _ & _).
  destruct Hext as [_ Hkilled]; [discriminate |].
  destruct (Hkilled 1%nat
              {| invoked := attempt_call Unzip cfg "/work/a1_upload.zip"
                              "/work/a1_extracted" (Some "infected");
                 time_limit := Some 30%Z; elapsed := 30; was_killed := true |})
    as [Hlen Hres]; [reflexivity | reflexivity |].
  split; [symmetry; exact Hlen | exact Hres].
Defined.

End ExtractionClaims.

(** ** The choice of the sample *)

Section SelectionFacts.
Import Py Agent Policy Invariants.

Lemma find_executables_found (e : env) (dir : string) (exts : list string)
    (w : world) :
  find_executables e dir exts w = (Return (found e dir exts (fs w)), w).
Proof.
  induction exts as [| ext exts IH]; simpl; [done |].
  unfold mbind, py_bind, glob. fold (here_pattern ext) (deep_pattern ext).
  rewrite IH. unfold mret, py_ret. by rewrite <- app_assoc.
Qed.





Lemma select_executable_found (e : env) (dir : string) (w : world) :
  select_executable e dir w
  = match found e dir executable_extensions (fs w) with
    | [] => (Return None,
             {| fs := fs w;
                log := log w ++ [(ERROR, "No executable found in zip")];
                calls := calls w |})
    | p :: _ => (Return (Some p),
                 {| fs := fs w;
                    log := log w ++ [(INFO, "Extracted executable: " +:+ p)];
                    calls := calls w |})
    end.
Proof.
  unfold select_executable, mbind, py_bind.
  rewrite find_executables_found.
  by destruct (found e dir executable_extensions (fs w)).
Qed.




(** A backend answers [True] or [False]; no exception leaves it. *)
Lemma configured_backend_returns (cfg : config) (e : env)
    (zip_path extract_dir : string) (password : option string) (w : world) :
  exists r w',
    configured_backend cfg e zip_path extract_dir password w = (Return r, w').
Proof.
  unfold configured_backend.
  destruct (String.eqb (UNZIP_TOOL cfg) "7z");
    [| destruct (String.eqb (UNZIP_TOOL cfg) "unzip")];
    unfold _extract_with_7z, _extract_with_unzip, _extract_with_python,
      try_except;
    match goal with
    | |- context [match ?m w with _ => _ end] => destruct (m w) as [[r | x] w1]
    end; unfold Exception, mbind, py_bind, mret, py_ret, logger; simpl; eauto.
Qed.

(** No exception leaves [extract_zip]. *)
Lemma extract_zip_returns (cfg : config) (e : env)
    (zip_path analysis_id : string) (password : option string) (w : world) :
  exists r w',
    extract_zip cfg e zip_path analysis_id password w = (Return r, w').
Proof.
  unfold extract_zip, try_except.
  match goal with
  | |- context [match ?m w with _ => _ end] => destruct (m w) as [[r | x] w1]
  end; unfold Exception, mbind, py_bind, mret, py_ret, logger; simpl; eauto.
Qed.

Lemma configured_backend_of (cfg : config) (e : env)
    (zip_path extract_dir : string) (password : option string) :
  configured_backend cfg e zip_path extract_dir password
  = extract_with (backend_of cfg) cfg e zip_path extract_dir password.
Proof.
  unfold configured_backend, backend_of.
  destruct (String.eqb (UNZIP_TOOL cfg) "7z"); [done |].
  by destruct (String.eqb (UNZIP_TOOL cfg) "unzip").
Qed.

(** [extract_zip] behind the making of its directory: the backend runs, and
    the sample is chosen from the disk the backend leaves; the last line
    of the log tells the three ends apart. *)
Lemma extract_zip_cases (cfg : config) (e : env)
    (zip_path analysis_id : string) (password : option string) (w : world) :
  let dir := joinpath (WORK_DIR cfg) (analysis_id +:+ "_extracted") in
  let w0 := logged INFO ("Extracting to: " +:+ dir)
              (set_fs (with_dir (abspath e dir) (fs w)) w) in
  let w' := world_after (extract_zip cfg e zip_path analysis_id password) w in
  os_error e Mkdir dir = None ->
  exists r w1,
    configured_backend cfg e zip_path dir password w0 = (Return r, w1)
    /\ calls w' = calls w1
    /\ fs w' = fs w1
    /\ outcome_of (extract_zip cfg e zip_path analysis_id password) w
       = Return (if r : bool
                 then head (found e dir executable_extensions (fs w1))
                 else None)
    /\ last (log w')
       = Some (if r then
                 match found e dir executable_extensions (fs w1) with
                 | [] => (ERROR, "No executable found in zip")
                 | p :: _ => (INFO, "Extracted executable: " +:+ p)
                 end
               else (ERROR, "Failed to extract zip file")).
Proof.
  intros dir w0 w' Hmk. subst w'.
  destruct (configured_backend_returns cfg e zip_path dir password w0)
    as (r & w1 & Hb).
  exists r, w1. split; [done |].
  unfold outcome_of, world_after, extract_zip, try_except. fold dir.
  unfold mbind, py_bind, mkdir, logger. rewrite Hmk.
  assert (Hw0 : (let (_, w2) :=
                   if on_disk (abspath e dir) (fs w) then (Return (), w)
                   else (Return (), set_fs (fs w ++ [abspath e dir]) w) in
                 {| fs := fs w2;
                    log := log w2 ++ [(INFO, "Extracting to: " +:+ dir)];
                    calls := calls w2 |}) = w0).
  { subst w0. unfold logged, with_dir, set_fs.
    by destruct (on_disk (abspath e dir) (fs w)). }
  destruct (on_disk (abspath e dir) (fs w)); cbv beta iota in Hw0 |- *;
    rewrite Hw0, Hb; cbv beta iota;
    (destruct r; cbn [negb]; cbv beta iota;
       [rewrite select_executable_found;
        destruct (found e dir executable_extensions (fs w1)); simpl;
        by rewrite last_snoc
       | simpl; by rewrite last_snoc]).
Qed.


End SelectionFacts.

Section SelectionClaims.
Import Py Agent Policy Invariants.




End SelectionClaims.

(** * Further properties of the code *)

(** ** The timeline parser *)

Section TimelineMore.
Import Timeline DataModel.

Lemma split_once_join (sep : ascii) (s a b : string) :
  split_once sep s = Some (a, b) ->
  a +:+ String sep b = s /\ split_once sep a = None.
Proof.
  revert a. induction s as [| c s IH]; intros a; simpl; [done |].
  destruct (Ascii.eqb_spec c sep) as [-> | Hne].
  - by intros [= <- <-].
  - destruct (split_once sep s) as [[a' b'] |]; [| done].
    intros [= <- ->]. destruct (IH a' eq_refl) as [Hjoin Hnone].
    split.
    + change (String c a' +:+ String sep b) with (String c (a' +:+ String sep b)).
      by rewrite Hjoin.
    + simpl. destruct (Ascii.eqb_spec c sep); [done |]. by rewrite Hnone.
Qed.

Lemma split_once_contains (sep : ascii) (s : string) :
  contains (String sep "") s = bool_decide (is_Some (split_once sep s)).
Proof.
  induction s as [| c s IH]; simpl; [done |].
  rewrite (Ascii.eqb_sym sep c).
  destruct (Ascii.eqb c sep); [done |]. rewrite IH.
  destruct (split_once sep s) as [[a b] |]; done.
Qed.

(** X1.  The operation column of a Network row is split at its first
    space: when it holds a space, protocol, a space and direction give the
    column back and the protocol holds no space; when it holds none, the
    protocol is the whole column and the direction is "Unknown". *)
Theorem X1_network_operation_split (row : list string) :
  let ev := network_event row in
  let operation := cell row 2 in
  (contains " " operation = true ->
     ne_protocol ev +:+ " " +:+ ne_direction ev = operation
     /\ contains " " (ne_protocol ev) = false)
  /\ (contains " " operation = false ->
      ne_protocol ev = operation /\ ne_direction ev = "Unknown").
Proof.
  intros ev operation. subst ev. unfold network_event. cbv zeta.
  fold operation. rewrite (split_once_contains " " operation).
  destruct (split_once " " operation) as [[a b] |] eqn:Hs;
    cbn [ne_protocol ne_direction].
  - split; [| done]. intros _.
    destruct (split_once_join _ _ _ _ Hs) as [Hjoin Hnone].
    split; [exact Hjoin |]. by rewrite split_once_contains, Hnone.
  - split; [| done]. intros H. by apply bool_decide_eq_true in H as [? ?].
Qed.

Lemma X1_network_operation_split_witness :
  let row := ["12:00:02"; "Network"; "TCP Send"; "sample.exe"; "1204";
              "10.0.0.7:443"] in
  ne_protocol (network_event row) +:+ " " +:+ ne_direction (network_event row)
  = "TCP Send"
  /\ contains " " (ne_protocol (network_event row)) = false.
Proof.
  intros row.
  apply (proj1 (X1_network_operation_split row)). reflexivity.
Defined.

Lemma fold_skip (pre post : list record) (row : list string) (events : Events) :
  (forall ev, step ev row = ev) ->
  fold_left step (rows_read (pre ++ Row row :: post)) events
  = fold_left step (rows_read (pre ++ post)) events.
Proof.
  intros Hskip. revert events.
  induction pre as [| [r |] pre IH]; intros events; simpl; auto.
  by rewrite Hskip.
Qed.

(** X2.  A row whose category is none of Process, File, Registry and
    Network is ignored: the parse gives what it gives without that row. *)
Theorem X2_unknown_category_ignored
    (pre post : list record) (row : list string) :
  cell row 1 <> "Process" -> cell row 1 <> "File" ->
  cell row 1 <> "Registry" -> cell row 1 <> "Network" ->
  fst (parse_csv_timeline (Opened (pre ++ Row row :: post)))
  = fst (parse_csv_timeline (Opened (pre ++ post))).
Proof.
  intros Hp Hf Hr Hn. rewrite !parse_events. apply fold_skip.
  intros ev. unfold step. cbv zeta.
  destruct (length row <? 3)%nat; [done |].
  destruct (String.eqb_spec (cell row 1) "Process"); [done |].
  destruct (String.eqb_spec (cell row 1) "File"); [done |].
  destruct (String.eqb_spec (cell row 1) "Registry"); [done |].
  by destruct (String.eqb_spec (cell row 1) "Network").
Qed.

Lemma X2_unknown_category_ignored_witness :
  fst (parse_csv_timeline
         (Opened [Row ["t1"; "Process"; "CreateProcess"; "a.exe"; "10"];
                  Row ["t2"; "process"; "CreateProcess"; "b.exe"; "11"];
                  Row ["t3"; "File"; "CreateFile"; "a.exe"; "10"; "C:\\x"]]))
  = fst (parse_csv_timeline
         (Opened [Row ["t1"; "Process"; "CreateProcess"; "a.exe"; "10"];
                  Row ["t3"; "File"; "CreateFile"; "a.exe"; "10"; "C:\\x"]])).
Proof.
  apply (X2_unknown_category_ignored
           [Row ["t1"; "Process"; "CreateProcess"; "a.exe"; "10"]]
           [Row ["t3"; "File"; "CreateFile"; "a.exe"; "10"; "C:\\x"]]
           ["t2"; "process"; "CreateProcess"; "b.exe"; "11"]);
    discriminate.
Defined.

Lemma rows_read_app (rows : list (list string)) (rs : list record) :
  rows_read (map Row rows ++ rs) = rows ++ rows_read rs.
Proof. induction rows as [| row rows IH]; simpl; [done |]. by rewrite IH. Qed.

Lemma filter_app_list {A} (f : A -> bool) (l1 l2 : list A) :
  List.filter f (l1 ++ l2) = List.filter f l1 ++ List.filter f l2.
Proof.
  induction l1 as [| x l1 IH]; simpl; [done |].
  destruct (f x); simpl; by rewrite IH.
Qed.

(** X3.  Parsing is additive over the file: behind rows that the reader
    can parse, the events of the rest of the file are appended, list by
    list, to the events of those rows. *)
Theorem X3_timeline_concatenation
    (rows : list (list string)) (rs : list record) :
  let whole := fst (parse_csv_timeline (Opened (map Row rows ++ rs))) in
  let first := fst (parse_csv_timeline (Opened (map Row rows))) in
  let rest := fst (parse_csv_timeline (Opened rs)) in
  process_activity whole = process_activity first ++ process_activity rest
  /\ file_system whole = file_system first ++ file_system rest
  /\ registry whole = registry first ++ registry rest
  /\ network whole = network first ++ network rest.
Proof.
  intros whole first rest. subst whole first rest.
  destruct (parse_lists (map Row rows ++ rs)) as (-> & -> & -> & ->).
  destruct (parse_lists (map Row rows)) as (-> & -> & -> & ->).
  destruct (parse_lists rs) as (-> & -> & -> & ->).
  rewrite rows_read_app.
  destruct (rows_read_stop rows "" []) as [_ ->].
  by rewrite !filter_app_list, !fmap_app.
Qed.

Lemma first_unreadable_none (rs : list record) :
  first_unreadable rs = None <-> exists rows, rs = map Row rows.
Proof.
  induction rs as [| [row | msg] rs IH]; simpl.
  - split; [by exists [] | done].
  - rewrite IH. split.
    + intros [rows ->]. by exists (row :: rows).
    + intros [[| row' rows] Hrs]; [done |]. injection Hrs as _ ->. eauto.
  - split; [done |]. by intros [[| ? ?] ?].
Qed.

(** X4.  The parser logs one error, with the text of the exception, when
    the file cannot be opened or a record cannot be read: the error of
    [open], or that of the first record the reader fails on.  It logs
    nothing exactly when the file opens and the reader reads every
    record. *)
Theorem X4_timeline_error_logged (f : timeline) :
  snd (parse_csv_timeline f)
  = match first_error f with
    | None => []
    | Some msg => [(ERROR, "Failed to parse CSV timeline: " +:+ msg)]
    end
  /\ (snd (parse_csv_timeline f) = []
      <-> exists rows, f = Opened (map Row rows)).
Proof.
  destruct f as [msg | rs].
  - split; [done |]. split; [done | by intros [? ?]].
  - rewrite parse_log. cbn [first_error]. split; [done |].
    destruct (first_unreadable rs) as [msg |] eqn:E.
    + split; [done |]. intros [rows [= ->]].
      by rewrite first_unreadable_rows in E.
    + split; [| done]. intros _.
      apply first_unreadable_none in E as [rows ->]. by exists rows.
Qed.

End TimelineMore.

(** ** The summary parser *)

Section SummaryMore.
Import Regex Summary.

Lemma lstrip_head (s : string) :
  match lstrip s with
  | "" => True
  | String c _ => isspace c = false
  end.
Proof.
  induction s as [| c s IH]; simpl; [done |].
  destruct (isspace c) eqn:Hc; [exact IH | exact Hc].
Qed.

Lemma rstrip_rstrip (s : string) : rstrip (rstrip s) = rstrip s.
Proof.
  induction s as [| c s IH]; simpl; [done |].
  destruct (rstrip s) as [| d t] eqn:Hr.
  - destruct (isspace c) eqn:Hc; simpl; [done |]. by rewrite Hc.
  - simpl. simpl in IH. by rewrite IH.
Qed.

Lemma rstrip_keeps_head (c : ascii) (s : string) :
  isspace c = false -> exists t, rstrip (String c s) = String c t.
Proof.
  intros Hc. simpl. destruct (rstrip s); [rewrite Hc |]; eauto.
Qed.

Lemma strip_strip (s : string) : strip (strip s) = strip s.
Proof.
  unfold strip. pose proof (lstrip_head s) as Hhead.
  destruct (lstrip s) as [| c t]; [done |].
  destruct (rstrip_keeps_head c t Hhead) as [u Hu].
  rewrite Hu. simpl lstrip. rewrite Hhead, <- Hu. apply rstrip_rstrip.
Qed.

(** X6.  Every entry of the Unique Hosts list is a non-empty text without
    white space at either end. *)
Theorem X6_unique_hosts_trimmed (f : txt_file) (h : string) :
  h ∈ unique_hosts (fst (parse_txt_report f)) ->
  h <> "" /\ strip h = h.
Proof.
  assert (Hhosts : forall content, h ∈ hosts_of content ->
                     h <> "" /\ strip h = h).
  { intros content. unfold hosts_of, nonblank_lines.
    destruct (search _ content) as [m |]; [| by intros ?%elem_of_nil].
    intros (l & -> & Hl)%list_elem_of_fmap.
    apply list_elem_of_In, filter_In in Hl as [_ Hl].
    split; [by destruct (strip l) | apply strip_strip]. }
  destruct f as [msg | content]; simpl; [by intros ?%elem_of_nil |].
  destruct (parse_body content) as [err | r] eqn:Hbody; simpl;
    [by intros ?%elem_of_nil |].
  destruct (parse_body_steps content r Hbody)
    as (_ & _ & _ & _ & _ & _ & _ & ->).
  apply Hhosts.
Qed.

Lemma X6_unique_hosts_trimmed_witness :
  strip "10.0.0.7" = "10.0.0.7".
Proof.
  apply (X6_unique_hosts_trimmed (Text (report_text 16)) "10.0.0.7").
  vm_compute. apply list_elem_of_In. simpl. auto.
Defined.

Lemma initial_summary_dom :
  dom initial_summary
  = {[ "execution_time"; "processing_time"; "analysis_time";
       "processes_created"; "files_created"; "registry_modified";
       "network_connections" ]}.
Proof.
  unfold initial_summary. rewrite !dom_insert_L, dom_empty_L.
  apply set_eq. intros x.
  rewrite !elem_of_union, !elem_of_singleton, elem_of_empty. tauto.
Qed.

Lemma insert_known_dom (key : string) (v : value) (s : gmap string value) :
  is_Some (s !! key) -> dom (<[key := v]> s) = dom s.
Proof.
  intros Hkey. rewrite dom_insert_L. apply subseteq_union_1_L.
  by apply singleton_subseteq_l, elem_of_dom.
Qed.

Lemma set_time_dom (key label content : string) (s s' : gmap string value) :
  is_Some (s !! key) -> set_time key label content s = inr s' ->
  dom s' = dom s.
Proof.
  intros Hkey. unfold set_time.
  destruct (search _ content) as [m |]; [| by intros [= <-]].
  destruct (float (group1 m)) as [err | q]; [done |].
  intros [= <-]. by apply insert_known_dom.
Qed.

(** The only exception that leaves the body of the [try] is the
    [ValueError] of [float]. *)
Lemma set_time_error (key label content err : string)
    (s : gmap string value) :
  set_time key label content s = inl err ->
  exists text, err = "could not convert string to float: '" +:+ text +:+ "'".
Proof.
  unfold set_time.
  destruct (search _ content) as [m |]; [| done].
  unfold float. destruct (float_of (group1 m)); [done |].
  intros [= <-]. by exists (group1 m).
Qed.

Lemma parse_body_error (content err : string) :
  parse_body content = inl err ->
  exists text, err = "could not convert string to float: '" +:+ text +:+ "'".
Proof.
  unfold parse_body.
  destruct (set_time "execution_time" _ content initial_summary)
    as [e1 | s1] eqn:E1.
  { intros [= <-]. by eapply set_time_error. }
  destruct (set_time "processing_time" _ content s1) as [e2 | s2] eqn:E2.
  { intros [= <-]. by eapply set_time_error. }
  destruct (set_time "analysis_time" _ content s2) as [e3 | s3] eqn:E3.
  { intros [= <-]. by eapply set_time_error. }
  done.
Qed.

Lemma set_count_dom (key heading content : string) (s : gmap string value) :
  is_Some (s !! key) -> dom (set_count key heading content s) = dom s.
Proof.
  intros Hkey. unfold set_count.
  destruct (search _ content); [| done]. by apply insert_known_dom.
Qed.

Lemma known_key (key : string) (s : gmap string value) :
  dom s = dom initial_summary -> is_Some (initial_summary !! key) ->
  is_Some (s !! key).
Proof. intros Hdom Hkey. apply elem_of_dom. rewrite Hdom. by apply elem_of_dom. Qed.

Lemma parse_body_dom (content : string) (r : txt_report) :
  parse_body content = inr r -> dom (summary r) = dom initial_summary.
Proof.
  intros H.
  destruct (parse_body_steps content r H)
    as (s1 & s2 & s3 & E1 & E2 & E3 & -> & _).
  assert (D1 : dom s1 = dom initial_summary)
    by (eapply set_time_dom; [| exact E1]; by eexists).
  assert (D2 : dom s2 = dom initial_summary).
  { rewrite <- D1. eapply set_time_dom; [| exact E2].
    by apply known_key; [| eexists]. }
  assert (E3' : dom s3 = dom initial_summary).
  { rewrite <- D2. eapply set_time_dom; [| exact E3].
    by apply known_key; [| eexists]. }
  clear E3. rename E3' into E3.
  set (s4 := set_count "processes_created" _ content s3).
  assert (E4 : dom s4 = dom initial_summary).
  { unfold s4. rewrite set_count_dom; [done |].
    by apply known_key; [| eexists]. }
  set (s5 := set_count "files_created" _ content s4).
  assert (E5 : dom s5 = dom initial_summary).
  { unfold s5. rewrite set_count_dom; [done |].
    by apply known_key; [| eexists]. }
  set (s6 := set_count "registry_modified" _ content s5).
  assert (E6 : dom s6 = dom initial_summary).
  { unfold s6. rewrite set_count_dom; [done |].
    by apply known_key; [| eexists]. }
  rewrite set_count_dom; [done |]. by apply known_key; [| eexists].
Qed.

(** X5.  The summary is all or nothing: either the parse logs nothing and
    the summary holds exactly its seven keys, or the parse logs one error
    and both the summary and the list of hosts are empty.  The error
    logged carries the text of the exception: that of the failed read, or
    the [ValueError] of [float] on a timing value that is no number. *)
Theorem X5_summary_all_or_nothing (f : txt_file) :
  let r := fst (parse_txt_report f) in
  (snd (parse_txt_report f) = []
   /\ dom (summary r)
      = {[ "execution_time"; "processing_time"; "analysis_time";
           "processes_created"; "files_created"; "registry_modified";
           "network_connections" ]})
  \/ (exists msg,
        snd (parse_txt_report f)
        = [(ERROR, "Failed to parse TXT report: " +:+ msg)]
        /\ (f = ReadFails msg
            \/ exists content text,
                 f = Text content
                 /\ msg = "could not convert string to float: '"
                          +:+ text +:+ "'")
        /\ summary r = ∅ /\ unique_hosts r = []).
Proof.
  destruct f as [msg | content]; simpl.
  { right. exists msg. repeat split; auto. }
  destruct (parse_body content) as [err | r] eqn:Hbody; simpl.
  - right. exists err. split; [done |]. split; [| done].
    right. destruct (parse_body_error content err Hbody) as [text ->].
    by exists content, text.
  - left. split; [done |]. rewrite <- initial_summary_dom.
    by apply (parse_body_dom content).
Qed.

Lemma digits_value_nonneg (s : string) (acc : Z) :
  (0 <= acc)%Z -> (0 <= digits_value acc s)%Z.
Proof.
  revert acc. induction s as [| c s IH]; intros acc Hacc; simpl; [done |].
  destruct (digit c); apply IH; lia.
Qed.

Lemma float_of_nonneg (s : string) (q : Q) :
  float_of s = Some q -> (0 <= q)%Q.
Proof.
  unfold float_of. destruct (_ && _); [| done]. intros [= <-].
  rewrite Qred_correct. unfold Qle. simpl.
  pose proof (digits_value_nonneg s 0). lia.
Qed.

Ltac in_list H :=
  first [ by apply elem_of_nil in H
        | apply elem_of_cons in H as [H | H]; [subst | in_list H] ].

Lemma set_time_well_typed (key label content : string)
    (s s' : gmap string value) :
  key ∈ ["execution_time"; "processing_time"; "analysis_time"] ->
  Invariants.well_typed s -> set_time key label content s = inr s' ->
  Invariants.well_typed s'.
Proof.
  intros Hkey [Ht Hc]. unfold set_time, float.
  destruct (search _ content) as [m |]; [| by intros [= <-]].
  destruct (float_of (group1 m)) as [q |] eqn:Hq; [| done].
  intros [= <-]. split.
  - intros k Hk. destruct (decide (key = k)) as [<- | Hne].
    + exists q. rewrite lookup_insert_eq. split; [done |].
      by eapply float_of_nonneg.
    + rewrite lookup_insert_ne by done. by apply Ht.
  - intros k Hk. rewrite lookup_insert_ne; [by apply Hc |].
    intros <-. in_list Hkey; in_list Hk; discriminate.
Qed.

Lemma set_count_well_typed (key heading content : string)
    (s : gmap string value) :
  key ∈ ["processes_created"; "files_created"; "registry_modified";
         "network_connections"] ->
  Invariants.well_typed s ->
  Invariants.well_typed (set_count key heading content s).
Proof.
  intros Hkey [Ht Hc]. unfold set_count.
  destruct (search _ content) as [m |]; [| done]. split.
  - intros k Hk. rewrite lookup_insert_ne; [by apply Ht |].
    intros <-. in_list Hkey; in_list Hk; discriminate.
  - intros k Hk. destruct (decide (key = k)) as [<- | Hne].
    + rewrite lookup_insert_eq. eauto.
    + rewrite lookup_insert_ne by done. by apply Hc.
Qed.

Lemma initial_summary_well_typed : Invariants.well_typed initial_summary.
Proof.
  split; intros key Hkey.
  - in_list Hkey; exists 0%Q; by split.
  - in_list Hkey; by exists O.
Qed.

(** X7.  In a summary parsed without error, each of the three timing
    fields is a float that is not negative, and each of the four counts is
    an integer. *)
Theorem X7_summary_well_typed (f : txt_file) :
  snd (parse_txt_report f) = [] ->
  Invariants.well_typed (summary (fst (parse_txt_report f))).
Proof.
  destruct f as [msg | content]; simpl; [done |].
  destruct (parse_body content) as [err | r] eqn:Hbody; simpl; [done |].
  intros _.
  destruct (parse_body_steps content r Hbody)
    as (s1 & s2 & s3 & E1 & E2 & E3 & -> & _).
  assert (Hin : forall (k : string) l, k ∈ k :: l) by (intros; by left).
  assert (Hnext : forall (k k' : string) l, k ∈ l -> k ∈ k' :: l)
    by (intros; by right).
  repeat apply set_count_well_typed; auto 6.
  eapply set_time_well_typed; [| | exact E3]; [auto 6 |].
  eapply set_time_well_typed; [| | exact E2]; [auto 6 |].
  eapply set_time_well_typed; [| | exact E1]; [auto 6 |].
  apply initial_summary_well_typed.
Qed.

Lemma X7_summary_well_typed_witness :
  Invariants.well_typed
    (summary (fst (parse_txt_report (Text (report_text 16))))).
Proof.
  apply (X7_summary_well_typed (Text (report_text 16))).
  vm_compute. reflexivity.
Defined.

End SummaryMore.

(** ** Reading the output directory: parse_results *)

Section ParseResultsMore.
Import Py Agent.

Ltac py_steps :=
  unfold mbind, mret, py_bind, py_ret, try_except, glob, logger, log_all,
    Exception.

Lemma parse_results_cases (e : env) (output_dir : string) (w : world) :
  let txt := glob_in e output_dir
               {| deep := false; name_prefix := "Noriben_";
                  name_suffix := ".txt" |} (fs w) in
  let csv := glob_in e output_dir
               {| deep := false; name_prefix := "Noriben_";
                  name_suffix := "_timeline.csv" |} (fs w) in
  exists w',
    fs w' = fs w /\ calls w' = calls w
    /\ parse_results e output_dir w
       = (Return
            match txt, csv with
            | t :: _, c :: _ =>
                let txt_data := fst (Summary.parse_txt_report (txt_of e t)) in
                let csv_data := fst (Timeline.parse_csv_timeline (csv_of e c)) in
                Some {| r_summary := Summary.summary txt_data;
                        r_process_activity := Timeline.process_activity csv_data;
                        r_file_system := Timeline.file_system csv_data;
                        r_registry := Timeline.registry csv_data;
                        r_network := Timeline.network csv_data;
                        r_unique_hosts := Summary.unique_hosts txt_data |}
            | _, _ => None
            end, w').
Proof.
  intros txt csv. subst txt csv. unfold parse_results. py_steps.
  destruct (glob_in e output_dir _ (fs w)) as [| t txt];
    [eexists; split; [| split; [| reflexivity]]; reflexivity |].
  destruct (glob_in e output_dir _ (fs w)) as [| c csv];
    [eexists; split; [| split; [| reflexivity]]; reflexivity |].
  destruct (Summary.parse_txt_report (txt_of e t)) as [txt_data txt_log].
  destruct (Timeline.parse_csv_timeline (csv_of e c)) as [csv_data csv_log].
  eexists; split; [| split; [| reflexivity]]; reflexivity.
Qed.

(** X8.  [parse_results] raises nothing, writes nothing to the disk and
    launches nothing; it returns no report exactly when the output
    directory holds no [Noriben_*.txt] or no [Noriben_*_timeline.csv]. *)
Theorem X8_parse_results_needs_both_files
    (e : env) (output_dir : string) (w : world) :
  let txt := glob_in e output_dir
               {| deep := false; name_prefix := "Noriben_";
                  name_suffix := ".txt" |} (fs w) in
  let csv := glob_in e output_dir
               {| deep := false; name_prefix := "Noriben_";
                  name_suffix := "_timeline.csv" |} (fs w) in
  let w' := world_after (parse_results e output_dir) w in
  fs w' = fs w /\ calls w' = calls w
  /\ exists r, outcome_of (parse_results e output_dir) w = Return r
               /\ (r = None <-> txt = [] \/ csv = []).
Proof.
  intros txt csv w'. subst w'. unfold outcome_of, world_after.
  destruct (parse_results_cases e output_dir w) as (w1 & Hfs & Hcalls & ->).
  fold txt csv. simpl. split; [done |]. split; [done |].
  eexists. split; [reflexivity |].
  destruct txt as [| t txt], csv as [| c csv]; simpl; split; auto; try done.
  intros [H | H]; discriminate H.
Qed.

(** X9.  When both files are there, the report joins what the two parsers
    give for the first file of each kind: summary and hosts from the text
    file, the four event lists from the timeline.  A failure of one parser
    leaves the part of the other in the report. *)
Theorem X9_parse_results_joins_the_parsers
    (e : env) (output_dir : string) (w : world)
    (t c : string) (txt csv : list string) :
  glob_in e output_dir
    {| deep := false; name_prefix := "Noriben_"; name_suffix := ".txt" |}
    (fs w) = t :: txt ->
  glob_in e output_dir
    {| deep := false; name_prefix := "Noriben_";
       name_suffix := "_timeline.csv" |} (fs w) = c :: csv ->
  let txt_data := fst (Summary.parse_txt_report (txt_of e t)) in
  let csv_data := fst (Timeline.parse_csv_timeline (csv_of e c)) in
  exists r,
    outcome_of (parse_results e output_dir) w = Return (Some r)
    /\ r_summary r = Summary.summary txt_data
    /\ r_unique_hosts r = Summary.unique_hosts txt_data
    /\ r_process_activity r = Timeline.process_activity csv_data
    /\ r_file_system r = Timeline.file_system csv_data
    /\ r_registry r = Timeline.registry csv_data
    /\ r_network r = Timeline.network csv_data
    /\ (forall msg, txt_of e t = Summary.ReadFails msg ->
        r_summary r = ∅ /\ r_unique_hosts r = [])
    /\ (forall msg, csv_of e c = Timeline.OpenFails msg ->
        r_process_activity r = [] /\ r_file_system r = []
        /\ r_registry r = [] /\ r_network r = []).
Proof.
  intros Htxt Hcsv txt_data csv_data. unfold outcome_of.
  destruct (parse_results_cases e output_dir w) as (w1 & _ & _ & ->).
  rewrite Htxt, Hcsv. simpl. eexists. split; [reflexivity |]. simpl.
  repeat (split; [reflexivity |]). split.
  - by intros msg ->.
  - by intros msg ->.
Qed.

Lemma X9_parse_results_joins_the_parsers_witness :
  let e := {| abspath := fun p => p;
              os_error := fun _ _ => None;
              lost_before_refusal := fun _ _ => false;
              proc := fun _ _ => Hangs;
              unzip := fun _ _ _ => (0%Z, None);
              disk_after := fun _ l => l;
              txt_of := fun _ => Summary.ReadFails "No such file or directory";
              csv_of := fun _ =>
                Timeline.Opened
                  [Timeline.Row ["12:00:01"; "Process"; "CreateProcess";
                                 "sample.exe"; "1204"; "cmd.exe"; "1310"]] |} in
  let w := {| fs := ["/work/a1/Noriben_1_timeline.csv";
                     "/work/a1/Noriben_1.txt"];
              log := []; calls := [] |} in
  exists r, outcome_of (parse_results e "/work/a1") w = Return (Some r)
            /\ r_summary r = ∅
            /\ length (r_process_activity r) = 1%nat.
Proof.
  intros e w.
  destruct (X9_parse_results_joins_the_parsers e "/work/a1" w
              "/work/a1/Noriben_1.txt" "/work/a1/Noriben_1_timeline.csv" [] [])
    as (r & Hr & _ & _ & Hp & _ & _ & _ & Hfail & _);
    [reflexivity | reflexivity |].
  exists r. split; [exact Hr |].
  split; [by apply (Hfail "No such file or directory") |].
  rewrite Hp. reflexivity.
Defined.

End ParseResultsMore.

(** ** The supervised run: the branches of run_noriben *)

Section SupervisorMore.
Import Py Agent Invariants.

Ltac py_go :=
  unfold mbind, mret, py_bind, py_ret, try_except, try_finally, path_exists,
    mkdir, getsize, logger, Exception in *.

Lemma parse_results_report (e : env) (output_dir : string) (w : world) :
  exists w',
    parse_results e output_dir w = (Return (report_of e output_dir (fs w)), w')
    /\ fs w' = fs w /\ calls w' = calls w.
Proof.
  destruct (parse_results_cases e output_dir w) as (w' & Hfs & Hc & Hp).
  exists w'. by rewrite Hp.
Qed.

Ltac one_call := eexists; (split; [reflexivity |]); done.

Ltac after_parse HP :=
  match goal with
  | |- context [?P ?w2] =>
      match type of HP with
      | forall w, exists w', P w = _ /\ _ =>
          let w3 := fresh "w3" in
          let Hp := fresh "Hp" in
          let Hfs3 := fresh "Hfs" in
          let Hc3 := fresh "Hc" in
          destruct (HP w2) as (w3 & Hp & Hfs3 & Hc3); rewrite Hp;
          cbn [fs log calls] in *; cbv beta iota;
          destruct (report_of _ _ _); cbn [fst snd calls];
          rewrite ?Hc3; one_call
      end
  end.

(** The [try] block of [run_noriben] with its handlers, branch by
    branch. *)
Lemma run_noriben_body_cases
    (cfg : config) (e : env) (sample_path analysis_id : string) (w : world) :
  let output_dir := joinpath (WORK_DIR cfg) analysis_id in
  let cmd := noriben_cmd cfg e sample_path analysis_id in
  let cwd := noriben_cwd cfg e in
  let limit := (ANALYSIS_TIMEOUT cfg + 60)%Z in
  let fs1 := with_dir (abspath e output_dir) (fs w) in
  let o := outcome_of (run_noriben_body cfg e sample_path analysis_id) w in
  let w1 := world_after (run_noriben_body cfg e sample_path analysis_id) w in
  match os_error e Mkdir output_dir with
  | Some x => o = Return (failure_of x) /\ calls w1 = calls w
  | None =>
      if on_disk (abspath e (abspath e sample_path)) fs1 then
        match os_error e Getsize (abspath e sample_path) with
        | Some x => o = Return (failure_of x) /\ calls w1 = calls w
        | None =>
            exists c,
              calls w1 = calls w ++ [c]
              /\ invoked c = Subprocess cmd cwd
              /\ time_limit c = Some limit
              /\ match proc e cmd cwd with
                 | Exits d rc out err =>
                     if (d <=? limit)%Z then
                       was_killed c = false
                       /\ o = Return
                           (if (rc =? 0)%Z then
                              match report_of e output_dir
                                      (disk_after e (Subprocess cmd cwd) fs1) with
                              | Some r => Success r
                              | None => Failure "Failed to parse Noriben output"
                              end
                            else
                              Failure ("Noriben execution failed (code "
                                       +:+ pretty rc +:+ "): " +:+ err))
                     else was_killed c = true
                          /\ o = Return (Failure "Analysis timeout")
                 | Garbled d rc out err msg =>
                     if (d <=? limit)%Z then
                       was_killed c = false /\ o = Return (Failure msg)
                     else was_killed c = true
                          /\ o = Return (Failure "Analysis timeout")
                 | Hangs => was_killed c = true
                            /\ o = Return (Failure "Analysis timeout")
                 | SpawnFails msg => o = Return (Failure msg)
                 end
        end
      else o = Return (Failure ("Sample file not found: "
                                +:+ abspath e sample_path))
           /\ calls w1 = calls w
  end.
Proof.
  intros output_dir cmd cwd limit fs1 o w1. subst o w1.
  unfold outcome_of, world_after, run_noriben_body.
  fold output_dir cmd cwd limit.
  pose proof (parse_results_report e output_dir) as HP.
  set (P := parse_results e output_dir) in *. clearbody P.
  py_go. unfold subprocess_run. cbv beta iota zeta.
  destruct (os_error e Mkdir output_dir) as [x |]; cbv beta iota.
  { unfold failure_of. by destruct (is_TimeoutExpired x). }
  unfold with_dir in fs1. subst fs1. cbn [fs log calls].
  destruct (on_disk (abspath e output_dir) (fs w)); cbv beta iota;
    cbn [fs log calls set_fs];
    match goal with
    | |- if on_disk _ ?l then _ else _ => generalize l; intros fs1
    end;
    (destruct (on_disk (abspath e (abspath e sample_path)) fs1); cbn [negb];
       cbv beta iota; [| done]);
    (destruct (os_error e Getsize (abspath e sample_path)) as [x |];
       cbv beta iota;
       [unfold failure_of; by destruct (is_TimeoutExpired x) |]);
    cbn [fs log calls];
    (destruct (proc e cmd cwd) as [d rc out err | | msg | d rc out err msg];
       cbv beta iota;
       [| cbn [fst snd calls]; one_call | cbn [fst snd calls]; one_call
        | destruct (d <=? limit)%Z; cbv beta iota; cbn [fst snd calls];
          one_call]);
    (destruct (d <=? limit)%Z; cbv beta iota;
       [| cbn [fst snd calls]; one_call]);
    cbn [stdout stderr returncode];
    (destruct (rc =? 0)%Z; cbn [negb];
       [| destruct (truthy out); cbn [fst snd calls]; one_call]);
    destruct (truthy out); cbv beta iota; cbn [fs log calls];
    after_parse HP.
Qed.

(** The [finally] block changes neither what the [try] block returned nor
    the record of the commands launched. *)
Lemma run_noriben_after_body
    (cfg : config) (e : env) (sample_path analysis_id : string) (w : world) :
  outcome_of (run_noriben cfg e sample_path analysis_id) w
  = outcome_of (run_noriben_body cfg e sample_path analysis_id) w
  /\ calls (world_after (run_noriben cfg e sample_path analysis_id) w)
     = calls (world_after (run_noriben_body cfg e sample_path analysis_id) w)
  /\ exists res, outcome_of (run_noriben cfg e sample_path analysis_id) w
                 = Return res.
Proof.
  unfold outcome_of, world_after, run_noriben, try_finally.
  destruct (run_noriben_body_returns cfg e sample_path analysis_id w)
    as (res & w1 & ->).
  destruct (cleanup_sample_spec cfg e sample_path analysis_id w1)
    as (w2 & E & Hc & _).
  rewrite E. simpl. eauto.
Qed.

Lemma on_disk_with_dir_false (p d : string) (l : list string) :
  on_disk p l = false -> p <> d -> on_disk p (with_dir d l) = false.
Proof.
  intros Hl Hne. unfold with_dir. destruct (on_disk d l); [done |].
  unfold on_disk in *. rewrite existsb_app, Hl. simpl.
  by rewrite orb_false_r, String.eqb_neq.
Qed.

Lemma on_disk_with_dir_true (p d : string) (l : list string) :
  on_disk p l = true -> on_disk p (with_dir d l) = true.
Proof.
  intros Hl. unfold with_dir. destruct (on_disk d l); [done |].
  unfold on_disk in *. by rewrite existsb_app, Hl.
Qed.

(** X10.  When the output directory can be made and the sample is not on
    the disk, [run_noriben] answers "Sample file not found: <absolute path>"
    and launches no command. *)
Theorem X10_missing_sample_not_launched
    (cfg : config) (e : env) (sample_path analysis_id : string) (w : world) :
  os_error e Mkdir (joinpath (WORK_DIR cfg) analysis_id) = None ->
  on_disk (abspath e (abspath e sample_path)) (fs w) = false ->
  abspath e (abspath e sample_path)
  <> abspath e (joinpath (WORK_DIR cfg) analysis_id) ->
  outcome_of (run_noriben cfg e sample_path analysis_id) w
  = Return (Failure ("Sample file not found: " +:+ abspath e sample_path))
  /\ calls (world_after (run_noriben cfg e sample_path analysis_id) w)
     = calls w.
Proof.
  intros Hmk Hgone Hne.
  destruct (run_noriben_after_body cfg e sample_path analysis_id w)
    as (-> & -> & _).
  pose proof (run_noriben_body_cases cfg e sample_path analysis_id w) as H.
  cbv zeta in H. rewrite Hmk in H.
  by rewrite (on_disk_with_dir_false _ _ _ Hgone Hne) in H.
Qed.

Lemma X10_missing_sample_not_launched_witness :
  let cfg := {| NORIBEN_PATH := "/opt/noriben/Noriben.py";
                PYTHON_PATH := "python";
                ANALYSIS_TIMEOUT := 300; WORK_DIR := "/work";
                UNZIP_TOOL := "7z"; UNZIP_PATH := "7z" |} in
  let e := {| abspath := fun p => p;
              os_error := fun _ _ => None;
              lost_before_refusal := fun _ _ => false;
              proc := fun _ _ => Exits 95 0 "done" "";
              unzip := fun _ _ _ => (0%Z, None);
              disk_after := fun _ l => l;
              txt_of := fun _ => Summary.ReadFails "No such file or directory";
              csv_of := fun _ => Timeline.OpenFails "No such file or directory" |} in
  let w := {| fs := ["/work"]; log := []; calls := [] |} in
  outcome_of (run_noriben cfg e "/work/a1_upload.exe" "a1") w
  = Return (Failure "Sample file not found: /work/a1_upload.exe")
  /\ calls (world_after (run_noriben cfg e "/work/a1_upload.exe" "a1") w) = [].
Proof.
  intros cfg e w.
  apply (X10_missing_sample_not_launched cfg e "/work/a1_upload.exe" "a1" w);
    [reflexivity | reflexivity | discriminate].
Defined.

(** X11.  When the monitoring tool is launched and exits within the limit
    [run_noriben] does not read the results in two cases, whatever the tool
    left in the output directory.  With an exit code other than 0 and
    output that decodes as text, it answers "Noriben execution failed
    (code <rc>): <stderr>".  With output that does not decode as text,
    [subprocess.run] raises, and the answer is the text of that error,
    whatever the exit code. *)
Theorem X11_nonzero_exit_reported
    (cfg : config) (e : env) (sample_path analysis_id : string) (w : world)
    (d rc : Z) (out err : string) :
  let cmd := noriben_cmd cfg e sample_path analysis_id in
  os_error e Mkdir (joinpath (WORK_DIR cfg) analysis_id) = None ->
  on_disk (abspath e (abspath e sample_path)) (fs w) = true ->
  os_error e Getsize (abspath e sample_path) = None ->
  (d <= ANALYSIS_TIMEOUT cfg + 60)%Z ->
  (proc e cmd (noriben_cwd cfg e) = Exits d rc out err ->
   rc <> 0%Z ->
   outcome_of (run_noriben cfg e sample_path analysis_id) w
   = Return (Failure ("Noriben execution failed (code " +:+ pretty rc
                      +:+ "): " +:+ err)))
  /\ (forall msg,
        proc e cmd (noriben_cwd cfg e) = Garbled d rc out err msg ->
        outcome_of (run_noriben cfg e sample_path analysis_id) w
        = Return (Failure msg)).
Proof.
  intros cmd Hmk Hthere Hsize Hd.
  destruct (run_noriben_after_body cfg e sample_path analysis_id w)
    as (-> & _ & _).
  pose proof (run_noriben_body_cases cfg e sample_path analysis_id w) as H.
  cbv zeta in H. rewrite Hmk, (on_disk_with_dir_true _ _ _ Hthere), Hsize in H.
  destruct H as (c & _ & _ & _ & H). fold cmd in H.
  split.
  - intros Hproc Hrc. rewrite Hproc in H.
    destruct (Z.leb_spec d (ANALYSIS_TIMEOUT cfg + 60)); [| lia].
    destruct H as [_ ->]. by destruct (Z.eqb_spec rc 0).
  - intros msg Hproc. rewrite Hproc in H.
    destruct (Z.leb_spec d (ANALYSIS_TIMEOUT cfg + 60)); [| lia].
    by destruct H as [_ ->].
Qed.

Lemma X11_nonzero_exit_reported_witness :
  let cfg := {| NORIBEN_PATH := "/opt/noriben/Noriben.py";
                PYTHON_PATH := "python";
                ANALYSIS_TIMEOUT := 300; WORK_DIR := "/work";
                UNZIP_TOOL := "7z"; UNZIP_PATH := "7z" |} in
  let e := fun b =>
           {| abspath := fun p => p;
              os_error := fun _ _ => None;
              lost_before_refusal := fun _ _ => false;
              proc := fun _ _ => b;
              unzip := fun _ _ _ => (0%Z, None);
              disk_after := fun _ l =>
                l ++ ["/work/a1/Noriben_27_Jul.txt";
                      "/work/a1/Noriben_27_Jul_timeline.csv"];
              txt_of := fun _ => Summary.Text (Summary.report_text 16);
              csv_of := fun _ => Timeline.Opened [] |} in
  let w := {| fs := ["/work"; "/work/a1_upload.exe"]; log := []; calls := [] |} in
  let undecodable :=
    "'utf-8' codec can't decode byte 0xff in position 0: invalid start byte" in
  outcome_of
    (run_noriben cfg (e (Exits 3 2 "" "Procmon not found"))
       "/work/a1_upload.exe" "a1") w
  = Return (Failure "Noriben execution failed (code 2): Procmon not found")
  /\ outcome_of
       (run_noriben cfg (e (Garbled 3 0 "" "" undecodable))
          "/work/a1_upload.exe" "a1") w
     = Return (Failure undecodable).
Proof.
  intros cfg e w undecodable. split.
  - destruct (X11_nonzero_exit_reported cfg
                (e (Exits 3 2 "" "Procmon not found"))
                "/work/a1_upload.exe" "a1" w 3 2 "" "Procmon not found")
      as [H _]; [reflexivity | reflexivity | reflexivity | simpl; lia |].
    apply H; [reflexivity | lia].
  - destruct (X11_nonzero_exit_reported cfg
                (e (Garbled 3 0 "" "" undecodable))
                "/work/a1_upload.exe" "a1" w 3 0 "" "")
      as [_ H]; [reflexivity | reflexivity | reflexivity | simpl; lia |].
    apply H. reflexivity.
Defined.

(** X12.  One call of [run_noriben] launches at most one command: the
    monitoring tool, from the tool's directory, with the limit
    [ANALYSIS_TIMEOUT + 60].  It answers with a report only when that
    command exited with code 0 within the limit, and the report is then the
    one read from the output directory as the command left it. *)
Theorem X12_one_command_success_needs_exit_0
    (cfg : config) (e : env) (sample_path analysis_id : string) (w : world) :
  let output_dir := joinpath (WORK_DIR cfg) analysis_id in
  let cmd := noriben_cmd cfg e sample_path analysis_id in
  let cwd := noriben_cwd cfg e in
  let limit := (ANALYSIS_TIMEOUT cfg + 60)%Z in
  let run := run_noriben cfg e sample_path analysis_id in
  (calls (world_after run w) = calls w
   \/ exists c, calls (world_after run w) = calls w ++ [c]
                /\ invoked c = Subprocess cmd cwd
                /\ time_limit c = Some limit)
  /\ forall r, outcome_of run w = Return (Success r) ->
       exists d out err,
         proc e cmd cwd = Exits d 0 out err
         /\ (d <= limit)%Z
         /\ report_of e output_dir
              (disk_after e (Subprocess cmd cwd)
                 (with_dir (abspath e output_dir) (fs w))) = Some r.
Proof.
  intros output_dir cmd cwd limit run. subst run.
  destruct (run_noriben_after_body cfg e sample_path analysis_id w)
    as (-> & -> & _).
  pose proof (run_noriben_body_cases cfg e sample_path analysis_id w) as H.
  cbv zeta in H. fold output_dir cmd cwd limit in H.
  destruct (os_error e Mkdir output_dir) as [x |].
  { destruct H as [-> ->]. split; [by left |].
    unfold failure_of. by destruct (is_TimeoutExpired x). }
  destruct (on_disk _ (with_dir _ _)).
  2: { destruct H as [-> ->]. split; [by left | done]. }
  destruct (os_error e Getsize _) as [x |].
  { destruct H as [-> ->]. split; [by left |].
    unfold failure_of. by destruct (is_TimeoutExpired x). }
  destruct H as (c & Hc & Hinv & Hlim & H). rewrite Hc.
  split; [right; by exists c |].
  intros r Hr.
  destruct (proc e cmd cwd) as [d rc out err | | msg | d rc out err msg].
  - destruct (Z.leb_spec d limit) as [Hd |]; destruct H as [Hk H];
      rewrite H in Hr; [| done].
    destruct (Z.eqb_spec rc 0) as [-> |]; [| done].
    exists d, out, err. split; [done |]. split; [done |].
    destruct (report_of _ _ _) as [r' |]; [| done].
    by injection Hr as ->.
  - destruct H as [_ H]. by rewrite H in Hr.
  - by rewrite H in Hr.
  - destruct (d <=? limit)%Z; destruct H as [_ H]; by rewrite H in Hr.
Qed.

End SupervisorMore.

(** ** The cleanup endpoint: what it leaves alone, and its failure *)

Section CleanupMore.
Import Py Agent.

Lemma on_disk_kept (f : string -> bool) (q : string) (l : list string) :
  f q = true -> on_disk q (List.filter f l) = on_disk q l.
Proof.
  intros Hq. unfold on_disk. induction l as [| a l IH]; simpl; [done |].
  destruct (f a) eqn:Ha; simpl; rewrite IH; [done |].
  destruct (String.eqb_spec q a) as [-> |]; [congruence | done].
Qed.

Lemma on_disk_outside (d q : string) (l : list string) :
  within d q = false ->
  on_disk q (List.filter (fun q' => negb (within d q')) l) = on_disk q l.
Proof. intros Hq. apply on_disk_kept. by rewrite Hq. Qed.

Lemma not_below_itself (d : string) : strip_prefix (d +:+ "/") d = None.
Proof.
  induction d as [| c d IH]; [done |].
  change (String c d +:+ "/") with (String c (d +:+ "/")).
  cbn [strip_prefix]. by rewrite Ascii.eqb_refl.
Qed.

(** X13.  The cleanup of an analysis touches only the output directory of
    that analysis and what lies below it: every other path is on the disk
    afterwards exactly when it was before, whatever the answer; and no
    command is launched. *)
Theorem X13_cleanup_leaves_the_rest
    (cfg : config) (e : env) (analysis_id : string) (w : world) (q : string) :
  within (abspath e (joinpath (WORK_DIR cfg) analysis_id)) q = false ->
  on_disk q (fs (world_after (cleanup cfg e analysis_id) w)) = on_disk q (fs w)
  /\ calls (world_after (cleanup cfg e analysis_id) w) = calls w.
Proof.
  intros Hq.
  unfold world_after, cleanup, try_except, path_exists, rmtree, logger.
  unfold mbind, mret, py_bind, py_ret. simpl.
  destruct (on_disk _ (fs w)) eqn:Hd; simpl; [| done].
  destruct (os_error e Rmtree _) as [x |]; simpl; rewrite ?Hd; simpl.
  - split; [| done]. apply on_disk_kept.
    unfold within in Hq. apply orb_false_iff in Hq as [_ ->]. done.
  - split; [| done]. by apply on_disk_outside.
Qed.

Lemma X13_cleanup_leaves_the_rest_witness :
  let cfg := {| NORIBEN_PATH := "/opt/noriben/Noriben.py";
                PYTHON_PATH := "python";
                ANALYSIS_TIMEOUT := 300; WORK_DIR := "/work";
                UNZIP_TOOL := "7z"; UNZIP_PATH := "7z" |} in
  let e := {| abspath := fun p => p;
              os_error := fun _ _ => None;
              lost_before_refusal := fun _ _ => false;
              proc := fun _ _ => Hangs;
              unzip := fun _ _ _ => (0%Z, None);
              disk_after := fun _ l => l;
              txt_of := fun _ => Summary.ReadFails "No such file or directory";
              csv_of := fun _ => Timeline.OpenFails "No such file or directory" |} in
  let w := {| fs := ["/work"; "/work/a1"; "/work/a1/Noriben_1.txt";
                     "/work/a1_extracted"; "/work/a1_extracted/x.exe"];
              log := []; calls := [] |} in
  on_disk "/work/a1_extracted/x.exe"
    (fs (world_after (cleanup cfg e "a1") w)) = true
  /\ calls (world_after (cleanup cfg e "a1") w) = [].
Proof.
  intros cfg e w.
  apply (X13_cleanup_leaves_the_rest cfg e "a1" w "/work/a1_extracted/x.exe").
  reflexivity.
Defined.

(** X14.  The cleanup endpoint raises nothing.  It answers 500 exactly when
    the output directory is there and the system refuses its removal; the
    answer then carries the text of the error, the failure is logged, the
    directory itself is still on the disk and nothing has appeared there
    (entries below the directory that were removed before the refusal are
    gone).  In every other case it answers 200 and logs nothing. *)
Theorem X14_cleanup_refused
    (cfg : config) (e : env) (analysis_id : string) (w : world) :
  let output_dir := joinpath (WORK_DIR cfg) analysis_id in
  let w' := world_after (cleanup cfg e analysis_id) w in
  exists r,
    outcome_of (cleanup cfg e analysis_id) w = Return r
    /\ (status r = 500%Z
        <-> on_disk (abspath e output_dir) (fs w) = true
            /\ is_Some (os_error e Rmtree output_dir))
    /\ (forall x, on_disk (abspath e output_dir) (fs w) = true ->
          os_error e Rmtree output_dir = Some x ->
          r = {| success := false; error := Some (str_exn x); status := 500 |}
          /\ on_disk (abspath e output_dir) (fs w') = true
          /\ (forall q, on_disk q (fs w') = true -> on_disk q (fs w) = true)
          /\ log w' = log w ++ [(ERROR, "Cleanup failed: " +:+ str_exn x)])
    /\ (status r <> 500%Z ->
        r = {| success := true; error := None; status := 200 |}
        /\ log w' = log w).
Proof.
  intros output_dir w'. subst w'.
  unfold outcome_of, world_after, cleanup, try_except, path_exists, rmtree,
    logger.
  fold output_dir. unfold mbind, mret, py_bind, py_ret. simpl.
  destruct (on_disk _ (fs w)) eqn:Hd; simpl.
  - destruct (os_error e Rmtree output_dir) as [x |]; simpl; rewrite ?Hd; simpl.
    + eexists. split; [reflexivity |]. simpl. split; [| split].
      * split; [by split; [| eexists] | done].
      * intros ? _ [= <-]. split; [done |]. split; [| split; [| done]].
        -- rewrite on_disk_kept; [done |].
           by rewrite not_below_itself.
        -- intros q Hq. destruct (on_disk q (fs w)) eqn:Hw; [done |].
           by rewrite on_disk_filter in Hq.
      * done.
    + eexists. split; [reflexivity |]. simpl. split; [| split].
      * split; [done | by intros [_ [? ?]]].
      * done.
      * done.
  - eexists. split; [reflexivity |]. simpl. split; [| split].
    + split; [done | by intros [? _]].
    + done.
    + done.
Qed.

Lemma X14_cleanup_refused_witness :
  let cfg := {| NORIBEN_PATH := "/opt/noriben/Noriben.py";
                PYTHON_PATH := "python";
                ANALYSIS_TIMEOUT := 300; WORK_DIR := "/work";
                UNZIP_TOOL := "7z"; UNZIP_PATH := "7z" |} in
  let e := {| abspath := fun p => p;
              os_error := fun op _ =>
                match op with
                | Rmtree => Some (OtherError "Access is denied: 'Noriben_1.pml'")
                | _ => None
                end;
              lost_before_refusal := fun _ q =>
                String.eqb q "/work/a1/Noriben_1.txt";
              proc := fun _ _ => Hangs;
              unzip := fun _ _ _ => (0%Z, None);
              disk_after := fun _ l => l;
              txt_of := fun _ => Summary.ReadFails "No such file or directory";
              csv_of := fun _ => Timeline.OpenFails "No such file or directory" |} in
  let w := {| fs := ["/work"; "/work/a1"; "/work/a1/Noriben_1.txt";
                     "/work/a1/Noriben_1.pml"];
              log := []; calls := [] |} in
  exists r,
    outcome_of (cleanup cfg e "a1") w = Return r
    /\ status r = 500%Z
    /\ fs (world_after (cleanup cfg e "a1") w)
       = ["/work"; "/work/a1"; "/work/a1/Noriben_1.pml"].
Proof.
  intros cfg e w.
  destruct (X14_cleanup_refused cfg e "a1" w) as (r & Hr & H500 & _).
  exists r. split; [exact Hr |]. split; [| reflexivity].
  apply H500. split; [reflexivity | by eexists].
Defined.

End CleanupMore.

(** ** extract_zip: the backend, then the choice of the sample *)

Section ExtractionMore.
Import Py Agent Policy Invariants.

(** X15.  When the extraction directory cannot be made, [extract_zip]
    returns [None]: no backend is tried, the disk is as it was, and the
    error is logged. *)
Theorem X15_extraction_directory_refused
    (cfg : config) (e : env) (zip_path analysis_id : string)
    (password : option string) (w : world) (x : exn) :
  os_error e Mkdir (joinpath (WORK_DIR cfg) (analysis_id +:+ "_extracted"))
  = Some x ->
  extract_zip cfg e zip_path analysis_id password w
  = (Return None, logged ERROR ("Failed to extract zip: " +:+ str_exn x) w).
Proof.
  intros Hmk. unfold extract_zip, try_except, mbind, py_bind, mkdir.
  by rewrite Hmk.
Qed.

Lemma X15_extraction_directory_refused_witness :
  let cfg := {| NORIBEN_PATH := "/opt/noriben/Noriben.py";
                PYTHON_PATH := "python";
                ANALYSIS_TIMEOUT := 300; WORK_DIR := "/work";
                UNZIP_TOOL := "7z"; UNZIP_PATH := "7z" |} in
  let e := {| abspath := fun p => p;
              os_error := fun op _ =>
                match op with
                | Mkdir => Some (OtherError "Access is denied")
                | _ => None
                end;
              lost_before_refusal := fun _ _ => false;
              proc := fun _ _ => Exits 1 0 "Everything is Ok" "";
              unzip := fun _ _ _ => (0%Z, None);
              disk_after := fun _ l => l ++ ["/work/a1_extracted/x.exe"];
              txt_of := fun _ => Summary.ReadFails "No such file or directory";
              csv_of := fun _ => Timeline.OpenFails "No such file or directory" |} in
  let w := {| fs := ["/work"; "/work/a1_upload.zip"]; log := []; calls := [] |} in
  extract_zip cfg e "/work/a1_upload.zip" "a1" None w
  = (Return None,
     {| fs := ["/work"; "/work/a1_upload.zip"];
        log := [(ERROR, "Failed to extract zip: Access is denied")];
        calls := [] |}).
Proof.
  intros cfg e w.
  apply (X15_extraction_directory_refused cfg e "/work/a1_upload.zip" "a1"
           None w (OtherError "Access is denied")).
  reflexivity.
Defined.

(** X16.  [extract_zip] is the backend that [UNZIP_TOOL] names followed by
    the choice of the sample: with its directory made (and an archive the
    in-process library can open, when that is the backend), the commands it
    launches are the attempts of the password policy for that backend, each
    judged as the backend judges it (the first call of an external tool,
    which reads the output as text, breaks off when the output cannot be
    decoded; the calls of the loop read bytes and do not), and it returns
    the first executable found on the disk as the backend left it when the
    policy ends in an accepted attempt, and [None] when it does not. *)
Theorem X16_extract_zip_backend_then_choice
    (cfg : config) (e : env) (zip_path analysis_id : string)
    (password : option string) (w : world) :
  let dir := joinpath (WORK_DIR cfg) (analysis_id +:+ "_extracted") in
  let inv := attempt_call (backend_of cfg) cfg zip_path dir in
  let judge a := verdict_of e (first_call password a) (inv a) in
  let w' := world_after (extract_zip cfg e zip_path analysis_id password) w in
  os_error e Mkdir dir = None ->
  (backend_of cfg = Python -> os_error e OpenZip zip_path = None) ->
  calls w' = calls w ++ map (fun a => went e (inv a))
                            (fst (password_policy judge password))
  /\ outcome_of (extract_zip cfg e zip_path analysis_id password) w
     = Return (if accepted (snd (password_policy judge password))
               then head (found e dir executable_extensions (fs w'))
               else None).
Proof.
  intros dir inv judge w' Hmk Hopen. subst w'.
  destruct (extract_zip_cases cfg e zip_path analysis_id password w Hmk)
    as (r & w1 & Hb & -> & -> & -> & _). fold dir in Hb |- *.
  rewrite configured_backend_of in Hb.
  destruct (backend_refines_policy (backend_of cfg) cfg e zip_path dir
              password
              (logged INFO ("Extracting to: " +:+ dir)
                 (set_fs (with_dir (abspath e dir) (fs w)) w))
              Hopen) as [Hr Hc].
  rewrite Hb in Hr. injection Hr as -> Hw1. rewrite <- Hw1 in Hc.
  by rewrite Hc.
Qed.

Lemma X16_extract_zip_backend_then_choice_witness :
  let cfg := {| NORIBEN_PATH := "/opt/noriben/Noriben.py";
                PYTHON_PATH := "python";
                ANALYSIS_TIMEOUT := 300; WORK_DIR := "/work";
                UNZIP_TOOL := "unzip"; UNZIP_PATH := "unzip.exe" |} in
  let e := {| abspath := fun p => p;
              os_error := fun _ _ => None;
              lost_before_refusal := fun _ _ => false;
              proc := fun cmd _ =>
                if bool_decide (last cmd = Some "malware")
                then Exits 2 0 "inflating" ""
                else Exits 1 82 "" "incorrect password";
              unzip := fun _ _ _ => (0%Z, None);
              disk_after := fun inv l =>
                match inv with
                | Subprocess cmd _ =>
                    if bool_decide (last cmd = Some "malware")
                    then l ++ ["/work/a1_extracted/notes.txt";
                               "/work/a1_extracted/bin/run.bat";
                               "/work/a1_extracted/bin/tool.dll"]
                    else l
                | _ => l
                end;
              txt_of := fun _ => Summary.ReadFails "No such file or directory";
              csv_of := fun _ => Timeline.OpenFails "No such file or directory" |} in
  let w := {| fs := ["/work"; "/work/a1_upload.zip"]; log := []; calls := [] |} in
  let run := extract_zip cfg e "/work/a1_upload.zip" "a1" None in
  map (fun c => (invoked c, was_killed c)) (calls (world_after run w))
  = [(Subprocess ["unzip.exe"; "-o"; "/work/a1_upload.zip"; "-d";
                  "/work/a1_extracted"] None, false);
     (Subprocess ["unzip.exe"; "-o"; "/work/a1_upload.zip"; "-d";
                  "/work/a1_extracted"; "-P"; "infected"] None, false);
     (Subprocess ["unzip.exe"; "-o"; "/work/a1_upload.zip"; "-d";
                  "/work/a1_extracted"; "-P"; "malware"] None, false)]
  /\ outcome_of run w = Return (Some "/work/a1_extracted/bin/tool.dll").
Proof.
  intros cfg e w run. subst run.
  destruct (X16_extract_zip_backend_then_choice cfg e "/work/a1_upload.zip"
              "a1" None w) as [Hc Ho]; [reflexivity | discriminate |].
  split; [rewrite Hc | rewrite Ho]; vm_compute; reflexivity.
Defined.

(** X17.  When [UNZIP_TOOL] is neither "7z" nor "unzip", [extract_zip]
    launches no external command: whatever it adds to the record of calls
    is an [extractall] of the archive into the extraction directory, made
    in-process and without a time limit. *)
Theorem X17_fallback_backend_in_process
    (cfg : config) (e : env) (zip_path analysis_id : string)
    (password : option string) (w : world) :
  let dir := joinpath (WORK_DIR cfg) (analysis_id +:+ "_extracted") in
  let w' := world_after (extract_zip cfg e zip_path analysis_id password) w in
  UNZIP_TOOL cfg <> "7z" ->
  UNZIP_TOOL cfg <> "unzip" ->
  exists new,
    calls w' = calls w ++ new
    /\ forall c, c ∈ new ->
         (exists pwd, invoked c = ExtractAll zip_path dir pwd)
         /\ time_limit c = None
         /\ was_killed c = false.
Proof.
  intros dir w' H7 Hu. subst w'.
  destruct (os_error e Mkdir dir) as [x |] eqn:Hmk.
  { exists []. split; [| by intros c Hc%elem_of_nil].
    unfold world_after, extract_zip, try_except, mbind, py_bind, mkdir.
    fold dir. rewrite Hmk. simpl. by rewrite app_nil_r. }
  destruct (extract_zip_cases cfg e zip_path analysis_id password w Hmk)
    as (r & w1 & Hb & -> & _). fold dir in Hb.
  rewrite configured_backend_of in Hb.
  assert (Hpy : backend_of cfg = Python).
  { unfold backend_of. apply String.eqb_neq in H7, Hu. by rewrite H7, Hu. }
  rewrite Hpy in Hb. simpl extract_with in Hb.
  destruct (os_error e OpenZip zip_path) as [x |] eqn:Hopen.
  - exists []. split; [| by intros c Hc%elem_of_nil].
    pose proof (python_cannot_open cfg e zip_path dir password
                  (logged INFO ("Extracting to: " +:+ dir)
                     (set_fs (with_dir (abspath e dir) (fs w)) w))
                  x Hopen) as Hc.
    unfold world_after in Hc. rewrite Hb in Hc. simpl in Hc.
    by rewrite Hc, app_nil_r.
  - destruct (backend_refines_policy Python cfg e zip_path dir password
                (logged INFO ("Extracting to: " +:+ dir)
                   (set_fs (with_dir (abspath e dir) (fs w)) w)))
      as [_ Hc]; [done |].
    simpl extract_with in Hc. unfold world_after in Hc.
    rewrite Hb in Hc. simpl in Hc.
    eexists. split; [exact Hc |].
    intros c (a & -> & _)%list_elem_of_fmap.
    unfold went, attempt_call. simpl. eauto.
Qed.

Lemma X17_fallback_backend_in_process_witness :
  let cfg := {| NORIBEN_PATH := "/opt/noriben/Noriben.py";
                PYTHON_PATH := "python";
                ANALYSIS_TIMEOUT := 300; WORK_DIR := "/work";
                UNZIP_TOOL := "python"; UNZIP_PATH := "7z" |} in
  let e := {| abspath := fun p => p;
              os_error := fun _ _ => None;
              lost_before_refusal := fun _ _ => false;
              proc := fun _ _ => Exits 1 0 "Everything is Ok" "";
              unzip := fun _ _ pwd =>
                match pwd with
                | Some "infected" => (400%Z, None)
                | _ => (1%Z, Some (RuntimeError "Bad password for file"))
                end;
              disk_after := fun _ l => l;
              txt_of := fun _ => Summary.ReadFails "No such file or directory";
              csv_of := fun _ => Timeline.OpenFails "No such file or directory" |} in
  let w := {| fs := ["/work"; "/work/a1_upload.zip"]; log := []; calls := [] |} in
  exists new,
    calls (world_after (extract_zip cfg e "/work/a1_upload.zip" "a1" None) w)
    = [] ++ new
    /\ forall c, c ∈ new ->
         (exists pwd, invoked c
                      = ExtractAll "/work/a1_upload.zip" "/work/a1_extracted" pwd)
         /\ time_limit c = None
         /\ was_killed c = false.
Proof.
  intros cfg e w.
  apply (X17_fallback_backend_in_process cfg e "/work/a1_upload.zip" "a1"
           None w); discriminate.
Defined.

End ExtractionMore.

(** ** The analyze endpoint *)

Section AnalyzeMore.
Import Py Agent Http Invariants.

(** [run_noriben] followed by the two [return]s of [analyze]: the body of
    the answer is the dictionary of [run_noriben], the code 200 for a
    success and 500 for a failure. *)
Lemma run_and_answer_spec
    (cfg : config) (e : env) (sample_path analysis_id : string) (w : world) :
  exists res,
    outcome_of (run_noriben cfg e sample_path analysis_id) w = Return res
    /\ run_and_answer cfg e sample_path analysis_id w
       = (Return {| body := res;
                    code := match res with
                            | Success _ => 200
                            | Failure _ => 500
                            end |},
          world_after (run_noriben cfg e sample_path analysis_id) w).
Proof.
  destruct (run_noriben_after_body cfg e sample_path analysis_id w)
    as (_ & _ & res & Hres).
  exists res. split; [done |].
  unfold run_and_answer, mbind, py_bind, world_after, outcome_of in *.
  destruct (run_noriben cfg e sample_path analysis_id w) as [o w1].
  simpl in Hres. subst o. by destruct res.
Qed.

(** [try: os.remove(temp_file) except: pass] *)
Lemma remove_upload_spec (e : env) (temp_file : string) (w : world) :
  exists w',
    try_except (os_remove e temp_file) Exception (fun _ => mret tt) w
    = (Return tt, w')
    /\ calls w' = calls w
    /\ log w' = log w
    /\ (on_disk (abspath e temp_file) (fs w') = false
        \/ is_Some (os_error e Remove temp_file)).
Proof.
  unfold try_except, os_remove, Exception, mret, py_ret.
  destruct (os_error e Remove temp_file) as [x |]; simpl.
  - eexists. split; [reflexivity |]. split; [done |]. split; [done |].
    right. by eexists.
  - destruct (on_disk (abspath e temp_file) (fs w)) eqn:Hd; simpl;
      eexists; (split; [reflexivity |]); simpl;
      (split; [done |]); (split; [done |]); left;
      [apply on_disk_removed | done].
Qed.

Lemma analyze_saved_returns (cfg : config) (e : env) (req : request)
    (analysis_id temp_file : string) (w : world) :
  exists r w',
    analyze_saved cfg e req analysis_id temp_file w = (Return r, w')
    /\ well_formed r.
Proof.
  unfold analyze_saved. destruct (is_zip_of req).
  - unfold mbind at 1 2 3, py_bind, logger.
    match goal with
    | |- context [extract_zip _ _ _ _ _ ?w0] =>
        destruct (extract_zip_returns cfg e temp_file analysis_id
                    (form_password req) w0) as (sp & w1 & ->)
    end.
    destruct (remove_upload_spec e temp_file w1) as (w2 & -> & _).
    destruct (supplied sp) as [sample_path |].
    + destruct (run_and_answer_spec cfg e sample_path analysis_id w2)
        as (res & _ & ->).
      eexists _, _. split; [reflexivity |].
      unfold well_formed. simpl. destruct res; auto.
    + eexists _, _. split; [reflexivity |].
      unfold well_formed. simpl. right. split; [done |].
      apply list_elem_of_In. simpl. auto.
  - destruct (run_and_answer_spec cfg e temp_file analysis_id w)
      as (res & _ & ->).
    eexists _, _. split; [reflexivity |].
    unfold well_formed. simpl. destruct res; auto.
Qed.

(** Behind the checks and the saving of the upload, [analyze] is
    [analyze_saved]: the handler of the endpoint has nothing to catch. *)
Lemma analyze_after_save (cfg : config) (e : env) (req : request)
    (file : upload) (analysis_id original_filename : string) (w : world) :
  accepted_upload req file analysis_id original_filename ->
  analyze cfg e req w
  = analyze_saved cfg e req analysis_id
      (temp_file_of cfg analysis_id original_filename)
      (after_save cfg e analysis_id original_filename w).
Proof.
  intros (Hfile & Hid & Hname & Hsave).
  unfold analyze, try_except. rewrite Hfile, Hid, Hname.
  unfold mbind at 1 2 3, py_bind, logger, save. rewrite Hsave.
  unfold after_save, logged, with_dir, set_fs. cbn [fs log calls].
  destruct (on_disk _ (fs w)); cbv beta iota; cbn [fs log calls];
    match goal with
    | |- context [analyze_saved cfg e req analysis_id ?t ?w0] =>
        destruct (analyze_saved_returns cfg e req analysis_id t w0)
          as (r & w' & E & _); rewrite E
    end; done.
Qed.

(** X18.  A request without a file, or with a file but without an analysis
    identifier (absent or empty), is answered 400, "No file uploaded" in
    the first case and "analysis_id required" in the second; nothing is
    saved, launched or logged. *)
Theorem X18_invalid_request_rejected
    (cfg : config) (e : env) (req : request) (w : world) :
  files_file req = None \/ supplied (form_analysis_id req) = None ->
  analyze cfg e req w
  = (Return {| body := Failure (match files_file req with
                                | None => "No file uploaded"
                                | Some _ => "analysis_id required"
                                end);
               code := 400 |}, w).
Proof.
  intros H. unfold analyze, try_except.
  destruct (files_file req) as [file |]; [| done].
  destruct H as [H | H]; [done |]. by rewrite H.
Qed.

Lemma X18_invalid_request_rejected_witness :
  let cfg := {| NORIBEN_PATH := "/opt/noriben/Noriben.py";
                PYTHON_PATH := "python";
                ANALYSIS_TIMEOUT := 300; WORK_DIR := "/work";
                UNZIP_TOOL := "7z"; UNZIP_PATH := "7z" |} in
  let e := {| abspath := fun p => p;
              os_error := fun _ _ => None;
              lost_before_refusal := fun _ _ => false;
              proc := fun _ _ => Exits 95 0 "done" "";
              unzip := fun _ _ _ => (0%Z, None);
              disk_after := fun _ l => l;
              txt_of := fun _ => Summary.ReadFails "No such file or directory";
              csv_of := fun _ => Timeline.OpenFails "No such file or directory" |} in
  let req := {| files_file := Some {| filename := Some "sample.exe";
                                      save_error := None |};
                form_analysis_id := Some "";
                form_password := None;
                form_is_zip := None |} in
  let w := {| fs := ["/work"]; log := []; calls := [] |} in
  analyze cfg e req w
  = (Return {| body := Failure "analysis_id required"; code := 400 |}, w).
Proof.
  intros cfg e req w.
  apply (X18_invalid_request_rejected cfg e req w). right. reflexivity.
Defined.

(** X19.  [analyze] answers every request and raises nothing: a success
    dictionary goes with the code 200 and with no other; a failure goes
    with 500, or with 400 and one of the messages "No file uploaded",
    "analysis_id required", "Failed to extract zip file". *)
Theorem X19_analyze_always_answers
    (cfg : config) (e : env) (req : request) (w : world) :
  exists r, outcome_of (analyze cfg e req) w = Return r /\ well_formed r.
Proof.
  assert (H400 : forall msg,
            msg ∈ ["No file uploaded"; "analysis_id required";
                   "Failed to extract zip file"] ->
            well_formed {| body := Failure msg; code := 400 |}).
  { intros msg Hmsg. unfold well_formed. simpl. by right. }
  unfold outcome_of, analyze, try_except.
  destruct (files_file req) as [file |].
  2: { eexists. split; [reflexivity |]. apply H400.
       apply list_elem_of_In. simpl. auto. }
  destruct (supplied (form_analysis_id req)) as [analysis_id |].
  2: { eexists. split; [reflexivity |]. apply H400.
       apply list_elem_of_In. simpl. auto. }
  unfold mbind at 1, py_bind, logger.
  destruct (filename file) as [original_filename |].
  2: { unfold raise, Exception. simpl. eexists. split; [reflexivity |].
       unfold well_formed. simpl. by left. }
  unfold mbind at 1 2, py_bind, save, logger.
  destruct (save_error file) as [[x | x] |].
  1, 2: unfold Exception; simpl; eexists; (split; [reflexivity |]);
        unfold well_formed; simpl; by left.
  destruct (on_disk _ _); cbv beta iota;
    match goal with
    | |- context [analyze_saved cfg e req analysis_id ?t ?w0] =>
        destruct (analyze_saved_returns cfg e req analysis_id t w0)
          as (r & w' & E & Hr); rewrite E
    end; by exists r.
Qed.

(** X20.  When the upload cannot be saved, [analyze] answers 500 with the
    text of the error and logs it; nothing is unpacked or launched.  Every
    path other than the one the upload is saved under is on the disk
    exactly when it was before, and nothing that was there is gone.  When
    the destination could not be opened the disk is as it was; when the
    copy broke off the destination is there, with what was written. *)
Theorem X20_save_failure_reported
    (cfg : config) (e : env) (req : request) (file : upload)
    (analysis_id original_filename : string) (f : save_failure) (w : world) :
  let temp_file := temp_file_of cfg analysis_id original_filename in
  let w' := world_after (analyze cfg e req) w in
  files_file req = Some file ->
  supplied (form_analysis_id req) = Some analysis_id ->
  filename file = Some original_filename ->
  save_error file = Some f ->
  outcome_of (analyze cfg e req) w
  = Return {| body := Failure (str_exn (save_exn f)); code := 500 |}
  /\ calls w' = calls w
  /\ log w'
     = log w ++ [(INFO, "Received analysis request: " +:+ analysis_id);
                 (ERROR, "Analysis request failed: " +:+ str_exn (save_exn f))]
  /\ (forall q, q <> abspath e temp_file ->
        on_disk q (fs w') = on_disk q (fs w))
  /\ (forall q, on_disk q (fs w) = true -> on_disk q (fs w') = true)
  /\ match f with
     | CannotOpen _ => fs w' = fs w
     | CopyFails _ => on_disk (abspath e temp_file) (fs w') = true
     end.
Proof.
  intros temp_file w' Hfile Hid Hname Hsave. subst w'.
  unfold outcome_of, world_after, analyze, try_except.
  rewrite Hfile, Hid, Hname. fold temp_file.
  unfold mbind, py_bind, logger, save. rewrite Hsave.
  destruct f as [x | x]; cbn [fs log calls save_exn fst snd].
  - unfold Exception. cbn. rewrite <- app_assoc. done.
  - unfold Exception.
    destruct (on_disk (abspath e temp_file) (fs w)) eqn:Hd;
      cbn; rewrite <- app_assoc; (split; [done |]); (split; [done |]);
      (split; [done |]).
    + done.
    + split; [| split].
      * intros q Hq. unfold on_disk. rewrite existsb_app. simpl.
        apply String.eqb_neq in Hq. rewrite Hq. by rewrite !orb_false_r.
      * intros q Hq. unfold on_disk in *. rewrite existsb_app, Hq. done.
      * unfold on_disk. rewrite existsb_app. simpl.
        rewrite String.eqb_refl. by rewrite orb_true_r.
Qed.

Lemma X20_save_failure_reported_witness :
  let cfg := {| NORIBEN_PATH := "/opt/noriben/Noriben.py";
                PYTHON_PATH := "python";
                ANALYSIS_TIMEOUT := 300; WORK_DIR := "/work";
                UNZIP_TOOL := "7z"; UNZIP_PATH := "7z" |} in
  let e := {| abspath := fun p => p;
              os_error := fun _ _ => None;
              lost_before_refusal := fun _ _ => false;
              proc := fun _ _ => Exits 95 0 "done" "";
              unzip := fun _ _ _ => (0%Z, None);
              disk_after := fun _ l => l;
              txt_of := fun _ => Summary.ReadFails "No such file or directory";
              csv_of := fun _ => Timeline.OpenFails "No such file or directory" |} in
  let file := {| filename := Some "sample.exe";
                 save_error :=
                   Some (CopyFails (OtherError "No space left on device")) |} in
  let req := {| files_file := Some file;
                form_analysis_id := Some "a1";
                form_password := None;
                form_is_zip := None |} in
  let w := {| fs := ["/work"]; log := []; calls := [] |} in
  outcome_of (analyze cfg e req) w
  = Return {| body := Failure "No space left on device"; code := 500 |}
  /\ calls (world_after (analyze cfg e req) w) = []
  /\ fs (world_after (analyze cfg e req) w)
     = ["/work"; "/work/a1_upload.exe"].
Proof.
  intros cfg e file req w.
  destruct (X20_save_failure_reported cfg e req file "a1" "sample.exe"
              (CopyFails (OtherError "No space left on device")) w)
    as (Ho & Hc & _); [reflexivity | reflexivity | reflexivity | reflexivity |].
  split; [exact Ho |]. split; [exact Hc | reflexivity].
Defined.

(** X21.  An upload marked as an archive from which [extract_zip] brings
    back no sample is answered 400 "Failed to extract zip file": the
    monitoring tool is not launched (the commands launched are those of the
    extraction), and the uploaded archive is off the disk afterwards unless
    the system refuses its removal. *)
Theorem X21_failed_extraction_answered_400
    (cfg : config) (e : env) (req : request) (file : upload)
    (analysis_id original_filename : string) (w : world)
    (sample_path : option string) :
  let temp_file := temp_file_of cfg analysis_id original_filename in
  let w0 := logged INFO ("Extracting infected zip: " +:+ analysis_id)
              (after_save cfg e analysis_id original_filename w) in
  let unpack := extract_zip cfg e temp_file analysis_id (form_password req) in
  let w' := world_after (analyze cfg e req) w in
  accepted_upload req file analysis_id original_filename ->
  is_zip_of req = true ->
  outcome_of unpack w0 = Return sample_path ->
  supplied sample_path = None ->
  outcome_of (analyze cfg e req) w
  = Return {| body := Failure "Failed to extract zip file"; code := 400 |}
  /\ calls w' = calls (world_after unpack w0)
  /\ (on_disk (abspath e temp_file) (fs w') = false
      \/ is_Some (os_error e Remove temp_file)).
Proof.
  intros temp_file w0 unpack w' Hreq Hzip Hout Hnone. subst w'.
  unfold outcome_of, world_after in *.
  rewrite (analyze_after_save cfg e req file analysis_id original_filename w
             Hreq).
  fold temp_file.
  assert (HA : exists w2,
            analyze_saved cfg e req analysis_id temp_file
              (after_save cfg e analysis_id original_filename w)
            = (Return {| body := Failure "Failed to extract zip file";
                         code := 400 |}, w2)
            /\ calls w2 = calls (unpack w0).2
            /\ (on_disk (abspath e temp_file) (fs w2) = false
                \/ is_Some (os_error e Remove temp_file))).
  { unfold analyze_saved. rewrite Hzip.
    unfold mbind at 1 2 3, py_bind, logger.
    fold (logged INFO ("Extracting infected zip: " +:+ analysis_id)
            (after_save cfg e analysis_id original_filename w)).
    fold w0. fold unpack.
    destruct (unpack w0) as [o w1]. simpl in Hout. subst o.
    destruct (remove_upload_spec e temp_file w1) as (w2 & -> & Hc & _ & Hgone).
    rewrite Hnone. by exists w2. }
  destruct HA as (w2 & -> & Hc & Hgone). done.
Qed.

Lemma X21_failed_extraction_answered_400_witness :
  let cfg := {| NORIBEN_PATH := "/opt/noriben/Noriben.py";
                PYTHON_PATH := "python";
                ANALYSIS_TIMEOUT := 300; WORK_DIR := "/work";
                UNZIP_TOOL := "7z"; UNZIP_PATH := "7z.exe" |} in
  let e := {| abspath := fun p => p;
              os_error := fun _ _ => None;
              lost_before_refusal := fun _ _ => false;
              proc := fun _ _ => Exits 1 2 "" "Wrong password";
              unzip := fun _ _ _ => (0%Z, None);
              disk_after := fun _ l => l;
              txt_of := fun _ => Summary.ReadFails "No such file or directory";
              csv_of := fun _ => Timeline.OpenFails "No such file or directory" |} in
  let file := {| filename := Some "invoice.zip"; save_error := None |} in
  let req := {| files_file := Some file;
                form_analysis_id := Some "a1";
                form_password := None;
                form_is_zip := Some "True" |} in
  let w := {| fs := ["/work"]; log := []; calls := [] |} in
  outcome_of (analyze cfg e req) w
  = Return {| body := Failure "Failed to extract zip file"; code := 400 |}
  /\ length (calls (world_after (analyze cfg e req) w)) = 5%nat
  /\ on_disk "/work/a1_upload.zip" (fs (world_after (analyze cfg e req) w))
     = false.
Proof.
  intros cfg e file req w.
  destruct (X21_failed_extraction_answered_400 cfg e req file "a1"
              "invoice.zip" w None) as (Ho & Hc & Hgone);
    [repeat split; reflexivity | reflexivity | vm_compute; reflexivity
    | reflexivity |].
  split; [exact Ho |]. split.
  - rewrite Hc. vm_compute. reflexivity.
  - destruct Hgone as [Hgone | [x Hx]]; [exact Hgone | discriminate Hx].
Defined.

(** X22.  For an upload that is not marked as an archive, the saved file
    itself is the sample: the body of the answer is the dictionary that
    [run_noriben] returns for it, with the code 200 for a success and 500
    for a failure; and afterwards the saved upload is off the disk, or the
    system refused its removal and a warning says so. *)
Theorem X22_plain_upload_is_the_sample
    (cfg : config) (e : env) (req : request) (file : upload)
    (analysis_id original_filename : string) (w : world) :
  let temp_file := temp_file_of cfg analysis_id original_filename in
  let w0 := after_save cfg e analysis_id original_filename w in
  let run := run_noriben cfg e temp_file analysis_id in
  let w' := world_after (analyze cfg e req) w in
  accepted_upload req file analysis_id original_filename ->
  is_zip_of req = false ->
  exists res,
    outcome_of run w0 = Return res
    /\ outcome_of (analyze cfg e req) w
       = Return {| body := res;
                   code := match res with
                           | Success _ => 200
                           | Failure _ => 500
                           end |}
    /\ w' = world_after run w0
    /\ (on_disk (abspath e temp_file) (fs w') = false
        \/ exists x, os_error e Remove temp_file = Some x
             /\ (WARNING, "Failed to cleanup sample: " +:+ str_exn x) ∈ log w').
Proof.
  intros temp_file w0 run w' Hreq Hzip. subst w'.
  destruct (run_and_answer_spec cfg e temp_file analysis_id w0)
    as (res & Hres & E).
  assert (HA : analyze cfg e req w
               = (Return {| body := res;
                            code := match res with
                                    | Success _ => 200
                                    | Failure _ => 500
                                    end |},
                  world_after run w0)).
  { rewrite (analyze_after_save cfg e req file analysis_id original_filename w
               Hreq).
    fold temp_file w0. unfold analyze_saved. by rewrite Hzip. }
  exists res. unfold outcome_of, world_after in *. rewrite HA. simpl.
  split; [done |]. split; [done |]. split; [done |].
  unfold run, run_noriben, try_finally.
  destruct (run_noriben_body_returns cfg e temp_file analysis_id w0)
    as (res' & w1 & ->).
  destruct (cleanup_sample_spec cfg e temp_file analysis_id w1)
    as (w2 & E2 & _ & Hs & _).
  rewrite E2. simpl. exact Hs.
Qed.

Lemma X22_plain_upload_is_the_sample_witness :
  let cfg := {| NORIBEN_PATH := "/opt/noriben/Noriben.py";
                PYTHON_PATH := "python";
                ANALYSIS_TIMEOUT := 300; WORK_DIR := "/work";
                UNZIP_TOOL := "7z"; UNZIP_PATH := "7z.exe" |} in
  let e := {| abspath := fun p => p;
              os_error := fun _ _ => None;
              lost_before_refusal := fun _ _ => false;
              proc := fun _ _ => Exits 3 1 "" "Procmon not found";
              unzip := fun _ _ _ => (0%Z, None);
              disk_after := fun _ l => l;
              txt_of := fun _ => Summary.ReadFails "No such file or directory";
              csv_of := fun _ => Timeline.OpenFails "No such file or directory" |} in
  let file := {| filename := Some "dropper.v2.exe"; save_error := None |} in
  let req := {| files_file := Some file;
                form_analysis_id := Some "a1";
                form_password := None;
                form_is_zip := None |} in
  let w := {| fs := ["/work"]; log := []; calls := [] |} in
  outcome_of (analyze cfg e req) w
  = Return {| body := Failure "Noriben execution failed (code 1): Procmon not found";
              code := 500 |}
  /\ on_disk "/work/a1_upload.exe" (fs (world_after (analyze cfg e req) w))
     = false.
Proof.
  intros cfg e file req w.
  destruct (X22_plain_upload_is_the_sample cfg e req file "a1"
              "dropper.v2.exe" w) as (res & Hres & Ho & _ & Hgone);
    [repeat split; reflexivity | reflexivity |].
  vm_compute in Hres. injection Hres as <-.
  split; [exact Ho |].
  destruct Hgone as [Hgone | (x & Hx & _)]; [exact Hgone | discriminate Hx].
Defined.

(** X24.  For an upload marked as an archive from which [extract_zip]
    brings back a sample, the uploaded archive is removed first and the
    extracted sample is what is analysed: the body of the answer is the
    dictionary that [run_noriben] returns for it, with the code 200 for a
    success and 500 for a failure; and afterwards the extraction directory
    is off the disk, or the system refused its removal and a warning says
    so. *)
Theorem X24_archive_sample_is_analysed
    (cfg : config) (e : env) (req : request) (file : upload)
    (analysis_id original_filename : string) (w : world)
    (found_sample : option string) (sample_path : string) :
  let temp_file := temp_file_of cfg analysis_id original_filename in
  let dir := joinpath (WORK_DIR cfg) (analysis_id +:+ "_extracted") in
  let w0 := logged INFO ("Extracting infected zip: " +:+ analysis_id)
              (after_save cfg e analysis_id original_filename w) in
  let unpack := extract_zip cfg e temp_file analysis_id (form_password req) in
  let w1 := world_after
              (try_except (os_remove e temp_file) Exception (fun _ => mret tt))
              (world_after unpack w0) in
  let w' := world_after (analyze cfg e req) w in
  accepted_upload req file analysis_id original_filename ->
  is_zip_of req = true ->
  outcome_of unpack w0 = Return found_sample ->
  supplied found_sample = Some sample_path ->
  exists res,
    outcome_of (run_noriben cfg e sample_path analysis_id) w1 = Return res
    /\ outcome_of (analyze cfg e req) w
       = Return {| body := res;
                   code := match res with
                           | Success _ => 200
                           | Failure _ => 500
                           end |}
    /\ w' = world_after (run_noriben cfg e sample_path analysis_id) w1
    /\ (on_disk (abspath e dir) (fs w') = false
        \/ exists x, os_error e Rmtree dir = Some x
             /\ (WARNING, "Failed to cleanup extraction directory: "
                          +:+ str_exn x) ∈ log w').
Proof.
  intros temp_file dir w0 unpack w1 w' Hreq Hzip Hout Hsome. subst w'.
  destruct (run_and_answer_spec cfg e sample_path analysis_id w1)
    as (res & Hres & E).
  assert (HA : analyze cfg e req w
               = (Return {| body := res;
                            code := match res with
                                    | Success _ => 200
                                    | Failure _ => 500
                                    end |},
                  world_after (run_noriben cfg e sample_path analysis_id) w1)).
  { rewrite (analyze_after_save cfg e req file analysis_id original_filename w
               Hreq).
    fold temp_file. unfold analyze_saved. rewrite Hzip.
    unfold mbind at 1 2 3, py_bind, logger.
    fold (logged INFO ("Extracting infected zip: " +:+ analysis_id)
            (after_save cfg e analysis_id original_filename w)).
    fold w0. fold unpack.
    subst w1. unfold outcome_of, world_after in *.
    destruct (unpack w0) as [o w2]. simpl in Hout. subst o. simpl in E |- *.
    destruct (remove_upload_spec e temp_file w2) as (w3 & Hrm & _).
    rewrite Hrm in E |- *. simpl in E |- *. by rewrite Hsome. }
  exists res. unfold outcome_of, world_after in *. rewrite HA. simpl.
  split; [done |]. split; [done |]. split; [done |].
  unfold run_noriben, try_finally.
  destruct (run_noriben_body_returns cfg e sample_path analysis_id w1)
    as (res' & w2 & ->).
  destruct (cleanup_sample_spec cfg e sample_path analysis_id w2)
    as (w3 & E2 & _ & _ & Hd).
  rewrite E2. simpl. exact Hd.
Qed.

Lemma X24_archive_sample_is_analysed_witness :
  let cfg := {| NORIBEN_PATH := "/opt/noriben/Noriben.py";
                PYTHON_PATH := "python";
                ANALYSIS_TIMEOUT := 300; WORK_DIR := "/work";
                UNZIP_TOOL := "7z"; UNZIP_PATH := "7z.exe" |} in
  let e := {| abspath := fun p => p;
              os_error := fun _ _ => None;
              lost_before_refusal := fun _ _ => false;
              proc := fun _ _ => Exits 1 0 "Everything is Ok" "";
              unzip := fun _ _ _ => (0%Z, None);
              disk_after := fun _ l =>
                if on_disk "/work/a1_extracted" l
                then l ++ ["/work/a1_extracted/payload.scr"] else l;
              txt_of := fun _ => Summary.ReadFails "No such file or directory";
              csv_of := fun _ => Timeline.OpenFails "No such file or directory" |} in
  let file := {| filename := Some "invoice.zip"; save_error := None |} in
  let req := {| files_file := Some file;
                form_analysis_id := Some "a1";
                form_password := Some "infected";
                form_is_zip := Some "true" |} in
  let w := {| fs := ["/work"]; log := []; calls := [] |} in
  outcome_of (analyze cfg e req) w
  = Return {| body := Failure "Failed to parse Noriben output"; code := 500 |}
  /\ map invoked (calls (world_after (analyze cfg e req) w))
     = [Subprocess ["7z.exe"; "x"; "/work/a1_upload.zip";
                    "-o/work/a1_extracted"; "-y"; "-pinfected"] None;
        Subprocess ["python"; "/opt/noriben/Noriben.py"; "--cmd";
                    "/work/a1_extracted/payload.scr"; "--timeout"; "300";
                    "--headless"; "--output"; "/work/a1"]
                   (Some "/opt/noriben")]
  /\ on_disk "/work/a1_extracted" (fs (world_after (analyze cfg e req) w))
     = false.
Proof.
  intros cfg e file req w.
  destruct (X24_archive_sample_is_analysed cfg e req file "a1" "invoice.zip" w
              (Some "/work/a1_extracted/payload.scr")
              "/work/a1_extracted/payload.scr")
    as (res & Hres & Ho & Hw & Hgone);
    [repeat split; reflexivity | reflexivity | vm_compute; reflexivity
    | reflexivity |].
  vm_compute in Hres. injection Hres as <-.
  split; [exact Ho |]. split.
  - rewrite Hw. vm_compute. reflexivity.
  - destruct Hgone as [Hgone | (x & Hx & _)]; [exact Hgone | discriminate Hx].
Defined.

End AnalyzeMore.

(** ** The extension of the uploaded file's name *)

Section UploadName.
Import Py Agent Http.

Lemma basename_suffix (p : string) : exists pre, p = pre +:+ basename p.
Proof.
  induction p as [| c p [pre IH]]; [by exists "" |].
  cbn [basename]. destruct (contains "/" (String c p)).
  - exists (String c pre).
    change (String c pre +:+ basename p) with (String c (pre +:+ basename p)).
    by rewrite <- IH.
  - by exists "".
Qed.

Lemma basename_no_slash (p : string) : contains "/" (basename p) = false.
Proof.
  induction p as [| c p IH]; [done |].
  cbn [basename]. by destruct (contains "/" (String c p)) eqn:E.
Qed.

Lemma contains_char_cons (c a : ascii) (s : string) :
  contains (String c "") (String a s)
  = Ascii.eqb c a || contains (String c "") s.
Proof. cbn [contains strip_prefix]. by destruct (Ascii.eqb c a). Qed.

Lemma contains_char_suffix (c : ascii) (a b : string) :
  contains (String c "") (a +:+ b) = false ->
  contains (String c "") b = false.
Proof.
  induction a as [| x a IH]; [done |].
  change (String x a +:+ b) with (String x (a +:+ b)).
  rewrite contains_char_cons. intros [_ H]%orb_false_iff. auto.
Qed.

Lemma ext_from_suffix (s : string) (seen : bool) :
  exists stem, s = stem +:+ ext_from seen s.
Proof.
  revert seen. induction s as [| c s IH]; intros seen; [by exists "" |].
  cbn [ext_from].
  destruct (IH (seen || negb (Ascii.eqb c "."))) as [stem Hs].
  destruct (ext_from (seen || negb (Ascii.eqb c ".")) s) as [| d r].
  - destruct (Ascii.eqb c "." && seen).
    + by exists "".
    + exists (String c s). by rewrite append_nil_r.
  - exists (String c stem).
    change (String c stem +:+ String d r) with (String c (stem +:+ String d r)).
    by rewrite <- Hs.
Qed.

Lemma ext_from_none (s : string) :
  ext_from true s = "" -> contains "." s = false.
Proof.
  induction s as [| c s IH]; [done |].
  cbn [ext_from orb]. rewrite contains_char_cons.
  destruct (ext_from true s) as [| d r]; [| done].
  rewrite andb_true_r, (Ascii.eqb_sym "." c).
  destruct (Ascii.eqb c "."); [done |]. intros _. by apply IH.
Qed.

Lemma ext_from_shape (s : string) (seen : bool) :
  ext_from seen s = ""
  \/ exists t, ext_from seen s = String "." t /\ contains "." t = false.
Proof.
  revert seen. induction s as [| c s IH]; intros seen; [by left |].
  cbn [ext_from].
  destruct (IH (seen || negb (Ascii.eqb c "."))) as [E | (t & E & Ht)];
    rewrite E; [| right; by exists t].
  destruct (Ascii.eqb_spec c ".") as [-> |]; [| by left].
  destruct seen; [| by left].
  right. exists s. split; [done |]. by apply ext_from_none.
Qed.

(** X23.  The extension that [analyze] takes from the client's file name
    and appends to the name of the saved upload is the end of that file
    name; it holds no "/", and it is empty or a dot followed by text
    without a dot. *)
Theorem X23_upload_extension (original_filename : string) :
  let file_ext := splitext_ext original_filename in
  (exists stem, original_filename = stem +:+ file_ext)
  /\ contains "/" file_ext = false
  /\ (file_ext = ""
      \/ exists t, file_ext = String "." t /\ contains "." t = false).
Proof.
  intros file_ext. subst file_ext. unfold splitext_ext.
  destruct (basename_suffix original_filename) as [pre Hpre].
  destruct (ext_from_suffix (basename original_filename) false) as [stem Hs].
  split; [| split].
  - exists (pre +:+ stem). rewrite append_assoc, <- Hs. exact Hpre.
  - apply (contains_char_suffix "/" stem).
    rewrite <- Hs. apply basename_no_slash.
  - apply ext_from_shape.
Qed.

End UploadName.
